(** * Daily Task Tracker: the rollover and persistence engine of server/index.js

    A shallow embedding of the Express server's store ([readTasks],
    [writeTasks]), of its daily rollover ([checkDailyReset]) and of the task
    routes, followed by the properties of the specification that can be
    settled on it.

    Modelling choices, all taken from the source:
    - the data file holds either nothing, text that [JSON.parse] rejects, or a
      document; text that parses to something else is outside the model, and
      each property names the shape of the file it is about;
      [fs.readFileSync] and [fs.writeFileSync] may throw;
    - [JSON.parse] builds fresh task objects on the JavaScript heap and the
      arrays [data.tasks] and [completedTasks] hold references to them, so a
      mutation through one array is seen through the other;
    - the wall clock and the outcome of each write are read from the world;
    - request bodies are well typed: a field is a string (a boolean for
      [completed]) or undefined; strings are sequences of code units below
      256;
    - the numbers of [GET /api/stats] are IEEE 754 doubles;
    - the handlers of the React client are functions of the component state
      that run one request against the server;
    - [console.log] and [console.error] have no effect on the state and are
      left out, and so are the static routes, the rendering and the
      date formatting of the client. *)

From Stdlib Require Import ZArith Bool Ascii List Lia Floats Uint63.
From stdpp Require Import base list strings pretty.

Open Scope string_scope.
Open Scope list_scope.

(** ** JavaScript strings and dates *)

Module Js.

Local Open Scope Z_scope.

(** White space and line terminators removed by [String.prototype.trim],
    for code units below 256. *)
Definition is_ws (c : ascii) : bool :=
  match nat_of_ascii c with
  | 9%nat | 10%nat | 11%nat | 12%nat | 13%nat | 32%nat | 160%nat => true
  | _ => false
  end.

Fixpoint trimStart (s : string) : string :=
  match s with
  | String c r => if is_ws c then trimStart r else s
  | EmptyString => EmptyString
  end.

Fixpoint trimEnd (s : string) : string :=
  match s with
  | String c r =>
      match trimEnd r with
      | EmptyString => if is_ws c then EmptyString else String c EmptyString
      | r' => String c r'
      end
  | EmptyString => EmptyString
  end.

Definition trim (s : string) : string := trimEnd (trimStart s).

(** Truthiness of a string: only the empty string is falsy. *)
Definition truthy (s : string) : bool :=
  match s with EmptyString => false | _ => true end.

(** [n.toString()] for an integer. *)
Definition toString (n : Z) : string := pretty n.

Fixpoint zeros (k : nat) : string :=
  match k with O => "" | S k' => String "0" (zeros k') end.

(** Decimal digits of a non-negative number, left-padded with zeros. *)
Definition pad (width : nat) (n : Z) : string :=
  let s := pretty n in zeros (width - String.length s)%nat +:+ s.

(** Proleptic Gregorian date of a day count since 1970-01-01. *)
Definition civil (days : Z) : Z * Z * Z :=
  let z := days + 719468 in
  let era := z / 146097 in
  let doe := z - era * 146097 in
  let yoe := (doe - doe / 1460 + doe / 36524 - doe / 146096) / 365 in
  let doy := doe - (365 * yoe + yoe / 4 - yoe / 100) in
  let mp := (5 * doy + 2) / 153 in
  let d := doy - (153 * mp + 2) / 5 + 1 in
  let m := if mp <? 10 then mp + 3 else mp - 9 in
  let y := yoe + era * 400 + (if m <=? 2 then 1 else 0) in
  (y, m, d).

Definition year_string (y : Z) : string :=
  if (0 <=? y) && (y <=? 9999) then pad 4 y
  else (if y <? 0 then "-" else "+") +:+ pad 6 (Z.abs y).

(** [new Date(ms).toISOString()]. *)
Definition toISOString (ms : Z) : string :=
  let '(y, m, d) := civil (ms / 86400000) in
  let r := ms mod 86400000 in
  year_string y +:+ "-" +:+ pad 2 m +:+ "-" +:+ pad 2 d +:+ "T" +:+
  pad 2 (r / 3600000) +:+ ":" +:+ pad 2 (r / 60000 mod 60) +:+ ":" +:+
  pad 2 (r / 1000 mod 60) +:+ "." +:+ pad 3 (r mod 1000) +:+ "Z".

(** [s.split("T")[0]]: the part of [s] before its first ["T"]. *)
Fixpoint split_T_0 (s : string) : string :=
  match s with
  | String c r => if Ascii.eqb c "T" then "" else String c (split_T_0 r)
  | EmptyString => EmptyString
  end.

(** [new Date(ms).toISOString().split("T")[0]], the YYYY-MM-DD date. *)
Definition isoDate (ms : Z) : string := split_T_0 (toISOString ms).

End Js.

(** ** The persisted document (the content of data/tasks.json) *)

Record Task := {
  id : string;
  title : string;
  description : string;
  priority : string;
  completed : bool;
  createdAt : string;
  completedAt : option string   (* [None] is JSON [null] *)
}.

Record HistoryEntry := {
  date : string;
  completedTasks : list Task;
  totalTasks : nat;
  completedCount : nat
}.

Record Document := {
  tasks : list Task;
  lastReset : string;
  history : list HistoryEntry
}.

(** ** Objects in memory

    [JSON.parse] returns an object graph. Task objects live on the heap and
    are reached through references; the arrays that hold them are lists of
    references. The top-level object [data] and the history entries are
    reached through one path only, so they are passed by value. *)

Abbreviation ref := nat (only parsing).
Abbreviation Heap := (list Task) (only parsing).

Record EntryObj := {
  e_date : string;
  e_completedTasks : list ref;
  e_totalTasks : nat;
  e_completedCount : nat
}.

Record Data := {
  d_tasks : list ref;
  d_lastReset : string;
  d_history : list EntryObj
}.

#[global] Instance Task_inhabited : Inhabited Task :=
  populate {| id := ""; title := ""; description := ""; priority := "";
              completed := false; createdAt := ""; completedAt := None |}.

(** ** The world: file system, heap, clock *)

Inductive FileContent :=
| Garbage                 (* text that JSON.parse rejects *)
| Json (d : Document).    (* the text JSON.stringify produces for [d] *)

Inductive Exn := ENOENT | SyntaxError | EIO.

Record World := {
  file : option FileContent;   (* data/tasks.json; [None]: cannot be read *)
  heap : Heap;
  clock : nat -> Z;            (* the k-th reading of the clock, in ms *)
  ticks : nat;                 (* readings taken so far *)
  write_ok : nat -> bool;      (* whether the k-th write succeeds *)
  writes : list Document       (* every document handed to writeFileSync *)
}.

Definition set_file (f : option FileContent) (w : World) : World :=
  {| file := f; heap := heap w; clock := clock w; ticks := ticks w;
     write_ok := write_ok w; writes := writes w |}.

Definition set_heap (h : Heap) (w : World) : World :=
  {| file := file w; heap := h; clock := clock w; ticks := ticks w;
     write_ok := write_ok w; writes := writes w |}.

Definition tick (w : World) : World :=
  {| file := file w; heap := heap w; clock := clock w; ticks := S (ticks w);
     write_ok := write_ok w; writes := writes w |}.

Definition log_write (d : Document) (w : World) : World :=
  {| file := file w; heap := heap w; clock := clock w; ticks := ticks w;
     write_ok := write_ok w; writes := writes w ++ [d] |}.

(** ** A state and exception monad for the handlers *)

Inductive Outcome (A : Type) :=
| Return (a : A)
| Throw (e : Exn).
Arguments Return {A} a.
Arguments Throw {A} e.

Definition M (A : Type) : Type := World -> Outcome A * World.

Definition ret {A} (a : A) : M A := fun w => (Return a, w).

Definition throw {A} (e : Exn) : M A := fun w => (Throw e, w).

Definition bind {A B} (m : M A) (k : A -> M B) : M B :=
  fun w => match m w with
           | (Return a, w') => k a w'
           | (Throw e, w') => (Throw e, w')
           end.

Definition try_catch {A} (m : M A) (handler : Exn -> M A) : M A :=
  fun w => match m w with
           | (Return a, w') => (Return a, w')
           | (Throw e, w') => handler e w'
           end.

Declare Scope js_scope.
Delimit Scope js_scope with js.
Notation "x <- m ;; k" := (bind m (fun x => k))
  (at level 100, m at next level, right associativity) : js_scope.
Notation "m ;;; k" := (bind m (fun _ => k))
  (at level 100, right associativity) : js_scope.
Open Scope js_scope.

Definition get_heap : M Heap := fun w => (Return (heap w), w).

Definition put_heap (h : Heap) : M unit := fun w => (Return tt, set_heap h w).

(** [Date.now()] and [new Date()]: one reading of the clock. *)
Definition Date_now : M Z := fun w => (Return (clock w (ticks w)), tick w).

(** [fs.readFileSync(DATA_FILE, "utf8")]. *)
Definition fs_readFileSync : M FileContent :=
  fun w => match file w with
           | Some c => (Return c, w)
           | None => (Throw ENOENT, w)
           end.

(** [fs.writeFileSync(DATA_FILE, text)]: a plain overwrite that may throw. *)
Definition fs_writeFileSync (d : Document) : M unit :=
  fun w => let w' := log_write d w in
           if write_ok w (length (writes w))
           then (Return tt, set_file (Some (Json d)) w')
           else (Throw EIO, w').

(** ** JSON.parse and JSON.stringify *)

(** Fresh objects for the elements of a parsed array. *)
Definition alloc (ts : list Task) : M (list ref) :=
  fun w => (Return (seq (length (heap w)) (length ts)),
            set_heap (heap w ++ ts) w).

Fixpoint alloc_entries (es : list HistoryEntry) : M (list EntryObj) :=
  match es with
  | [] => ret []
  | e :: es' =>
      rs <- alloc (completedTasks e);;
      os <- alloc_entries es';;
      ret ({| e_date := date e; e_completedTasks := rs;
              e_totalTasks := totalTasks e;
              e_completedCount := completedCount e |} :: os)
  end.

Definition JSON_parse (c : FileContent) : M Data :=
  match c with
  | Garbage => throw SyntaxError
  | Json d =>
      ts <- alloc (tasks d);;
      hs <- alloc_entries (history d);;
      ret {| d_tasks := ts; d_lastReset := lastReset d; d_history := hs |}
  end.

(** The object behind a reference. References come from [alloc] and
    [new_object] only, so they are always in the heap ([parsed_bound]
    below) and the default of [!!!] is never read. *)
Definition deref (h : Heap) (r : ref) : Task := h !!! r.

Definition stringify_entry (h : Heap) (e : EntryObj) : HistoryEntry :=
  {| date := e_date e; completedTasks := deref h <$> e_completedTasks e;
     totalTasks := e_totalTasks e; completedCount := e_completedCount e |}.

Definition stringify (h : Heap) (data : Data) : Document :=
  {| tasks := deref h <$> d_tasks data; lastReset := d_lastReset data;
     history := stringify_entry h <$> d_history data |}.

(** [JSON.stringify(data, null, 2)]: every reference is followed at the
    moment of the call. *)
Definition JSON_stringify (data : Data) : M Document :=
  h <- get_heap;; ret (stringify h data).

(** ** Field updates *)

Definition with_completed (v : bool) (t : Task) : Task :=
  {| id := id t; title := title t; description := description t;
     priority := priority t; completed := v; createdAt := createdAt t;
     completedAt := completedAt t |}.

Definition with_completedAt (v : option string) (t : Task) : Task :=
  {| id := id t; title := title t; description := description t;
     priority := priority t; completed := completed t;
     createdAt := createdAt t; completedAt := v |}.

Definition with_title (v : string) (t : Task) : Task :=
  {| id := id t; title := v; description := description t;
     priority := priority t; completed := completed t;
     createdAt := createdAt t; completedAt := completedAt t |}.

Definition with_description (v : string) (t : Task) : Task :=
  {| id := id t; title := title t; description := v;
     priority := priority t; completed := completed t;
     createdAt := createdAt t; completedAt := completedAt t |}.

Definition with_priority (v : string) (t : Task) : Task :=
  {| id := id t; title := title t; description := description t;
     priority := v; completed := completed t;
     createdAt := createdAt t; completedAt := completedAt t |}.

Definition with_lastReset (v : string) (data : Data) : Data :=
  {| d_tasks := d_tasks data; d_lastReset := v; d_history := d_history data |}.

Definition with_tasks (v : list ref) (data : Data) : Data :=
  {| d_tasks := v; d_lastReset := d_lastReset data;
     d_history := d_history data |}.

(** [data.history.push(e)]. *)
Definition push_history (e : EntryObj) (data : Data) : Data :=
  {| d_tasks := d_tasks data; d_lastReset := d_lastReset data;
     d_history := d_history data ++ [e] |}.

(** [task.field = v] on the object behind a reference. *)
Definition update (r : ref) (f : Task -> Task) : M unit :=
  h <- get_heap;; put_heap (alter f r h).

(** Reading the object behind a reference. *)
Definition load (r : ref) : M Task :=
  h <- get_heap;; ret (deref h r).

(** A new object literal. *)
Definition new_object (t : Task) : M ref :=
  h <- get_heap;; put_heap (h ++ [t]);;; ret (length h).

(** [array.filter(p)], [array.forEach(body)], [array.findIndex(p)]. *)
Definition array_filter (p : Task -> bool) (rs : list ref) : M (list ref) :=
  h <- get_heap;; ret (List.filter (fun r => p (deref h r)) rs).

Fixpoint forEach (rs : list ref) (body : ref -> M unit) : M unit :=
  match rs with
  | [] => ret tt
  | r :: rs' => body r;;; forEach rs' body
  end.

Fixpoint find_index {A} (p : A -> bool) (l : list A) : option nat :=
  match l with
  | [] => None
  | x :: l' => if p x then Some O else S <$> find_index p l'
  end.

(** [None] stands for the -1 of JavaScript. *)
Definition findIndex (p : Task -> bool) (rs : list ref) : M (option nat) :=
  h <- get_heap;; ret (find_index (fun r => p (deref h r)) rs).

(** ** The store: readTasks and writeTasks *)

Definition readTasks : M Data :=
  try_catch
    (data <- fs_readFileSync;; JSON_parse data)
    (fun _ =>
       now <- Date_now;;
       ret {| d_tasks := []; d_lastReset := Js.isoDate now;
              d_history := [] |}).

Definition writeTasks (data : Data) : M bool :=
  try_catch
    (text <- JSON_stringify data;; fs_writeFileSync text;;; ret true)
    (fun _ => ret false).

(** ** The rollover: checkDailyReset *)

Definition checkDailyReset : M bool :=
  data <- readTasks;;
  now <- Date_now;;
  let today := Js.isoDate now in
  if negb (String.eqb (d_lastReset data) today) then
    data <-
      (if (0 <? length (d_tasks data))%nat then
         completedTasks <- array_filter completed (d_tasks data);;
         if (0 <? length completedTasks)%nat then
           ret (push_history
                  {| e_date := d_lastReset data;
                     e_completedTasks := completedTasks;
                     e_totalTasks := length (d_tasks data);
                     e_completedCount := length completedTasks |} data)
         else ret data
       else ret data);;
    forEach (d_tasks data)
      (fun task =>
         update task (with_completed false);;;
         update task (with_completedAt None));;;
    let data := with_lastReset today data in
    writeTasks data;;;
    ret true
  else ret false.

(** ** The routes *)

Record CreateBody := {
  c_title : option string;         (* [None]: the field is undefined *)
  c_description : option string;
  c_priority : option string
}.

Record UpdateBody := {
  u_completed : option bool;
  u_title : option string;
  u_description : option string;
  u_priority : option string
}.

Inductive Body :=
| BTasks (ts : list Task) (last_reset today : string)
| BTask (t : Task)
| BHistory (h : list HistoryEntry)
| BMessage (msg : string)
| BError (msg : string).

Record Response := { status : nat; body : Body }.

Definition respond (code : nat) (b : Body) : M Response :=
  ret {| status := code; body := b |}.

(** GET /api/tasks *)
Definition get_tasks : M Response :=
  checkDailyReset;;;
  data <- readTasks;;
  h <- get_heap;;
  now <- Date_now;;
  respond 200 (BTasks (deref h <$> d_tasks data) (d_lastReset data)
                      (Js.isoDate now)).

(** POST /api/tasks *)
Definition post_tasks (req : CreateBody) : M Response :=
  let priority := default "medium" (c_priority req) in
  match c_title req with
  | None => respond 400 (BError "Task title is required")
  | Some title =>
      if negb (Js.truthy title) || String.eqb (Js.trim title) "" then
        respond 400 (BError "Task title is required")
      else
        checkDailyReset;;;
        data <- readTasks;;
        now <- Date_now;;
        created <- Date_now;;
        newTask <- new_object
          {| id := Js.toString now;
             title := Js.trim title;
             description :=
               match c_description req with
               | Some d => if Js.truthy d then Js.trim d else ""
               | None => ""
               end;
             priority := priority;
             completed := false;
             createdAt := Js.toISOString created;
             completedAt := None |};;
        let data := with_tasks (d_tasks data ++ [newTask]) data in
        ok <- writeTasks data;;
        if ok : bool then t <- load newTask;; respond 201 (BTask t)
        else respond 500 (BError "Failed to save task")
  end.

(** PUT /api/tasks/:id *)
Definition put_task (id0 : string) (req : UpdateBody) : M Response :=
  data <- readTasks;;
  taskIndex <- findIndex (fun task => String.eqb (id task) id0) (d_tasks data);;
  match taskIndex with
  | None => respond 404 (BError "Task not found")
  | Some i =>
      let task : ref := d_tasks data !!! i in
      match u_completed req with
      | Some c =>
          update task (with_completed c);;;
          stamp <- (if c then now <- Date_now;; ret (Some (Js.toISOString now))
                    else ret None);;
          update task (with_completedAt stamp)
      | None => ret tt
      end;;;
      match u_title req with
      | Some t => update task (with_title (Js.trim t))
      | None => ret tt
      end;;;
      match u_description req with
      | Some d => update task (with_description (Js.trim d))
      | None => ret tt
      end;;;
      match u_priority req with
      | Some p => update task (with_priority p)
      | None => ret tt
      end;;;
      ok <- writeTasks data;;
      if ok : bool then t <- load task;; respond 200 (BTask t)
      else respond 500 (BError "Failed to update task")
  end.

(** DELETE /api/tasks/:id *)
Definition delete_task (id0 : string) : M Response :=
  data <- readTasks;;
  taskIndex <- findIndex (fun task => String.eqb (id task) id0) (d_tasks data);;
  match taskIndex with
  | None => respond 404 (BError "Task not found")
  | Some i =>
      let data := with_tasks (delete i (d_tasks data)) data in
      ok <- writeTasks data;;
      if ok : bool then respond 200 (BMessage "Task deleted successfully")
      else respond 500 (BError "Failed to delete task")
  end.

(** GET /api/history *)
Definition get_history : M Response :=
  data <- readTasks;;
  h <- get_heap;;
  respond 200 (BHistory (stringify_entry h <$> d_history data)).

Inductive Request :=
| GetTasks
| PostTask (req : CreateBody)
| PutTask (id0 : string) (req : UpdateBody)
| DeleteTask (id0 : string)
| GetHistory.

Definition handle (r : Request) : M Response :=
  match r with
  | GetTasks => get_tasks
  | PostTask req => post_tasks req
  | PutTask id0 req => put_task id0 req
  | DeleteTask id0 => delete_task id0
  | GetHistory => get_history
  end.

(** The world after a sequence of requests, served one after the other. *)
Fixpoint serve (rs : list Request) (w : World) : World :=
  match rs with
  | [] => w
  | r :: rs' => serve rs' (snd (handle r w))
  end.

(** ** GET /api/stats

    The counts are JavaScript numbers, that is IEEE 754 doubles: the rate is
    computed with the double division and multiplication and rounded by
    [Math.round]. *)

(** The double of an array length (exact below 2^53; lengths are below
    2^32). *)
Definition number_of_nat (n : nat) : float :=
  PrimFloat.of_uint63 (Uint63.of_Z (Z.of_nat n)).

(** [Math.round(x)]: the integer nearest to [x], the upper one of two equally
    near, that is the floor of [x + 1/2] computed exactly; [None] stands for
    NaN and the infinities, which [Math.round] returns unchanged. *)
Definition Math_round (x : float) : option Z :=
  match Prim2SF x with
  | S754_zero _ => Some 0%Z
  | S754_finite sign m e =>
      let v := if sign then Z.neg m else Z.pos m in
      if (0 <=? e)%Z then Some (v * 2 ^ e)%Z
      else Some ((2 * v + 2 ^ (- e)) / 2 ^ (- e + 1))%Z
  | S754_infinity _ | S754_nan => None
  end.

(** [totalTasks > 0 ? Math.round((completedTasks / totalTasks) * 100) : 0] *)
Definition completionRate (completedTasks totalTasks : nat) : option Z :=
  if (0 <? totalTasks)%nat then
    Math_round
      (PrimFloat.mul
         (PrimFloat.div (number_of_nat completedTasks)
            (number_of_nat totalTasks))
         (number_of_nat 100))
  else Some 0%Z.

Record Stats := {
  s_today : string;
  s_totalTasks : nat;
  s_completedTasks : nat;
  s_pendingTasks : Z;
  s_completionRate : option Z
}.

(** The handler answers 200 with this object; it makes no rollover check. *)
Definition get_stats : M Stats :=
  data <- readTasks;;
  let today := d_lastReset data in
  let totalTasks := length (d_tasks data) in
  done <- array_filter completed (d_tasks data);;
  let completedTasks := length done in
  let pendingTasks := (Z.of_nat totalTasks - Z.of_nat completedTasks)%Z in
  ret {| s_today := today; s_totalTasks := totalTasks;
         s_completedTasks := completedTasks;
         s_pendingTasks := pendingTasks;
         s_completionRate := completionRate completedTasks totalTasks |}.

(** The percentage rounded half up, in exact arithmetic. *)
Definition exact_rate (completedTasks totalTasks : nat) : Z :=
  if (0 <? totalTasks)%nat then
    ((200 * Z.of_nat completedTasks + Z.of_nat totalTasks)
     / (2 * Z.of_nat totalTasks))%Z
  else 0%Z.

Definition rate_is_exact (c t : nat) : bool :=
  match completionRate c t with
  | Some r => (r =? exact_rate c t)%Z
  | None => false
  end.

(** ** The client: the handlers of client/src/App.js

    The part of the component state the handlers of the task list read and
    set. A handler runs to its end against the server; the [fetchStats] call
    it fires afterwards only reads, and is left out with the rendering. *)

Module App.

Record State := {
  tasks : list Task;
  newTask : string;
  newDescription : string;
  priority : string;
  loading : bool;
  error : option string;
  lastReset : string
}.

(** axios rejects the promise unless the status is 2xx. *)
Definition resolves (r : Response) : bool :=
  (200 <=? status r)%nat && (status r <? 300)%nat.

Definition set_tasks (ts : list Task) (st : State) : State :=
  {| tasks := ts; newTask := newTask st; newDescription := newDescription st;
     priority := priority st; loading := loading st; error := None;
     lastReset := lastReset st |}.

Definition set_error (msg : string) (st : State) : State :=
  {| tasks := tasks st; newTask := newTask st;
     newDescription := newDescription st; priority := priority st;
     loading := loading st; error := Some msg; lastReset := lastReset st |}.

(** [fetchTasks]: the list and the date of GET /api/tasks replace the ones
    held; [loading] is false at the end either way. *)
Definition fetchTasks (st : State) : M State :=
  response <- get_tasks;;
  if resolves response then
    match body response with
    | BTasks ts last_reset _ =>
        ret {| tasks := ts; newTask := newTask st;
               newDescription := newDescription st; priority := priority st;
               loading := false; error := None; lastReset := last_reset |}
    | _ =>
        ret {| tasks := tasks st; newTask := newTask st;
               newDescription := newDescription st; priority := priority st;
               loading := false;
               error := Some "Failed to load tasks. Please try again.";
               lastReset := lastReset st |}
    end
  else
    ret {| tasks := tasks st; newTask := newTask st;
           newDescription := newDescription st; priority := priority st;
           loading := false;
           error := Some "Failed to load tasks. Please try again.";
           lastReset := lastReset st |}.

(** [addTask]: nothing is sent for a blank input; on success the answer is
    appended and the form is cleared. A 2xx answer of these routes always
    carries a task; the other branch of the [match] is never taken. *)
Definition addTask (st : State) : M State :=
  if negb (Js.truthy (Js.trim (newTask st))) then ret st
  else
    response <- post_tasks
      {| c_title := Some (Js.trim (newTask st));
         c_description := Some (Js.trim (newDescription st));
         c_priority := Some (priority st) |};;
    if resolves response then
      match body response with
      | BTask t =>
          ret {| tasks := tasks st ++ [t]; newTask := "";
                 newDescription := ""; priority := "medium";
                 loading := loading st; error := None;
                 lastReset := lastReset st |}
      | _ => ret (set_error "Failed to add task. Please try again." st)
      end
    else ret (set_error "Failed to add task. Please try again." st).

(** [toggleTask(id, completed)]: the answer replaces every task of the list
    that carries the id. *)
Definition toggleTask (id0 : string) (completed : bool) (st : State) : M State :=
  response <- put_task id0
    {| u_completed := Some (negb completed); u_title := None;
       u_description := None; u_priority := None |};;
  if resolves response then
    match body response with
    | BTask t =>
        ret (set_tasks
               (map (fun task => if String.eqb (id task) id0 then t else task)
                  (tasks st)) st)
    | _ => ret (set_error "Failed to update task. Please try again." st)
    end
  else ret (set_error "Failed to update task. Please try again." st).

(** [deleteTask(id)]: every task of the list that carries the id goes. *)
Definition deleteTask (id0 : string) (st : State) : M State :=
  response <- delete_task id0;;
  if resolves response then
    ret (set_tasks
           (List.filter (fun task => negb (String.eqb (id task) id0))
              (tasks st)) st)
  else ret (set_error "Failed to delete task. Please try again." st).

End App.

(** ** Start-up

    The module creates the data file when it does not exist, outside any
    [try]: [fs.existsSync] is false exactly when the file is absent
    ([file w = None]); the data directory is taken to be there or created.
    When the server listens it runs the rollover check once. *)
Definition init_data_file : M unit :=
  fun w =>
    match file w with
    | Some _ => ret tt w
    | None =>
        (now <- Date_now;;
         fs_writeFileSync
           {| tasks := []; lastReset := Js.isoDate now; history := [] |}) w
    end.

Definition startup : M bool := init_data_file;;; checkDailyReset.

(** ** Descriptions on documents, used to state what the handlers store *)

(** What the reset loop leaves of a task. *)
Definition reset_task (t : Task) : Task :=
  with_completedAt None (with_completed false t).

(** Where [alloc_entries] puts the entries of a parsed history. *)
Fixpoint entries_at (base : nat) (es : list HistoryEntry) : list EntryObj :=
  match es with
  | [] => []
  | e :: es' =>
      {| e_date := date e;
         e_completedTasks := seq base (length (completedTasks e));
         e_totalTasks := totalTasks e;
         e_completedCount := completedCount e |}
      :: entries_at (base + length (completedTasks e)) es'
  end.

(** The object graph [data] is the parse of the document [d] in heap [h]:
    it prints back as [d], and no task of [data.tasks] is reachable from a
    second place. *)
Record parsed (h : Heap) (data : Data) (d : Document) : Prop := {
  parsed_tasks : deref h <$> d_tasks data = tasks d;
  parsed_history : stringify_entry h <$> d_history data = history d;
  parsed_lastReset : d_lastReset data = lastReset d;
  parsed_nodup : NoDup (d_tasks data);
  parsed_bound : Forall (fun r => r < length h) (d_tasks data);
  parsed_hbound :
    Forall (fun e => Forall (fun r => r < length h) (e_completedTasks e))
           (d_history data);
  parsed_apart :
    Forall (fun e => Forall (fun r => r ∉ d_tasks data) (e_completedTasks e))
           (d_history data)
}.

(** The clock and the write oracle are untouched and [n] readings of the
    clock were taken. *)
Definition same_env (n : nat) (w w' : World) : Prop :=
  clock w' = clock w /\ write_ok w' = write_ok w /\ ticks w' = ticks w + n.

(** The date [checkDailyReset] computes when called in [w] on a readable
    file. *)
Definition today_of (w : World) : string := Js.isoDate (clock w (ticks w)).

(** Whether the next write succeeds. *)
Definition next_write_ok (w : World) : bool :=
  write_ok w (length (writes w)).

(** The ids in use. *)
Definition ids (d : Document) : list string := id <$> tasks d.

(** The history entry the rollover appends, as it is printed by the write
    that follows the reset loop, and the document that write is given. *)
Definition archive (d : Document) : list HistoryEntry :=
  let done := List.filter completed (tasks d) in
  if (0 <? length (tasks d))%nat && (0 <? length done)%nat then
    [{| date := lastReset d; completedTasks := reset_task <$> done;
        totalTasks := length (tasks d); completedCount := length done |}]
  else [].

Definition rolled (today : string) (d : Document) : Document :=
  {| tasks := reset_task <$> tasks d; lastReset := today;
     history := history d ++ archive d |}.

(** What the rollover may change of a task. *)
Definition reset_of (t t' : Task) : Prop :=
  id t' = id t /\ title t' = title t /\ description t' = description t /\
  priority t' = priority t /\ createdAt t' = createdAt t /\
  completed t' = false /\ completedAt t' = None.

(** The task POST /api/tasks builds for [req] from its two clock readings. *)
Definition created (req : CreateBody) (s : string) (now at_ : Z) : Task :=
  {| id := Js.toString now;
     title := Js.trim s;
     description :=
       match c_description req with
       | Some d => if Js.truthy d then Js.trim d else ""
       | None => ""
       end;
     priority := default "medium" (c_priority req);
     completed := false;
     createdAt := Js.toISOString at_;
     completedAt := None |}.

(** The document after [data.tasks.push(t)]. *)
Definition pushed (t : Task) (d : Document) : Document :=
  {| tasks := tasks d ++ [t]; lastReset := lastReset d; history := history d |}.

(** Steps that change nothing but the object behind [r] (and the clock
    count). *)
Definition heap_step (r : nat) (w w' : World) : Prop :=
  file w' = file w /\ writes w' = writes w /\ write_ok w' = write_ok w /\
  forall r', r' <> r -> deref (heap w') r' = deref (heap w) r'.

Definition only_touches {A} (r : nat) (m : M A) : Prop :=
  forall w, exists a w', m w = (Return a, w') /\ heap_step r w w'.

(** ** Sample documents and worlds, for the examples *)

Definition task_run : Task :=
  {| id := "1"; title := "run"; description := ""; priority := "medium";
     completed := true; createdAt := "2024-01-01T08:00:00.000Z";
     completedAt := Some "2024-01-01T10:00:00.000Z" |}.

Definition task_read : Task :=
  {| id := "2"; title := "read"; description := ""; priority := "low";
     completed := false; createdAt := "2024-01-01T08:00:00.000Z";
     completedAt := None |}.

Definition doc_jan1 : Document :=
  {| tasks := [task_run; task_read]; lastReset := "2024-01-01";
     history := [] |}.

Definition doc_idle : Document :=
  {| tasks := [task_read]; lastReset := "2024-01-01"; history := [] |}.

(** 2024-01-01T12:00:00.000Z and 2024-01-02T00:00:00.000Z. *)
Definition jan1_noon : Z := 1704110400000.
Definition jan2 : Z := 1704153600000.

(** A world whose clock stands still at [ms] and whose writes all succeed
    ([ok = true]) or all fail. *)
Definition world_at (f : option FileContent) (ms : Z) (ok : bool) : World :=
  {| file := f; heap := []; clock := fun _ => ms; ticks := 0;
     write_ok := fun _ => ok; writes := [] |}.

Definition w_same_day : World := world_at (Some (Json doc_jan1)) jan1_noon true.
Definition w_next_day : World := world_at (Some (Json doc_jan1)) jan2 true.
Definition w_idle_next_day : World := world_at (Some (Json doc_idle)) jan2 true.
Definition w_disk_full : World := world_at (Some (Json doc_jan1)) jan2 false.
Definition w_no_file : World := world_at None jan2 true.

(** The day after [doc_jan1] was stored, with a disk that refuses the first
    write and accepts the later ones. *)
Definition w_first_save_fails : World :=
  {| file := Some (Json doc_jan1); heap := []; clock := fun _ => jan2;
     ticks := 0; write_ok := fun k => negb (k =? 0)%nat; writes := [] |}.

(** Request bodies. *)
Definition new_task (s : string) : CreateBody :=
  {| c_title := Some s; c_description := None; c_priority := None |}.

Definition rename_to (s : string) : UpdateBody :=
  {| u_completed := None; u_title := Some s; u_description := None;
     u_priority := None |}.

(** ** What an update does to the task it finds *)

(** The four conditional assignments of PUT /api/tasks/:id, in their order;
    [stamp] is [new Date().toISOString()], read when [completed] is true. *)
Definition apply_update (req : UpdateBody) (stamp : string) (t : Task) : Task :=
  let t1 := match u_completed req with
            | Some c =>
                with_completedAt (if c then Some stamp else None)
                  (with_completed c t)
            | None => t
            end in
  let t2 := match u_title req with
            | Some s => with_title (Js.trim s) t1
            | None => t1
            end in
  let t3 := match u_description req with
            | Some s => with_description (Js.trim s) t2
            | None => t2
            end in
  match u_priority req with
  | Some p => with_priority p t3
  | None => t3
  end.

(** The clock is read by an update only for [completed: true]. *)
Definition update_reads_clock (req : UpdateBody) : bool :=
  match u_completed req with Some true => true | _ => false end.

Definition with_doc_tasks (ts : list Task) (d : Document) : Document :=
  {| tasks := ts; lastReset := lastReset d; history := history d |}.

Definition set_completed (c : bool) : UpdateBody :=
  {| u_completed := Some c; u_title := None; u_description := None;
     u_priority := None |}.

(** What every history entry written by the rollover satisfies: it lists
    as many tasks as it counts, at least one and no more than there were. *)
Definition entry_counted (e : HistoryEntry) : Prop :=
  completedCount e = length (completedTasks e) /\
  0 < completedCount e /\ completedCount e <= totalTasks e.

Definition is_creation (r : Request) : bool :=
  match r with PostTask _ => true | _ => false end.

(** A day of requests without a creation, and one with. *)
Definition requests_no_creation : list Request :=
  [GetTasks; PutTask "2" (set_completed true); DeleteTask "1"; GetHistory;
   PutTask "9" (rename_to "x")].

Definition requests_with_creation : list Request :=
  [PostTask (new_task "walk"); GetTasks; PutTask "1" (rename_to " jog ");
   DeleteTask "2"; GetHistory].

Definition app_state (ts : list Task) (input : string) : App.State :=
  {| App.tasks := ts; App.newTask := input; App.newDescription := "";
     App.priority := "medium"; App.loading := false; App.error := None;
     App.lastReset := "" |}.

(** A computation that leaves the clock as it is and only takes readings
    of it. *)
Definition advancing {A} (m : M A) : Prop :=
  forall w o w', m w = (o, w') -> clock w' = clock w /\ ticks w <= ticks w'.

(** The ids in use are timestamps of readings the clock has left behind. *)
Definition ids_from_the_past (w : World) (d : Document) : Prop :=
  Forall (fun i => exists ms, i = Js.toString ms /\
                              (ms < clock w (ticks w))%Z) (ids d).

(** A world whose clock moves by one millisecond at every reading. *)
Definition w_ticking : World :=
  {| file := Some (Json doc_jan1); heap := [];
     clock := fun k => (jan1_noon + Z.of_nat k)%Z; ticks := 0;
     write_ok := fun _ => true; writes := [] |}.

Definition requests_two_creations : list Request :=
  [PostTask (new_task "walk"); PostTask (new_task "swim"); DeleteTask "1";
   GetTasks].

(** * Properties *)

(** ** Strings *)

Lemma trimEnd_cons c r :
  Js.trimEnd (String c r) =
  match Js.trimEnd r with
  | EmptyString => if Js.is_ws c then EmptyString else String c EmptyString
  | r' => String c r'
  end.
Proof. reflexivity. Qed.

Lemma trimEnd_idem s : Js.trimEnd (Js.trimEnd s) = Js.trimEnd s.
Proof.
  induction s as [|c r IH]; [reflexivity|].
  rewrite trimEnd_cons.
  destruct (Js.trimEnd r) as [|c' r'] eqn:E.
  - destruct (Js.is_ws c) eqn:W; [reflexivity|].
    rewrite trimEnd_cons. simpl. by rewrite W.
  - rewrite trimEnd_cons, IH. reflexivity.
Qed.

Lemma trimStart_trimEnd_comm s :
  Js.trimStart (Js.trimEnd s) = Js.trimEnd (Js.trimStart s).
Proof.
  induction s as [|c r IH]; simpl; [reflexivity|].
  destruct (Js.is_ws c) eqn:W.
  - rewrite <- IH. destruct (Js.trimEnd r) eqn:E; simpl; by rewrite ?W.
  - simpl. destruct (Js.trimEnd r) eqn:E; simpl; by rewrite W.
Qed.

Lemma trimStart_idem s : Js.trimStart (Js.trimStart s) = Js.trimStart s.
Proof.
  induction s as [|c r IH]; simpl; [reflexivity|].
  destruct (Js.is_ws c) eqn:W; [exact IH|]. simpl. by rewrite W.
Qed.

Lemma trim_idem s : Js.trim (Js.trim s) = Js.trim s.
Proof.
  unfold Js.trim.
  by rewrite trimStart_trimEnd_comm, trimStart_idem, trimEnd_idem.
Qed.

Lemma toString_inj a b : Js.toString a = Js.toString b -> a = b.
Proof. apply pretty_Z_inj. Qed.

(** ** The heap *)

Lemma reset_task_idem t : reset_task (reset_task t) = reset_task t.
Proof. reflexivity. Qed.

Lemma deref_alloc (h ts post : Heap) :
  deref (h ++ ts ++ post) <$> seq (length h) (length ts) = ts.
Proof.
  revert h. induction ts as [|t ts IH]; intros h; [reflexivity|].
  simpl. f_equal.
  - unfold deref. apply list_lookup_total_middle. reflexivity.
  - specialize (IH (h ++ [t])).
    rewrite length_app, <- app_assoc in IH. simpl in IH.
    replace (length h + 1) with (S (length h)) in IH by lia. exact IH.
Qed.

Lemma deref_alter f r0 (h : Heap) r :
  r < length h ->
  deref (alter f r0 h) r = if decide (r = r0) then f (deref h r) else deref h r.
Proof.
  intros Hr. unfold deref. destruct (decide (r = r0)) as [->|Hne].
  - by apply list_lookup_total_alter_eq.
  - apply list_lookup_total_alter_ne. congruence.
Qed.

Lemma deref_snoc_old (h : Heap) t r : r < length h -> deref (h ++ [t]) r = deref h r.
Proof. intros Hr. unfold deref. by apply lookup_total_app_l. Qed.

Lemma deref_snoc_new (h : Heap) t : deref (h ++ [t]) (length h) = t.
Proof. unfold deref. by apply list_lookup_total_middle. Qed.

(** ** JSON.parse builds a faithful, unshared object graph *)

Lemma set_heap_same w : set_heap (heap w) w = w.
Proof. by destruct w. Qed.

Lemma alloc_entries_eq es w :
  alloc_entries es w =
  (Return (entries_at (length (heap w)) es),
   set_heap (heap w ++ concat (completedTasks <$> es)) w).
Proof.
  revert w. induction es as [|e es IH]; intros w; simpl.
  - unfold ret. by rewrite app_nil_r, set_heap_same.
  - unfold bind, alloc. rewrite IH. unfold ret. simpl.
    by rewrite length_app, app_assoc.
Qed.

Lemma stringify_entries_at (pre post : Heap) es :
  stringify_entry (pre ++ concat (completedTasks <$> es) ++ post)
    <$> entries_at (length pre) es = es.
Proof.
  revert pre. induction es as [|e es IH]; intros pre; [reflexivity|].
  simpl. f_equal.
  - unfold stringify_entry. simpl.
    rewrite <- (app_assoc (completedTasks e)), deref_alloc. by destruct e.
  - specialize (IH (pre ++ completedTasks e)).
    rewrite length_app, <- app_assoc in IH.
    rewrite <- (app_assoc (completedTasks e)). exact IH.
Qed.

Lemma entries_at_range base es :
  Forall (fun e =>
            Forall (fun r => base <= r
                             < base + length (concat (completedTasks <$> es)))
                   (e_completedTasks e))
         (entries_at base es).
Proof.
  revert base. induction es as [|e es IH]; intros base; simpl; [constructor|].
  rewrite length_app. constructor.
  - simpl. apply Forall_forall. intros r Hr. apply elem_of_seq in Hr. lia.
  - eapply Forall_impl; [apply IH|]. intros o Ho. simpl in Ho.
    eapply Forall_impl; [exact Ho|]. intros r Hr. simpl in Hr.
    unfold fmap in *. lia.
Qed.

Lemma JSON_parse_ok d w :
  exists data h',
    JSON_parse (Json d) w = (Return data, set_heap h' w) /\ parsed h' data d.
Proof.
  exists {| d_tasks := seq (length (heap w)) (length (tasks d));
            d_lastReset := lastReset d;
            d_history :=
              entries_at (length (heap w) + length (tasks d)) (history d) |}.
  exists (heap w ++ tasks d ++ concat (completedTasks <$> history d)).
  split.
  - unfold JSON_parse, bind, alloc. rewrite alloc_entries_eq. unfold ret.
    simpl. by rewrite length_app, <- app_assoc.
  - pose proof (entries_at_range (length (heap w) + length (tasks d))
                  (history d)) as Hrange.
    split; simpl.
    + apply deref_alloc.
    + pose proof (stringify_entries_at (heap w ++ tasks d) [] (history d)) as H.
      by rewrite length_app, app_nil_r, <- app_assoc in H.
    + reflexivity.
    + apply NoDup_seq.
    + apply Forall_forall. intros r Hr. apply elem_of_seq in Hr.
      rewrite !length_app. lia.
    + eapply Forall_impl; [exact Hrange|]. intros o Ho. simpl in Ho.
      eapply Forall_impl; [exact Ho|]. intros r Hr. simpl in Hr.
      rewrite !length_app. lia.
    + eapply Forall_impl; [exact Hrange|]. intros o Ho. simpl in Ho.
      eapply Forall_impl; [exact Ho|]. intros r Hr Hin. simpl in Hr.
      apply elem_of_seq in Hin. lia.
Qed.

(** ** The store *)

Lemma readTasks_stored w d :
  file w = Some (Json d) ->
  exists data h', readTasks w = (Return data, set_heap h' w) /\ parsed h' data d.
Proof.
  intros Hf. destruct (JSON_parse_ok d w) as (data & h' & Hp & Hd).
  exists data, h'. split; [|exact Hd].
  unfold readTasks, try_catch, bind, fs_readFileSync. by rewrite Hf, Hp.
Qed.

Lemma readTasks_unreadable w :
  file w = None \/ file w = Some Garbage ->
  readTasks w =
  (Return {| d_tasks := []; d_lastReset := today_of w; d_history := [] |},
   tick w).
Proof.
  intros [Hf|Hf]; unfold readTasks, try_catch, bind, fs_readFileSync;
    by rewrite Hf.
Qed.

Lemma writeTasks_eq data w :
  writeTasks data w =
  let doc := stringify (heap w) data in
  if next_write_ok w
  then (Return true, set_file (Some (Json doc)) (log_write doc w))
  else (Return false, log_write doc w).
Proof.
  unfold writeTasks, try_catch, bind, JSON_stringify, get_heap,
    fs_writeFileSync, next_write_ok, ret.
  simpl. by destruct (write_ok w (length (writes w))).
Qed.

(** ** The rollover check *)

(** *** The reset loop *)

Lemma forEach_reset rs w :
  exists h',
    forEach rs
      (fun task =>
         update task (with_completed false);;;
         update task (with_completedAt None)) w
    = (Return tt, set_heap h' w) /\
    length h' = length (heap w) /\
    forall r, r < length (heap w) ->
      deref h' r = if decide (r ∈ rs) then reset_task (deref (heap w) r)
                   else deref (heap w) r.
Proof.
  revert w. induction rs as [|r0 rs IH]; intros w.
  - exists (heap w). rewrite set_heap_same. split; [reflexivity|].
    split; [reflexivity|]. intros r _.
    by rewrite decide_False by apply not_elem_of_nil.
  - set (h1 := alter (with_completedAt None) r0
                 (alter (with_completed false) r0 (heap w))).
    destruct (IH (set_heap h1 w)) as (h' & Hrun & Hlen & Hd).
    assert (Hlen1 : length h1 = length (heap w))
      by (unfold h1; by rewrite !length_alter).
    exists h'. split; [|split].
    + simpl. unfold bind at 1. unfold bind at 1. simpl.
      fold h1. exact Hrun.
    + simpl in Hlen. congruence.
    + intros r Hr. simpl in Hd, Hlen. rewrite Hd by lia.
      assert (H1 : deref h1 r = if decide (r = r0)
                                then reset_task (deref (heap w) r)
                                else deref (heap w) r).
      { unfold h1. rewrite deref_alter by (rewrite length_alter; lia).
        rewrite deref_alter by lia. by destruct (decide (r = r0)). }
      rewrite H1.
      destruct (decide (r = r0)) as [->|Hne].
      * rewrite (decide_True (P := r0 ∈ r0 :: rs))
          by (apply elem_of_cons; by left).
        by destruct (decide (r0 ∈ rs)).
      * destruct (decide (r ∈ rs)) as [Hin|Hnin].
        -- by rewrite decide_True by (apply elem_of_cons; by right).
        -- rewrite decide_False; [done|].
           intros [?|?]%elem_of_cons; contradiction.
Qed.

Lemma deref_filter (p : Task -> bool) (h : Heap) rs :
  deref h <$> List.filter (fun r => p (deref h r)) rs
  = List.filter p (deref h <$> rs).
Proof.
  induction rs as [|r rs IH]; [reflexivity|].
  rewrite fmap_cons. cbn [List.filter].
  destruct (p (deref h r)); [rewrite fmap_cons|]; by rewrite IH.
Qed.

Lemma filter_incl {A} (p : A -> bool) (l : list A) x :
  x ∈ List.filter p l -> x ∈ l.
Proof.
  rewrite !list_elem_of_In. intros H. by apply filter_In in H as [H _].
Qed.

(** After the loop every task of [data.tasks] is reset, whatever array it
    is reached through; objects of earlier history entries are untouched. *)
Lemma print_after_reset h h' data d :
  parsed h data d ->
  length h' = length h ->
  (forall r, r < length h ->
     deref h' r = if decide (r ∈ d_tasks data) then reset_task (deref h r)
                  else deref h r) ->
  deref h' <$> d_tasks data = reset_task <$> tasks d /\
  stringify_entry h' <$> d_history data = history d /\
  deref h' <$> List.filter (fun r => completed (deref h r)) (d_tasks data)
  = reset_task <$> List.filter completed (tasks d).
Proof.
  intros [Ht Hh _ _ Hb Hhb Hap] Hlen Hd.
  assert (Hin : forall r, r ∈ d_tasks data ->
                          deref h' r = reset_task (deref h r)).
  { intros r Hr. rewrite Forall_forall in Hb.
    rewrite Hd by auto. by rewrite decide_True. }
  split; [|split].
  - rewrite <- Ht, <- list_fmap_compose. apply Forall_fmap_ext.
    apply Forall_forall. intros r Hr. simpl. auto.
  - rewrite <- Hh. apply Forall_fmap_ext.
    rewrite Forall_forall in Hhb, Hap. apply Forall_forall. intros e He.
    unfold stringify_entry. f_equal. apply Forall_fmap_ext.
    specialize (Hhb e He). specialize (Hap e He).
    rewrite Forall_forall in Hhb, Hap. apply Forall_forall. intros r Hr.
    rewrite Hd by auto. rewrite decide_False; auto.
  - rewrite <- Ht, <- deref_filter, <- list_fmap_compose.
    apply Forall_fmap_ext, Forall_forall. intros r Hr. simpl.
    apply Hin. eapply filter_incl, Hr.
Qed.

(** *** What checkDailyReset stores *)

Lemma same_env_refl_tick w h : same_env 1 w (tick (set_heap h w)).
Proof. unfold same_env. simpl. split; [done|split; [done|lia]]. Qed.

Lemma checkDailyReset_fresh w d :
  file w = Some (Json d) ->
  lastReset d = today_of w ->
  exists w',
    checkDailyReset w = (Return false, w') /\
    writes w' = writes w /\ file w' = file w /\ same_env 1 w w'.
Proof.
  intros Hf Hday.
  destruct (readTasks_stored w d Hf) as (data & h & Hread & Hp).
  exists (tick (set_heap h w)).
  split; [|split; [done|split; [done|apply same_env_refl_tick]]].
  unfold checkDailyReset, bind at 1. rewrite Hread.
  unfold bind at 1, Date_now. simpl.
  rewrite (parsed_lastReset _ _ _ Hp), Hday. unfold today_of.
  by rewrite String.eqb_refl.
Qed.

Lemma checkDailyReset_stale w d :
  file w = Some (Json d) ->
  lastReset d <> today_of w ->
  exists w',
    checkDailyReset w = (Return true, w') /\
    writes w' = writes w ++ [rolled (today_of w) d] /\
    file w' = (if next_write_ok w then Some (Json (rolled (today_of w) d))
               else file w) /\
    same_env 1 w w'.
Proof.
  intros Hf Hday.
  destruct (readTasks_stored w d Hf) as (data & h & Hread & Hp).
  unfold checkDailyReset, bind at 1. rewrite Hread.
  unfold bind at 1, Date_now. simpl.
  rewrite (parsed_lastReset _ _ _ Hp).
  apply String.eqb_neq in Hday. unfold today_of in *. rewrite Hday. simpl.
  set (w1 := tick (set_heap h w)).
  set (today := Js.isoDate (clock w (ticks w))).
  set (filt := List.filter (fun r => completed (deref h r)) (d_tasks data)).
  set (new := if (0 <? length (d_tasks data))%nat && (0 <? length filt)%nat
              then [{| e_date := lastReset d; e_completedTasks := filt;
                       e_totalTasks := length (d_tasks data);
                       e_completedCount := length filt |}]
              else []).
  set (data0 := {| d_tasks := d_tasks data; d_lastReset := d_lastReset data;
                   d_history := d_history data ++ new |}).
  assert (Hstep :
    (if (0 <? length (d_tasks data))%nat
      then
       completedTasks0 <- array_filter completed (d_tasks data);;
       (if (0 <? length completedTasks0)%nat
        then
         ret
           (push_history
              {|
                e_date := lastReset d;
                e_completedTasks := completedTasks0;
                e_totalTasks := length (d_tasks data);
                e_completedCount := length completedTasks0
              |} data)
        else ret data)
      else ret data) w1 = (Return data0, w1)).
  { unfold data0, new.
    destruct (0 <? length (d_tasks data))%nat; simpl.
    - unfold bind, array_filter, get_heap, ret. simpl. fold filt.
      destruct (0 <? length filt)%nat; [reflexivity|].
      rewrite app_nil_r. by destruct data.
    - unfold ret. rewrite app_nil_r. by destruct data. }
  unfold bind at 1. rewrite Hstep.
  destruct (forEach_reset (d_tasks data0) w1) as (h' & Hloop & Hlen & Hd).
  unfold bind at 1. rewrite Hloop.
  unfold bind at 1. rewrite writeTasks_eq.
  simpl in Hlen, Hd.
  destruct (print_after_reset h h' data d Hp Hlen Hd) as (Pt & Ph & Pf).
  assert (Hdoc : stringify h' (with_lastReset today data0) = rolled today d).
  { unfold stringify, rolled. simpl. f_equal; [exact Pt|].
    rewrite fmap_app, Ph. f_equal.
    assert (Hl : length (tasks d) = length (d_tasks data))
      by (by rewrite <- (parsed_tasks _ _ _ Hp), length_fmap).
    assert (Hlf : length (List.filter completed (tasks d)) = length filt).
    { rewrite <- (parsed_tasks _ _ _ Hp), <- deref_filter.
      apply length_fmap. }
    unfold new, archive. cbv zeta. rewrite <- Pf, Hl, Hlf.
    by destruct ((0 <? length (d_tasks data))%nat && (0 <? length filt)%nat). }
  assert (Hok : next_write_ok (set_heap h' w1) = next_write_ok w) by reflexivity.
  cbv zeta. rewrite Hok. simpl heap. rewrite Hdoc.
  destruct (next_write_ok w); eexists; (split; [reflexivity|]); simpl;
    (split; [reflexivity|]); (split; [reflexivity|]);
    unfold same_env; simpl; (split; [done|split; [done|lia]]).
Qed.

Lemma checkDailyReset_unreadable w :
  file w = None \/ file w = Some Garbage ->
  Js.isoDate (clock w (S (ticks w))) = today_of w ->
  checkDailyReset w = (Return false, tick (tick w)).
Proof.
  intros Hf Hday. unfold checkDailyReset, bind at 1.
  rewrite (readTasks_unreadable w Hf).
  unfold bind, Date_now. simpl. rewrite Hday.
  by rewrite String.eqb_refl.
Qed.

Lemma checkDailyReset_stored w d :
  file w = Some (Json d) ->
  exists b w1 d1,
    checkDailyReset w = (Return b, w1) /\
    file w1 = Some (Json d1) /\
    same_env 1 w w1 /\
    (d1 = d \/ d1 = rolled (today_of w) d) /\
    (lastReset d = today_of w -> d1 = d /\ writes w1 = writes w).
Proof.
  intros Hf. destruct (decide (lastReset d = today_of w)) as [Heq|Hne].
  - destruct (checkDailyReset_fresh w d Hf Heq) as (w1 & Hrun & Hw & Hfile & He).
    exists false, w1, d. rewrite Hfile. auto 10.
  - destruct (checkDailyReset_stale w d Hf Hne) as (w1 & Hrun & Hw & Hfile & He).
    destruct (next_write_ok w).
    + exists true, w1, (rolled (today_of w) d).
      split; [done|]. split; [done|]. split; [done|].
      split; [by right|]. intros; contradiction.
    + exists true, w1, d. rewrite Hfile.
      split; [done|]. split; [done|]. split; [done|].
      split; [by left|]. intros; contradiction.
Qed.

Lemma filter_nonempty {A} (p : A -> bool) (l : list A) x :
  x ∈ l -> p x = true -> (0 <? length (List.filter p l))%nat = true.
Proof.
  intros Hin Hp. apply Nat.ltb_lt.
  assert (Hx : In x (List.filter p l))
    by (apply filter_In; split; [by apply list_elem_of_In|done]).
  destruct (List.filter p l); [destruct Hx|simpl; lia].
Qed.

Lemma filter_none {A} (p : A -> bool) (l : list A) :
  Forall (fun x => p x = false) l -> List.filter p l = [].
Proof.
  induction 1 as [|x l Hx _ IH]; [reflexivity|]. simpl. by rewrite Hx.
Qed.

Lemma archive_some d t :
  t ∈ tasks d -> completed t = true ->
  archive d =
  [{| date := lastReset d;
      completedTasks := reset_task <$> List.filter completed (tasks d);
      totalTasks := length (tasks d);
      completedCount := length (List.filter completed (tasks d)) |}].
Proof.
  intros Hin Hc. unfold archive. cbv zeta.
  rewrite (filter_nonempty completed (tasks d) t Hin Hc).
  destruct (tasks d); [by apply not_elem_of_nil in Hin|reflexivity].
Qed.

Lemma archive_none d :
  Forall (fun t => completed t = false) (tasks d) -> archive d = [].
Proof.
  intros H. unfold archive. cbv zeta. rewrite (filter_none _ _ H).
  simpl. by rewrite andb_false_r.
Qed.

(** Every task of an appended entry is printed with its completion reset:
    the entry holds the very objects the loop has just cleared. *)
Lemma archive_is_reset d e t :
  e ∈ archive d -> t ∈ completedTasks e ->
  completed t = false /\ completedAt t = None.
Proof.
  unfold archive. cbv zeta.
  destruct (_ && _); [|by intros ?%not_elem_of_nil].
  intros ->%list_elem_of_singleton. simpl.
  intros (t0 & -> & _)%list_elem_of_fmap. by split.
Qed.

(** ** Creating a task *)

Lemma print_after_push h data d t :
  parsed h data d ->
  stringify (h ++ [t]) (with_tasks (d_tasks data ++ [length h]) data)
  = {| tasks := tasks d ++ [t]; lastReset := lastReset d;
       history := history d |}.
Proof.
  intros [Ht Hh Hl _ Hb Hhb _]. unfold stringify. simpl. f_equal.
  - rewrite fmap_app. simpl. rewrite deref_snoc_new, <- Ht. f_equal.
    apply Forall_fmap_ext. eapply Forall_impl; [exact Hb|].
    intros r Hr. simpl in Hr. by apply deref_snoc_old.
  - exact Hl.
  - rewrite <- Hh. apply Forall_fmap_ext.
    eapply Forall_impl; [exact Hhb|]. intros e He. simpl in He.
    unfold stringify_entry. f_equal. apply Forall_fmap_ext.
    eapply Forall_impl; [exact He|].
    intros r Hr. simpl in Hr. by apply deref_snoc_old.
Qed.

Lemma valid_title s :
  Js.trim s <> "" -> negb (Js.truthy s) || String.eqb (Js.trim s) "" = false.
Proof.
  intros Hs. apply String.eqb_neq in Hs. rewrite Hs.
  destruct s; [by apply String.eqb_neq in Hs|reflexivity].
Qed.

Lemma ids_rolled today d : ids (rolled today d) = ids d.
Proof.
  unfold ids. simpl. rewrite <- list_fmap_compose. by apply list_fmap_ext.
Qed.

Lemma post_tasks_stored w d req s :
  file w = Some (Json d) ->
  c_title req = Some s ->
  Js.trim s <> "" ->
  let t := created req s (clock w (S (ticks w))) (clock w (S (S (ticks w)))) in
  exists b w1 d1 w',
    checkDailyReset w = (Return b, w1) /\
    file w1 = Some (Json d1) /\
    write_ok w1 = write_ok w /\
    (d1 = d \/ d1 = rolled (today_of w) d) /\
    (lastReset d = today_of w -> d1 = d) /\
    writes w' = writes w1 ++ [pushed t d1] /\
    post_tasks req w =
      (Return (if next_write_ok w1
               then {| status := 201; body := BTask t |}
               else {| status := 500; body := BError "Failed to save task" |}),
       w') /\
    file w' = Some (Json (if next_write_ok w1 then pushed t d1 else d1)).
Proof.
  intros Hf Htitle Hs t.
  destruct (checkDailyReset_stored w d Hf)
    as (b & w1 & d1 & Hcheck & Hf1 & (Hc & Ho & Hk) & Hd1 & Hsame).
  destruct (readTasks_stored w1 d1 Hf1) as (data & h & Hread & Hp).
  set (w4 := set_heap (h ++ [t]) (tick (tick w1))).
  set (doc := pushed t d1).
  exists b, w1, d1,
    (if next_write_ok w1 then set_file (Some (Json doc)) (log_write doc w4)
     else log_write doc w4).
  split; [exact Hcheck|]. split; [exact Hf1|]. split; [exact Ho|].
  split; [exact Hd1|]. split; [intros H; by apply Hsame|].
  split; [by destruct (next_write_ok w1)|].
  split.
  - unfold post_tasks. rewrite Htitle, (valid_title s Hs).
    unfold bind at 1. rewrite Hcheck.
    unfold bind at 1. rewrite Hread.
    unfold bind at 1, Date_now. simpl.
    unfold bind at 1. simpl.
    unfold bind at 1, new_object, bind at 1, get_heap, put_heap, ret. simpl.
    rewrite Hc, Hk. replace (ticks w + 1) with (S (ticks w)) by lia.
    fold (created req s (clock w (S (ticks w))) (clock w (S (S (ticks w))))).
    fold t. unfold bind at 1. rewrite writeTasks_eq. cbv zeta.
    simpl heap. rewrite (print_after_push h data d1 t Hp). fold doc.
    change (next_write_ok _) with (next_write_ok w1).
    destruct (next_write_ok w1).
    + unfold bind, load, get_heap, ret, respond. simpl.
      by rewrite deref_snoc_new.
    + reflexivity.
  - destruct (next_write_ok w1); simpl; [reflexivity|exact Hf1].
Qed.

(** ** Updating and deleting a task *)

Lemma heap_step_refl r w : heap_step r w w.
Proof. by repeat split. Qed.

Lemma heap_step_trans r w1 w2 w3 :
  heap_step r w1 w2 -> heap_step r w2 w3 -> heap_step r w1 w3.
Proof.
  intros (F1 & W1 & O1 & D1) (F2 & W2 & O2 & D2).
  repeat split; try congruence. intros r' Hr. by rewrite D2, D1.
Qed.

Lemma only_touches_ret {A} r (a : A) : only_touches r (ret a).
Proof. intros w. exists a, w. split; [reflexivity|apply heap_step_refl]. Qed.

Lemma only_touches_bind {A B} r (m : M A) (k : A -> M B) :
  only_touches r m -> (forall a, only_touches r (k a)) ->
  only_touches r (bind m k).
Proof.
  intros Hm Hk w. destruct (Hm w) as (a & w1 & Hrun & H1).
  destruct (Hk a w1) as (b & w2 & Hrun2 & H2).
  exists b, w2. split; [|by eapply heap_step_trans].
  unfold bind. by rewrite Hrun.
Qed.

Lemma only_touches_update r f : only_touches r (update r f).
Proof.
  intros w. eexists tt, _. split; [reflexivity|].
  repeat split. intros r' Hr. simpl. unfold deref.
  apply list_lookup_total_alter_ne. congruence.
Qed.

Lemma only_touches_Date_now r : only_touches r Date_now.
Proof. intros w. eexists _, _. split; [reflexivity|]. by repeat split. Qed.

Lemma find_index_Some {A} (p : A -> bool) (l : list A) i :
  find_index p l = Some i -> exists x, l !! i = Some x /\ p x = true.
Proof.
  revert i. induction l as [|x l IH]; intros i; simpl; [discriminate|].
  destruct (p x) eqn:Hp.
  - intros [= <-]. by exists x.
  - destruct (find_index p l) as [j|]; simpl; [|discriminate].
    intros [= <-]. by apply IH.
Qed.

Lemma findIndex_eq p rs w :
  findIndex p rs w
  = (Return (find_index (fun r => p (deref (heap w) r)) rs), w).
Proof. reflexivity. Qed.

(** An update answers and stores under the date and with the history it
    found: nothing in the route looks at the clock's date. *)
Lemma put_task_stored w d id0 req :
  file w = Some (Json d) ->
  exists r w' d',
    put_task id0 req w = (Return r, w') /\
    file w' = Some (Json d') /\
    lastReset d' = lastReset d /\ history d' = history d.
Proof.
  intros Hf. destruct (readTasks_stored w d Hf) as (data & h & Hread & Hp).
  unfold put_task, bind at 1. rewrite Hread.
  unfold bind at 1. rewrite findIndex_eq. simpl heap.
  destruct (find_index _ (d_tasks data)) as [i|] eqn:Hfind.
  - apply find_index_Some in Hfind as (r & Hi & _).
    rewrite (list_lookup_total_correct _ _ _ Hi).
    assert (Hblock : only_touches r
              (match u_completed req with
               | Some c =>
                   update r (with_completed c);;;
                   stamp <- (if c then now <- Date_now;;
                                       ret (Some (Js.toISOString now))
                             else ret None);;
                   update r (with_completedAt stamp)
               | None => ret tt
               end;;;
               match u_title req with
               | Some t => update r (with_title (Js.trim t))
               | None => ret tt
               end;;;
               match u_description req with
               | Some d0 => update r (with_description (Js.trim d0))
               | None => ret tt
               end;;;
               match u_priority req with
               | Some p => update r (with_priority p)
               | None => ret tt
               end)).
    { repeat (apply only_touches_bind; [|intros ?]);
        repeat match goal with
               | |- only_touches _ (match ?o with _ => _ end) => destruct o
               | |- only_touches _ (if ?c then _ else _) => destruct c
               | |- only_touches _ (bind _ _) =>
                   apply only_touches_bind; [|intros ?]
               | |- _ => first [apply only_touches_update
                               |apply only_touches_ret
                               |apply only_touches_Date_now]
               end. }
    set (rest := fun _ : unit =>
                   ok <- writeTasks data;;
                   (if ok : bool then t <- load r;; respond 200 (BTask t)
                    else respond 500 (BError "Failed to update task"))).
    assert (Hshape : forall m1 m2 m3 m4 : M unit,
              (m1;;; m2;;; m3;;; m4;;; rest tt) (set_heap h w)
              = bind (m1;;; m2;;; m3;;; m4) rest (set_heap h w)).
    { intros m1 m2 m3 m4. unfold bind.
      destruct (m1 (set_heap h w)) as [[[]|e1] w1]; [|reflexivity].
      destruct (m2 w1) as [[[]|e2] w2]; [|reflexivity].
      destruct (m3 w2) as [[[]|e3] w3]; [|reflexivity].
      by destruct (m4 w3) as [[[]|e4] w4]. }
    unfold rest in Hshape. rewrite Hshape. clear Hshape.
    destruct (Hblock (set_heap h w)) as ([] & w5 & Hrun & F5 & W5 & O5 & D5).
    unfold bind at 1. rewrite Hrun.
    unfold bind at 1. rewrite writeTasks_eq. cbv zeta.
    assert (Hhist : stringify_entry (heap w5) <$> d_history data = history d).
    { rewrite <- (parsed_history _ _ _ Hp). apply Forall_fmap_ext.
      eapply Forall_impl; [exact (parsed_apart _ _ _ Hp)|].
      intros e He. simpl in He. unfold stringify_entry. f_equal.
      apply Forall_fmap_ext. eapply Forall_impl; [exact He|].
      intros r' Hr'. simpl in Hr'. rewrite D5; [reflexivity|].
      intros ->. apply Hr'. by eapply list_elem_of_lookup_2. }
    destruct (next_write_ok w5).
    + eexists _, _, _. split; [reflexivity|]. split; [reflexivity|].
      split; [exact (parsed_lastReset _ _ _ Hp)|exact Hhist].
    + eexists _, _, d. split; [reflexivity|].
      split; [simpl; by rewrite F5|]. by split.
  - eexists _, _, d. split; [reflexivity|]. by repeat split.
Qed.

(** A deletion removes the task at the index found, and likewise keeps the
    date and the history. *)
Lemma delete_task_stored w d id0 :
  file w = Some (Json d) ->
  exists r w' d',
    delete_task id0 w = (Return r, w') /\
    file w' = Some (Json d') /\
    lastReset d' = lastReset d /\ history d' = history d /\
    (d' = d \/ exists i t, tasks d !! i = Some t /\ id t = id0 /\
                          tasks d' = delete i (tasks d)).
Proof.
  intros Hf. destruct (readTasks_stored w d Hf) as (data & h & Hread & Hp).
  unfold delete_task, bind at 1. rewrite Hread.
  unfold bind at 1. rewrite findIndex_eq. simpl heap.
  destruct (find_index _ (d_tasks data)) as [i|] eqn:Hfind.
  - apply find_index_Some in Hfind as (r & Hi & Hid).
    apply String.eqb_eq in Hid.
    unfold bind at 1. rewrite writeTasks_eq. cbv zeta. simpl heap.
    change (next_write_ok (set_heap h w)) with (next_write_ok w).
    destruct (next_write_ok w).
    + eexists _, _, _. split; [reflexivity|]. split; [reflexivity|].
      split; [exact (parsed_lastReset _ _ _ Hp)|].
      split; [exact (parsed_history _ _ _ Hp)|].
      right. exists i, (deref h r). simpl.
      rewrite list_fmap_delete, (parsed_tasks _ _ _ Hp).
      rewrite <- (parsed_tasks _ _ _ Hp), list_lookup_fmap, Hi. by repeat split.
    + eexists _, _, d. split; [reflexivity|]. split; [exact Hf|].
      split; [done|]. split; [done|]. by left.
  - eexists _, _, d. split; [reflexivity|]. split; [exact Hf|].
    split; [done|]. split; [done|]. by left.
Qed.

Lemma post_tasks_rejects_blank req w :
  match c_title req with
  | Some s => Js.trim s = ""
  | None => True
  end ->
  post_tasks req w
  = (Return {| status := 400; body := BError "Task title is required" |}, w).
Proof.
  unfold post_tasks. destruct (c_title req) as [s|]; [|reflexivity].
  intros ->. by rewrite String.eqb_refl, orb_true_r.
Qed.

(** ** Sequences of requests *)

Lemma get_tasks_stored w d :
  file w = Some (Json d) ->
  exists r w' d',
    get_tasks w = (Return r, w') /\
    file w' = Some (Json d') /\
    (d' = d \/ d' = rolled (today_of w) d).
Proof.
  intros Hf.
  destruct (checkDailyReset_stored w d Hf)
    as (b & w1 & d1 & Hcheck & Hf1 & _ & Hd1 & _).
  destruct (readTasks_stored w1 d1 Hf1) as (data & h & Hread & Hp).
  unfold get_tasks, bind at 1. rewrite Hcheck.
  unfold bind at 1. rewrite Hread.
  eexists _, _, d1. split; [reflexivity|]. by split.
Qed.

Lemma get_history_stored w d :
  file w = Some (Json d) ->
  exists r w', get_history w = (Return r, w') /\ file w' = Some (Json d).
Proof.
  intros Hf. destruct (readTasks_stored w d Hf) as (data & h & Hread & Hp).
  unfold get_history, bind at 1. rewrite Hread.
  eexists _, _. split; [reflexivity|exact Hf].
Qed.

Lemma history_rolled_grows today d :
  history d `prefix_of` history (rolled today d).
Proof. simpl. by apply prefix_app_r. Qed.

(** No request throws, loses the document or touches a stored history
    entry: the history a request leaves starts with the history it found. *)
Lemma handle_history_grows r w d :
  file w = Some (Json d) ->
  exists resp w' d',
    handle r w = (Return resp, w') /\
    file w' = Some (Json d') /\
    history d `prefix_of` history d'.
Proof.
  intros Hf. destruct r as [|req|id0 req|id0|]; simpl.
  - destruct (get_tasks_stored w d Hf) as (r & w' & d' & Hrun & Hf' & Hd').
    exists r, w', d'. split; [done|]. split; [done|].
    destruct Hd' as [->| ->]; [done|apply history_rolled_grows].
  - destruct (c_title req) as [s|] eqn:Htitle.
    + destruct (decide (Js.trim s = "")) as [Hs|Hs].
      * eexists _, w, d. split; [|by split].
        apply post_tasks_rejects_blank. by rewrite Htitle.
      * destruct (post_tasks_stored w d req s Hf Htitle Hs)
          as (b & w1 & d1 & w' & _ & _ & _ & Hd1 & _ & _ & Hrun & Hfile).
        eexists _, w', _. split; [exact Hrun|]. split; [exact Hfile|].
        assert (Hh : history d `prefix_of` history d1)
          by (destruct Hd1 as [->| ->]; [done|apply history_rolled_grows]).
        by destruct (next_write_ok w1).
    + eexists _, w, d. split; [|by split].
      apply post_tasks_rejects_blank. by rewrite Htitle.
  - destruct (put_task_stored w d id0 req Hf)
      as (r & w' & d' & Hrun & Hf' & _ & Hh).
    exists r, w', d'. split; [done|]. split; [done|]. by rewrite Hh.
  - destruct (delete_task_stored w d id0 Hf)
      as (r & w' & d' & Hrun & Hf' & _ & Hh & _).
    exists r, w', d'. split; [done|]. split; [done|]. by rewrite Hh.
  - destruct (get_history_stored w d Hf) as (r & w' & Hrun & Hf').
    by exists r, w', d.
Qed.

(** The history is append-only along any sequence of requests. *)
Lemma serve_history_grows rs w d :
  file w = Some (Json d) ->
  exists d', file (serve rs w) = Some (Json d') /\
             history d `prefix_of` history d'.
Proof.
  revert w d. induction rs as [|r rs IH]; intros w d Hf; simpl.
  - by exists d.
  - destruct (handle_history_grows r w d Hf)
      as (resp & w' & d1 & Hrun & Hf1 & Hpre).
    rewrite Hrun. simpl.
    destruct (IH w' d1 Hf1) as (d' & Hf' & Hpre').
    exists d'. split; [exact Hf'|]. by etrans.
Qed.

(** * The claims *)

(** ** The store degrades to a fresh document *)

(** C10. When the data file is absent or does not parse, [readTasks] neither
    throws nor touches the file: it returns a document with no tasks, no
    history and [lastReset] set to the current date. *)
Theorem readTasks_fail_soft (w : World) :
  file w = None \/ file w = Some Garbage ->
  exists data w',
    readTasks w = (Return data, w') /\
    stringify (heap w') data
      = {| tasks := []; lastReset := today_of w; history := [] |} /\
    file w' = file w /\ writes w' = writes w.
Proof.
  intros Hf. eexists _, _. split; [by apply readTasks_unreadable|].
  by repeat split.
Qed.

Lemma readTasks_fail_soft_witness :
  (file w_no_file = None \/ file w_no_file = Some Garbage) /\
  exists data w',
    readTasks w_no_file = (Return data, w') /\
    stringify (heap w') data
      = {| tasks := []; lastReset := today_of w_no_file; history := [] |} /\
    file w' = file w_no_file /\ writes w' = writes w_no_file.
Proof.
  split; [left; reflexivity|].
  apply (readTasks_fail_soft w_no_file). left. reflexivity.
Defined.

(** ** The rollover *)

(** C3, as the code has it. If [lastReset] is today the check answers
    "no reset", leaves the stored document as it is and attempts no write.
    When the date read from the clock does not change, and the first check
    has nothing to do or its save succeeds, a second check is such a no-op:
    two checks leave what one check leaves. *)
Theorem checkDailyReset_idempotent (w : World) (d : Document) :
  file w = Some (Json d) ->
  (lastReset d = today_of w ->
   exists w1,
     checkDailyReset w = (Return false, w1) /\
     file w1 = Some (Json d) /\ writes w1 = writes w) /\
  ((forall k, Js.isoDate (clock w k) = today_of w) ->
   lastReset d = today_of w \/ next_write_ok w = true ->
   exists r1 w1 w2 d1,
     checkDailyReset w = (Return r1, w1) /\
     checkDailyReset w1 = (Return false, w2) /\
     file w1 = Some (Json d1) /\ lastReset d1 = today_of w /\
     file w2 = file w1 /\ writes w2 = writes w1).
Proof.
  intros Hf. split.
  - intros Hday.
    destruct (checkDailyReset_fresh w d Hf Hday) as (w1 & Hrun & Hw & Hfile & _).
    exists w1. rewrite Hfile. auto.
  - intros Hclock Hok.
    assert (Hnext : forall w1 d1,
              file w1 = Some (Json d1) -> same_env 1 w w1 ->
              lastReset d1 = today_of w ->
              exists w2, checkDailyReset w1 = (Return false, w2) /\
                         file w2 = file w1 /\ writes w2 = writes w1).
    { intros w1 d1 Hf1 (Hc & _ & _) Hday1.
      assert (Hday : lastReset d1 = today_of w1).
      { unfold today_of at 1. by rewrite Hc, Hclock. }
      destruct (checkDailyReset_fresh w1 d1 Hf1 Hday)
        as (w2 & Hrun & Hw & Hfile & _).
      exists w2. auto. }
    destruct (decide (lastReset d = today_of w)) as [Heq|Hne].
    + destruct (checkDailyReset_fresh w d Hf Heq)
        as (w1 & Hrun & Hw & Hfile & He).
      rewrite Hf in Hfile.
      destruct (Hnext w1 d Hfile He Heq) as (w2 & H2 & H3 & H4).
      exists false, w1, w2, d. auto 10.
    + destruct Hok as [Heq|Hok]; [done|].
      destruct (checkDailyReset_stale w d Hf Hne)
        as (w1 & Hrun & Hw & Hfile & He).
      rewrite Hok in Hfile.
      destruct (Hnext w1 _ Hfile He eq_refl) as (w2 & H2 & H3 & H4).
      exists true, w1, w2, (rolled (today_of w) d). auto 10.
Qed.

Lemma checkDailyReset_idempotent_witness :
  (file w_same_day = Some (Json doc_jan1) /\
   lastReset doc_jan1 = today_of w_same_day /\
   exists w1,
     checkDailyReset w_same_day = (Return false, w1) /\
     file w1 = Some (Json doc_jan1) /\ writes w1 = writes w_same_day) /\
  (file w_next_day = Some (Json doc_jan1) /\
   (forall k, Js.isoDate (clock w_next_day k) = today_of w_next_day) /\
   (lastReset doc_jan1 = today_of w_next_day \/
    next_write_ok w_next_day = true) /\
   lastReset doc_jan1 <> today_of w_next_day /\
   exists r1 w1 w2 d1,
     checkDailyReset w_next_day = (Return r1, w1) /\
     checkDailyReset w1 = (Return false, w2) /\
     file w1 = Some (Json d1) /\ lastReset d1 = today_of w_next_day /\
     file w2 = file w1 /\ writes w2 = writes w1).
Proof.
  assert (Hday : lastReset doc_jan1 = today_of w_same_day)
    by (vm_compute; reflexivity).
  assert (Hclock : forall k,
            Js.isoDate (clock w_next_day k) = today_of w_next_day)
    by (intros k; reflexivity).
  assert (Hok : lastReset doc_jan1 = today_of w_next_day \/
                next_write_ok w_next_day = true)
    by (right; reflexivity).
  assert (Hne : lastReset doc_jan1 <> today_of w_next_day)
    by (vm_compute; discriminate).
  split.
  - split; [reflexivity|]. split; [exact Hday|].
    exact (proj1 (checkDailyReset_idempotent w_same_day doc_jan1 eq_refl)
             Hday).
  - split; [reflexivity|]. split; [exact Hclock|]. split; [exact Hok|].
    split; [exact Hne|].
    exact (proj2 (checkDailyReset_idempotent w_next_day doc_jan1 eq_refl)
             Hclock Hok).
Defined.

(** When the save of the first check fails, the check has answered "reset"
    all the same and the file still carries the old date: on the same day a
    second check rolls over again, answers "reset" again and this time
    stores the document, so two checks do not leave what one check leaves. *)
Lemma checkDailyReset_twice_after_failed_save :
  exists w1 w2,
    today_of w_first_save_fails = "2024-01-02" /\
    checkDailyReset w_first_save_fails = (Return true, w1) /\
    file w1 = Some (Json doc_jan1) /\
    today_of w1 = "2024-01-02" /\
    checkDailyReset w1 = (Return true, w2) /\
    file w2 = Some (Json (rolled "2024-01-02" doc_jan1)) /\
    file w2 <> file w1.
Proof.
  eexists _, _.
  split; [vm_compute; reflexivity|].
  split; [vm_compute; reflexivity|].
  split; [reflexivity|].
  split; [vm_compute; reflexivity|].
  split; [vm_compute; reflexivity|].
  split; [vm_compute; reflexivity|].
  vm_compute. discriminate.
Qed.

(** The same on the day after: the first check rolls over and saves, the
    second finds nothing to do. *)
Example checkDailyReset_twice_next_day :
  fst (checkDailyReset w_next_day) = Return true /\
  fst (checkDailyReset (snd (checkDailyReset w_next_day))) = Return false /\
  file (snd (checkDailyReset (snd (checkDailyReset w_next_day))))
  = file (snd (checkDailyReset w_next_day)) /\
  length (writes (snd (checkDailyReset (snd (checkDailyReset w_next_day)))))
  = 1.
Proof. vm_compute. repeat split. Qed.

(** C4. When [lastReset] is not today and some task is completed, the check
    hands exactly one more history entry to the store, whatever the distance
    between the two dates: the entry is dated [lastReset], counts the tasks
    and the completed tasks of the document and lists the completed ones;
    [lastReset] becomes today; the document is stored when the write
    succeeds. *)
Theorem rollover_appends_one_entry (w : World) (d : Document) :
  file w = Some (Json d) ->
  lastReset d <> today_of w ->
  (exists t, t ∈ tasks d /\ completed t = true) ->
  exists w' d' e,
    checkDailyReset w = (Return true, w') /\
    writes w' = writes w ++ [d'] /\
    (next_write_ok w = true -> file w' = Some (Json d')) /\
    history d' = history d ++ [e] /\
    date e = lastReset d /\
    totalTasks e = length (tasks d) /\
    completedCount e = length (List.filter completed (tasks d)) /\
    id <$> completedTasks e = id <$> List.filter completed (tasks d) /\
    lastReset d' = today_of w.
Proof.
  intros Hf Hday (t & Hin & Hc).
  destruct (checkDailyReset_stale w d Hf Hday) as (w' & Hrun & Hw & Hfile & _).
  eexists w', (rolled (today_of w) d), _.
  split; [exact Hrun|]. split; [exact Hw|].
  split; [intros Hok; by rewrite Hok in Hfile|].
  split; [simpl; by rewrite (archive_some d t Hin Hc)|].
  simpl. repeat split.
  rewrite <- list_fmap_compose. by apply list_fmap_ext.
Qed.

Lemma rollover_appends_one_entry_witness :
  file w_next_day = Some (Json doc_jan1) /\
  lastReset doc_jan1 <> today_of w_next_day /\
  (exists t, t ∈ tasks doc_jan1 /\ completed t = true) /\
  exists w' d' e,
    checkDailyReset w_next_day = (Return true, w') /\
    writes w' = writes w_next_day ++ [d'] /\
    (next_write_ok w_next_day = true -> file w' = Some (Json d')) /\
    history d' = history doc_jan1 ++ [e] /\
    date e = lastReset doc_jan1 /\
    totalTasks e = length (tasks doc_jan1) /\
    completedCount e = length (List.filter completed (tasks doc_jan1)) /\
    id <$> completedTasks e = id <$> List.filter completed (tasks doc_jan1) /\
    lastReset d' = today_of w_next_day.
Proof.
  assert (Hday : lastReset doc_jan1 <> today_of w_next_day)
    by (vm_compute; discriminate).
  assert (Hdone : exists t, t ∈ tasks doc_jan1 /\ completed t = true)
    by (exists task_run; split; [apply elem_of_cons; by left|reflexivity]).
  split; [reflexivity|]. split; [exact Hday|]. split; [exact Hdone|].
  exact (rollover_appends_one_entry w_next_day doc_jan1 eq_refl Hday Hdone).
Defined.

(** The example of the specification: one entry for 2024-01-01 with
    [totalTasks = 2] and [completedCount = 1], and [lastReset] advanced. *)
Example rollover_jan1 :
  exists d' e,
    file (snd (checkDailyReset w_next_day)) = Some (Json d') /\
    history d' = [e] /\ date e = "2024-01-01" /\ totalTasks e = 2 /\
    completedCount e = 1 /\ id <$> completedTasks e = ["1"] /\
    completed <$> tasks d' = [false; false] /\
    completedAt <$> tasks d' = [None; None] /\
    lastReset d' = "2024-01-02".
Proof. vm_compute. eexists _, _. repeat split. Qed.

(** C5. When [lastReset] is not today and no task is completed, the check
    advances [lastReset] to today and leaves the history as it is. *)
Theorem rollover_without_completed (w : World) (d : Document) :
  file w = Some (Json d) ->
  lastReset d <> today_of w ->
  Forall (fun t => completed t = false) (tasks d) ->
  exists w' d',
    checkDailyReset w = (Return true, w') /\
    writes w' = writes w ++ [d'] /\
    (next_write_ok w = true -> file w' = Some (Json d')) /\
    history d' = history d /\
    lastReset d' = today_of w.
Proof.
  intros Hf Hday Hnone.
  destruct (checkDailyReset_stale w d Hf Hday) as (w' & Hrun & Hw & Hfile & _).
  exists w', (rolled (today_of w) d).
  split; [exact Hrun|]. split; [exact Hw|].
  split; [intros Hok; by rewrite Hok in Hfile|].
  simpl. rewrite (archive_none d Hnone), app_nil_r. by split.
Qed.

Lemma rollover_without_completed_witness :
  file w_idle_next_day = Some (Json doc_idle) /\
  lastReset doc_idle <> today_of w_idle_next_day /\
  Forall (fun t => completed t = false) (tasks doc_idle) /\
  exists w' d',
    checkDailyReset w_idle_next_day = (Return true, w') /\
    writes w' = writes w_idle_next_day ++ [d'] /\
    (next_write_ok w_idle_next_day = true -> file w' = Some (Json d')) /\
    history d' = history doc_idle /\
    lastReset d' = today_of w_idle_next_day.
Proof.
  assert (Hday : lastReset doc_idle <> today_of w_idle_next_day)
    by (vm_compute; discriminate).
  assert (Hnone : Forall (fun t => completed t = false) (tasks doc_idle))
    by (repeat constructor).
  split; [reflexivity|]. split; [exact Hday|]. split; [exact Hnone|].
  exact (rollover_without_completed w_idle_next_day doc_idle eq_refl
           Hday Hnone).
Defined.

(** C6. A rollover keeps every task, in the same order: the tasks it hands
    to the store are those of the document, one for one, each with
    [completed = false], no [completedAt] and its other fields unchanged. *)
Theorem rollover_keeps_tasks (w : World) (d : Document) :
  file w = Some (Json d) ->
  lastReset d <> today_of w ->
  exists w' d',
    checkDailyReset w = (Return true, w') /\
    writes w' = writes w ++ [d'] /\
    (next_write_ok w = true -> file w' = Some (Json d')) /\
    Forall2 reset_of (tasks d) (tasks d').
Proof.
  intros Hf Hday.
  destruct (checkDailyReset_stale w d Hf Hday) as (w' & Hrun & Hw & Hfile & _).
  exists w', (rolled (today_of w) d).
  split; [exact Hrun|]. split; [exact Hw|].
  split; [intros Hok; by rewrite Hok in Hfile|].
  simpl. apply Forall2_fmap_r, Forall_Forall2_diag, Forall_forall.
  intros t _. by repeat split.
Qed.

Lemma rollover_keeps_tasks_witness :
  file w_next_day = Some (Json doc_jan1) /\
  lastReset doc_jan1 <> today_of w_next_day /\
  exists w' d',
    checkDailyReset w_next_day = (Return true, w') /\
    writes w' = writes w_next_day ++ [d'] /\
    (next_write_ok w_next_day = true -> file w' = Some (Json d')) /\
    Forall2 reset_of (tasks doc_jan1) (tasks d').
Proof.
  assert (Hday : lastReset doc_jan1 <> today_of w_next_day)
    by (vm_compute; discriminate).
  split; [reflexivity|]. split; [exact Hday|].
  exact (rollover_keeps_tasks w_next_day doc_jan1 eq_refl Hday).
Defined.

(** ** Creating a task *)

(** C7, as the code has it. A creation with a title that is not blank
    appends one task to the tasks the rollover check that runs first has
    stored: those of the document when [lastReset] is today, the same tasks
    with their completion reset when the day has changed and the rollover
    was saved, and those of the document again when that save failed. The
    task has [completed = false], no [completedAt], the trimmed title and
    the decimal millisecond timestamp as id; that id differs from every
    existing id when the existing ids are timestamps of earlier
    milliseconds. *)
Theorem post_tasks_appends_new_task
    (w : World) (d : Document) (req : CreateBody) (s : string) :
  file w = Some (Json d) ->
  c_title req = Some s ->
  Js.trim s <> "" ->
  exists t d1 r w',
    post_tasks req w = (Return r, w') /\
    (lastReset d = today_of w -> d1 = d) /\
    (lastReset d <> today_of w -> next_write_ok w = true ->
     d1 = rolled (today_of w) d) /\
    (lastReset d <> today_of w -> next_write_ok w = false -> d1 = d) /\
    last (writes w') = Some (pushed t d1) /\
    id t = Js.toString (clock w (S (ticks w))) /\
    title t = Js.trim s /\ completed t = false /\ completedAt t = None /\
    (Forall (fun t0 => exists ms, id t0 = Js.toString ms /\
                                  (ms < clock w (S (ticks w)))%Z) (tasks d) ->
     id t ∉ ids d1) /\
    (r = {| status := 201; body := BTask t |} /\
     file w' = Some (Json (pushed t d1))
     \/ r = {| status := 500; body := BError "Failed to save task" |} /\
        file w' = Some (Json d1)) /\
    ((forall k, write_ok w k = true) -> status r = 201).
Proof.
  intros Hf Htitle Hs.
  destruct (post_tasks_stored w d req s Hf Htitle Hs)
    as (b & w1 & d1 & w' & Hcheck & Hf1 & Ho & Hd1 & Hsame & Hw & Hrun & Hfile).
  eexists _, d1, _, w'. split; [exact Hrun|].
  split; [exact Hsame|].
  assert (Hstale : lastReset d <> today_of w ->
            Some (Json d1)
            = (if next_write_ok w then Some (Json (rolled (today_of w) d))
               else Some (Json d))).
  { intros Hne.
    destruct (checkDailyReset_stale w d Hf Hne) as (w2 & Hrun2 & _ & Hf2 & _).
    rewrite Hrun2 in Hcheck. injection Hcheck as _ <-.
    by rewrite <- Hf1, Hf2, Hf. }
  split; [intros Hne Hok; apply Hstale in Hne; rewrite Hok in Hne;
          by injection Hne|].
  split; [intros Hne Hok; apply Hstale in Hne; rewrite Hok in Hne;
          by injection Hne|].
  split; [by rewrite Hw, last_snoc|].
  split; [reflexivity|]. split; [reflexivity|]. split; [reflexivity|].
  split; [reflexivity|]. split.
  - intros Hold.
    assert (Hids : ids d1 = ids d)
      by (destruct Hd1 as [->| ->]; [done|apply ids_rolled]).
    rewrite Hids. unfold ids. simpl. intros Hin.
    apply list_elem_of_fmap in Hin as (t0 & Heq & Hin).
    rewrite Forall_forall in Hold.
    destruct (Hold t0 Hin) as (ms & Hms & Hlt).
    rewrite Hms in Heq. apply toString_inj in Heq. lia.
  - split.
    + rewrite Hfile. destruct (next_write_ok w1); [left|right]; by split.
    + intros Hall. unfold next_write_ok. rewrite Ho, Hall. reflexivity.
Qed.

(** On the day of [lastReset] and on the day after, where the stored tasks
    are reset before the new one is appended. *)
Lemma post_tasks_appends_new_task_witness :
  (file w_same_day = Some (Json doc_jan1) /\
   c_title (new_task " walk ") = Some " walk " /\
   Js.trim " walk " <> "" /\
   lastReset doc_jan1 = today_of w_same_day /\
   Forall (fun t0 => exists ms,
             id t0 = Js.toString ms /\
             (ms < clock w_same_day (S (ticks w_same_day)))%Z)
          (tasks doc_jan1) /\
   exists t w',
     post_tasks (new_task " walk ") w_same_day
     = (Return {| status := 201; body := BTask t |}, w') /\
     file w' = Some (Json (pushed t doc_jan1)) /\
     (id t ∉ ids doc_jan1) /\
     title t = "walk" /\ completed t = false /\ completedAt t = None) /\
  (file w_next_day = Some (Json doc_jan1) /\
   lastReset doc_jan1 <> today_of w_next_day /\
   next_write_ok w_next_day = true /\
   Forall (fun t0 => exists ms,
             id t0 = Js.toString ms /\
             (ms < clock w_next_day (S (ticks w_next_day)))%Z)
          (tasks doc_jan1) /\
   exists t w',
     post_tasks (new_task " walk ") w_next_day
     = (Return {| status := 201; body := BTask t |}, w') /\
     file w'
     = Some (Json (pushed t (rolled (today_of w_next_day) doc_jan1))) /\
     (id t ∉ ids (rolled (today_of w_next_day) doc_jan1)) /\
     title t = "walk" /\ completed t = false /\ completedAt t = None).
Proof.
  assert (Hs : Js.trim " walk " <> "") by (vm_compute; discriminate).
  assert (Hday : lastReset doc_jan1 = today_of w_same_day)
    by (vm_compute; reflexivity).
  assert (Hne : lastReset doc_jan1 <> today_of w_next_day)
    by (vm_compute; discriminate).
  assert (Hold : forall w, clock w (S (ticks w)) = jan1_noon \/
                           clock w (S (ticks w)) = jan2 ->
            Forall (fun t0 => exists ms,
                      id t0 = Js.toString ms /\
                      (ms < clock w (S (ticks w)))%Z) (tasks doc_jan1)).
  { intros w Hc. repeat constructor.
    - exists 1%Z. split; [reflexivity|]. by destruct Hc as [-> | ->].
    - exists 2%Z. split; [reflexivity|]. by destruct Hc as [-> | ->]. }
  assert (Hall : forall w, (forall k, write_ok w k = true) ->
            forall (t : Task) (r : Response) (P Q : Prop),
              (r = {| status := 201; body := BTask t |} /\ P
               \/ r = {| status := 500;
                         body := BError "Failed to save task" |} /\ Q) ->
              ((forall k, write_ok w k = true) -> status r = 201) ->
              r = {| status := 201; body := BTask t |} /\ P).
  { intros w Hw t r P Q [H|[-> _]] Hst; [exact H|].
    specialize (Hst Hw). discriminate Hst. }
  split.
  - split; [reflexivity|]. split; [reflexivity|]. split; [exact Hs|].
    split; [exact Hday|]. split; [apply Hold; by left|].
    destruct (post_tasks_appends_new_task w_same_day doc_jan1
                (new_task " walk ") " walk " eq_refl eq_refl Hs)
      as (t & d1 & r & w' & Hrun & Hsame & _ & _ & _ & _ & Ht & Hc & Hca
          & Hfresh & Hr & Hst).
    rewrite (Hsame Hday) in *.
    destruct (Hall w_same_day (fun _ => eq_refl) t r _ _ Hr Hst) as [-> Hfile].
    exists t, w'. split; [exact Hrun|]. split; [exact Hfile|].
    split; [apply Hfresh, Hold; by left|]. by rewrite Ht.
  - split; [reflexivity|]. split; [exact Hne|]. split; [reflexivity|].
    split; [apply Hold; by right|].
    destruct (post_tasks_appends_new_task w_next_day doc_jan1
                (new_task " walk ") " walk " eq_refl eq_refl Hs)
      as (t & d1 & r & w' & Hrun & _ & Hrolled & _ & _ & _ & Ht & Hc & Hca
          & Hfresh & Hr & Hst).
    rewrite (Hrolled Hne eq_refl) in *.
    destruct (Hall w_next_day (fun _ => eq_refl) t r _ _ Hr Hst) as [-> Hfile].
    exists t, w'. split; [exact Hrun|]. split; [exact Hfile|].
    split; [apply Hfresh, Hold; by right|]. by rewrite Ht.
Defined.

(** Two creations served within one millisecond: the second task gets the
    id of the first, which is in the stored document by then. And a creation
    on the day after [lastReset] runs the rollover first, so the tasks that
    were there are not stored unchanged. *)
Lemma post_tasks_same_millisecond :
  (exists d1 t w2,
     file (snd (post_tasks (new_task "walk") w_same_day)) = Some (Json d1) /\
     c_title (new_task "swim") = Some "swim" /\ Js.trim "swim" <> "" /\
     post_tasks (new_task "swim")
       (snd (post_tasks (new_task "walk") w_same_day))
     = (Return {| status := 201; body := BTask t |}, w2) /\
     completed t = false /\ completedAt t = None /\
     id t ∈ ids d1) /\
  (exists d' t1 rest,
     file (snd (post_tasks (new_task "walk") w_next_day)) = Some (Json d') /\
     tasks d' = t1 :: rest /\ id t1 = id task_run /\
     completed task_run = true /\ completed t1 = false).
Proof.
  split.
  - eexists _, _, _.
    split; [vm_compute; reflexivity|].
    split; [reflexivity|]. split; [vm_compute; discriminate|].
    split; [vm_compute; reflexivity|].
    split; [reflexivity|]. split; [reflexivity|].
    vm_compute. apply elem_of_cons. right. apply elem_of_cons. right.
    apply elem_of_cons. by left.
  - eexists _, _, _. vm_compute. repeat split.
Qed.

(** ** Where the code departs from the specification *)

(** C1. The history entry holds the task objects themselves, not copies:
    the reset loop clears them before the document is printed, so the
    archived task is stored with [completed = false] and no [completedAt]. *)
Theorem archived_tasks_lose_completion :
  completed task_run = true /\
  completedAt task_run = Some "2024-01-01T10:00:00.000Z" /\
  exists d' e t,
    file (snd (checkDailyReset w_next_day)) = Some (Json d') /\
    history d' = [e] /\ completedTasks e = [t] /\ id t = id task_run /\
    completed t = false /\ completedAt t = None.
Proof.
  split; [reflexivity|]. split; [reflexivity|].
  eexists _, _, _. vm_compute. repeat split.
Qed.

(** The same for every document: no task of an appended entry is stored as
    completed. *)
Lemma archived_tasks_always_reset w d :
  file w = Some (Json d) ->
  lastReset d <> today_of w ->
  exists w' d',
    checkDailyReset w = (Return true, w') /\
    writes w' = writes w ++ [d'] /\
    forall e t, e ∈ drop (length (history d)) (history d') ->
                t ∈ completedTasks e ->
                completed t = false /\ completedAt t = None.
Proof.
  intros Hf Hday.
  destruct (checkDailyReset_stale w d Hf Hday) as (w' & Hrun & Hw & _).
  exists w', (rolled (today_of w) d).
  split; [exact Hrun|]. split; [exact Hw|].
  intros e t. simpl. rewrite drop_app_length. apply archive_is_reset.
Qed.

(** C2. PUT and DELETE do not run the rollover check. On the day after
    [lastReset], an update answers with the completion state of the day
    before and both routes store the document under the old date; GET on the
    same world rolls over. *)
Theorem put_and_delete_skip_rollover :
  today_of w_next_day = "2024-01-02" /\
  (exists t w' d',
     put_task "1" (rename_to "jog") w_next_day
     = (Return {| status := 200; body := BTask t |}, w') /\
     completed t = true /\
     completedAt t = Some "2024-01-01T10:00:00.000Z" /\
     file w' = Some (Json d') /\
     lastReset d' = "2024-01-01" /\ history d' = []) /\
  (exists w' d',
     delete_task "2" w_next_day
     = (Return {| status := 200;
                  body := BMessage "Task deleted successfully" |}, w') /\
     file w' = Some (Json d') /\
     lastReset d' = "2024-01-01" /\ tasks d' = [task_run]) /\
  (exists d',
     file (snd (get_tasks w_next_day)) = Some (Json d') /\
     lastReset d' = "2024-01-02" /\
     completed <$> tasks d' = [false; false]).
Proof.
  split; [vm_compute; reflexivity|]. split; [|split].
  - eexists _, _, _. vm_compute. repeat split.
  - eexists _, _. vm_compute. repeat split.
  - eexists _. vm_compute. repeat split.
Qed.

(** C8. Creation refuses a blank title, an update does not: a title of
    spaces is trimmed and stored as the empty string. *)
Theorem put_task_stores_empty_title :
  exists t w' d',
    put_task "1" (rename_to "   ") w_same_day
    = (Return {| status := 200; body := BTask t |}, w') /\
    title t = "" /\
    file w' = Some (Json d') /\
    title <$> tasks d' = [""; "read"].
Proof. eexists _, _, _. vm_compute. repeat split. Qed.

(** The creation half of C8: a missing or blank title is answered with 400
    and the world is left as it was, with no write attempted. *)
Lemma post_tasks_blank_title_no_effect (w : World) :
  post_tasks {| c_title := None; c_description := None; c_priority := None |} w
  = (Return {| status := 400; body := BError "Task title is required" |}, w)
  /\
  post_tasks (new_task "") w
  = (Return {| status := 400; body := BError "Task title is required" |}, w)
  /\
  post_tasks (new_task "  ") w
  = (Return {| status := 400; body := BError "Task title is required" |}, w).
Proof. repeat split. Qed.

(** Every title a creation stores is trimmed and not empty. *)
Lemma created_title_trimmed req s now at_ :
  Js.trim s <> "" ->
  title (created req s now at_) <> "" /\
  Js.trim (title (created req s now at_)) = title (created req s now at_).
Proof. intros Hs. split; [exact Hs|apply trim_idem]. Qed.

(** C9. [checkDailyReset] drops the result of [writeTasks]: when the save
    fails it still answers "reset performed", the file keeps the old
    document, and GET /api/tasks answers 200 with the stale tasks. The task
    routes do report the failure. *)
Theorem checkDailyReset_hides_failed_save :
  next_write_ok w_disk_full = false /\
  (exists w',
     checkDailyReset w_disk_full = (Return true, w') /\
     file w' = Some (Json doc_jan1) /\ length (writes w') = 1) /\
  (exists today w',
     get_tasks w_disk_full
     = (Return {| status := 200;
                  body := BTasks (tasks doc_jan1) "2024-01-01" today |}, w'))
  /\
  (exists w',
     post_tasks (new_task "walk") w_disk_full
     = (Return {| status := 500; body := BError "Failed to save task" |}, w')).
Proof.
  split; [reflexivity|]. split; [|split].
  - eexists _. vm_compute. repeat split.
  - eexists _, _. vm_compute. reflexivity.
  - eexists _. vm_compute. reflexivity.
Qed.

(** The same for every document: a failed save changes nothing of the
    answer. *)
Lemma checkDailyReset_answer_ignores_save w d :
  file w = Some (Json d) ->
  lastReset d <> today_of w ->
  next_write_ok w = false ->
  exists w', checkDailyReset w = (Return true, w') /\ file w' = file w.
Proof.
  intros Hf Hday Hfail.
  destruct (checkDailyReset_stale w d Hf Hday) as (w' & Hrun & _ & Hfile & _).
  exists w'. rewrite Hfail in Hfile. by split.
Qed.

(** ** JavaScript helpers on known values *)

Example toISOString_epoch : Js.toISOString 0 = "1970-01-01T00:00:00.000Z".
Proof. vm_compute. reflexivity. Qed.

Example toISOString_2024 :
  Js.toISOString 1704153600123 = "2024-01-02T00:00:00.123Z".
Proof. vm_compute. reflexivity. Qed.

Example isoDate_leap_day : Js.isoDate 951868799999 = "2000-02-29".
Proof. vm_compute. reflexivity. Qed.

Example isoDate_before_epoch : Js.isoDate (-1) = "1969-12-31".
Proof. vm_compute. reflexivity. Qed.

Example trim_example : Js.trim "  buy milk  " = "buy milk".
Proof. reflexivity. Qed.

(** * The other routes, the client and sequences of requests *)

(** ** Looking a task up by id *)

Lemma find_index_fmap {A B} (f : A -> B) (p : B -> bool) (l : list A) :
  find_index (fun x => p (f x)) l = find_index p (f <$> l).
Proof.
  induction l as [|x l IH]; [reflexivity|].
  rewrite fmap_cons. simpl. by rewrite IH.
Qed.

Lemma find_index_first {A} (p : A -> bool) (l : list A) i :
  find_index p l = Some i ->
  exists x, l !! i = Some x /\ p x = true /\
            forall j y, j < i -> l !! j = Some y -> p y = false.
Proof.
  revert i. induction l as [|x l IH]; intros i; simpl; [discriminate|].
  destruct (p x) eqn:Hp.
  - intros [= <-]. exists x. repeat split; [done|]. intros j y Hj. lia.
  - destruct (find_index p l) as [k|]; simpl; [|discriminate].
    intros [= <-]. destruct (IH k eq_refl) as (y & Hy & Hpy & Hbefore).
    exists y. repeat split; [done..|].
    intros [|j] z Hj; simpl; [by intros [= <-]|].
    intros Hz. apply (Hbefore j); [lia|done].
Qed.

Lemma find_index_None {A} (p : A -> bool) (l : list A) :
  find_index p l = None <-> Forall (fun x => p x = false) l.
Proof.
  induction l as [|x l IH]; simpl.
  - split; [constructor|done].
  - destruct (p x) eqn:Hp.
    + split; [discriminate|]. intros H. inversion H; congruence.
    + destruct (find_index p l) as [k|]; simpl.
      * split; [discriminate|]. intros H. inversion H as [|? ? _ Hl]; subst.
        by apply IH in Hl.
      * split; [|done]. intros _. constructor; [done|]. by apply IH.
Qed.

Lemma deref_alter_fmap f (h : list Task) (rs : list nat) i r :
  NoDup rs -> rs !! i = Some r -> r < length h ->
  deref (alter f r h) <$> rs = alter f i (deref h <$> rs).
Proof.
  intros Hnd Hi Hr. apply list_eq. intros j.
  rewrite list_lookup_fmap.
  destruct (decide (i = j)) as [<-|Hne].
  - rewrite list_lookup_alter_eq, list_lookup_fmap, Hi. simpl.
    rewrite deref_alter by done. by rewrite decide_True.
  - rewrite list_lookup_alter_ne, list_lookup_fmap by done.
    destruct (rs !! j) as [r'|] eqn:Hj; [|reflexivity]. simpl. f_equal.
    unfold deref. apply list_lookup_total_alter_ne.
    intros ->. apply Hne. by eapply NoDup_lookup.
Qed.

(** ** PUT /api/tasks/:id *)

Lemma alter_same_fun {A} (f g : A -> A) i (l : list A) :
  (forall x, f x = g x) -> alter f i l = alter g i l.
Proof. intros H. apply list_alter_ext; [intros; apply H|done]. Qed.

Lemma put_block_eq req r w :
  (match u_completed req with
   | Some c =>
       update r (with_completed c);;;
       stamp <- (if c then now <- Date_now;; ret (Some (Js.toISOString now))
                 else ret None);;
       update r (with_completedAt stamp)
   | None => ret tt
   end;;;
   match u_title req with
   | Some t => update r (with_title (Js.trim t))
   | None => ret tt
   end;;;
   match u_description req with
   | Some d0 => update r (with_description (Js.trim d0))
   | None => ret tt
   end;;;
   match u_priority req with
   | Some p => update r (with_priority p)
   | None => ret tt
   end) w
  = (Return tt,
     set_heap
       (alter (apply_update req (Js.toISOString (clock w (ticks w)))) r
          (heap w))
       (if update_reads_clock req then tick w else w)).
Proof.
  destruct req as [[[|]|] [s|] [ds|] [p|]];
    cbv [bind update Date_now get_heap put_heap ret]; simpl;
    rewrite ?list_alter_alter_eq;
    try (rewrite (list_alter_id (apply_update _ _)) by (by intros []);
         by rewrite set_heap_same);
    unfold set_heap, tick; simpl; do 2 f_equal;
    apply alter_same_fun; by intros [].
Qed.

(** What an update of a task that exists answers, hands to the store and
    leaves in the file. *)
Lemma put_task_found w d id0 req i t :
  file w = Some (Json d) ->
  find_index (fun task => String.eqb (id task) id0) (tasks d) = Some i ->
  tasks d !! i = Some t ->
  let stamp := Js.toISOString (clock w (ticks w)) in
  let d' := with_doc_tasks (alter (apply_update req stamp) i (tasks d)) d in
  exists w',
    put_task id0 req w
    = (Return (if next_write_ok w
               then {| status := 200; body := BTask (apply_update req stamp t) |}
               else {| status := 500;
                       body := BError "Failed to update task" |}), w') /\
    writes w' = writes w ++ [d'] /\
    file w' = Some (Json (if next_write_ok w then d' else d)).
Proof.
  intros Hf Hfind Ht stamp d'.
  destruct (readTasks_stored w d Hf) as (data & h & Hread & Hp).
  assert (Hr : exists r, d_tasks data !! i = Some r /\ deref h r = t).
  { rewrite <- (parsed_tasks _ _ _ Hp), list_lookup_fmap in Ht.
    destruct (d_tasks data !! i) as [r|]; [|discriminate].
    exists r. split; [done|]. by injection Ht. }
  destruct Hr as (r & Hi & Hrt).
  assert (Hbound : r < length h).
  { exact (Forall_lookup_1 _ _ _ _ (parsed_bound _ _ _ Hp) Hi). }
  unfold put_task, bind at 1. rewrite Hread.
  unfold bind at 1. rewrite findIndex_eq. simpl heap.
  rewrite (find_index_fmap (deref h) (fun task => String.eqb (id task) id0)),
    (parsed_tasks _ _ _ Hp), Hfind.
  rewrite (list_lookup_total_correct _ _ _ Hi).
  set (rest := fun _ : unit =>
                 ok <- writeTasks data;;
                 (if ok : bool then t0 <- load r;; respond 200 (BTask t0)
                  else respond 500 (BError "Failed to update task"))).
  assert (Hshape : forall m1 m2 m3 m4 : M unit,
            (m1;;; m2;;; m3;;; m4;;; rest tt) (set_heap h w)
            = bind (m1;;; m2;;; m3;;; m4) rest (set_heap h w)).
  { intros m1 m2 m3 m4. unfold bind.
    destruct (m1 (set_heap h w)) as [[[]|e1] w1]; [|reflexivity].
    destruct (m2 w1) as [[[]|e2] w2]; [|reflexivity].
    destruct (m3 w2) as [[[]|e3] w3]; [|reflexivity].
    by destruct (m4 w3) as [[[]|e4] w4]. }
  unfold rest in Hshape. rewrite Hshape. clear Hshape rest.
  unfold bind at 1. rewrite put_block_eq. simpl heap. simpl ticks. simpl clock. fold stamp.
  unfold bind at 1. rewrite writeTasks_eq. cbv zeta.
  set (h' := alter (apply_update req stamp) r h).
  assert (Hdoc : stringify h' data = d').
  { unfold stringify, d', with_doc_tasks. f_equal.
    - unfold h'. rewrite (deref_alter_fmap _ h _ i r);
        [by rewrite (parsed_tasks _ _ _ Hp)|exact (parsed_nodup _ _ _ Hp)
        |exact Hi|exact Hbound].
    - exact (parsed_lastReset _ _ _ Hp).
    - rewrite <- (parsed_history _ _ _ Hp). apply Forall_fmap_ext.
      eapply Forall_impl; [exact (parsed_apart _ _ _ Hp)|].
      intros e He. simpl in He. unfold stringify_entry. f_equal.
      apply Forall_fmap_ext. eapply Forall_impl; [exact He|].
      intros r' Hr'. simpl in Hr'. unfold h', deref.
      apply list_lookup_total_alter_ne. intros ->. apply Hr'.
      by eapply list_elem_of_lookup_2. }
  assert (Hheap : heap (set_heap h' (if update_reads_clock req
                                     then tick (set_heap h w)
                                     else set_heap h w)) = h')
    by reflexivity.
  rewrite Hheap, Hdoc.
  assert (Hok : next_write_ok (set_heap h' (if update_reads_clock req
                                            then tick (set_heap h w)
                                            else set_heap h w))
                = next_write_ok w)
    by (by destruct (update_reads_clock req)).
  rewrite Hok. destruct (next_write_ok w).
  - eexists. split; [|split].
    + unfold bind, load, get_heap, ret, respond. simpl.
      unfold h'. rewrite deref_alter by done.
      rewrite decide_True by done. rewrite Hrt. reflexivity.
    + simpl. by destruct (update_reads_clock req).
    + reflexivity.
  - eexists. split; [reflexivity|]. split.
    + simpl. by destruct (update_reads_clock req).
    + simpl. destruct (update_reads_clock req); exact Hf.
Qed.

Lemma put_task_not_found w d id0 req :
  file w = Some (Json d) ->
  find_index (fun task => String.eqb (id task) id0) (tasks d) = None ->
  exists w',
    put_task id0 req w
    = (Return {| status := 404; body := BError "Task not found" |}, w') /\
    writes w' = writes w /\ file w' = file w.
Proof.
  intros Hf Hfind.
  destruct (readTasks_stored w d Hf) as (data & h & Hread & Hp).
  unfold put_task, bind at 1. rewrite Hread.
  unfold bind at 1. rewrite findIndex_eq. simpl heap.
  rewrite (find_index_fmap (deref h) (fun task => String.eqb (id task) id0)),
    (parsed_tasks _ _ _ Hp), Hfind.
  eexists. split; [reflexivity|]. by split.
Qed.

(** ** DELETE /api/tasks/:id *)

Lemma delete_task_found w d id0 i :
  file w = Some (Json d) ->
  find_index (fun task => String.eqb (id task) id0) (tasks d) = Some i ->
  let d' := with_doc_tasks (delete i (tasks d)) d in
  exists w',
    delete_task id0 w
    = (Return (if next_write_ok w
               then {| status := 200;
                       body := BMessage "Task deleted successfully" |}
               else {| status := 500;
                       body := BError "Failed to delete task" |}), w') /\
    writes w' = writes w ++ [d'] /\
    file w' = Some (Json (if next_write_ok w then d' else d)).
Proof.
  intros Hf Hfind d'.
  destruct (readTasks_stored w d Hf) as (data & h & Hread & Hp).
  unfold delete_task, bind at 1. rewrite Hread.
  unfold bind at 1. rewrite findIndex_eq. simpl heap.
  rewrite (find_index_fmap (deref h) (fun task => String.eqb (id task) id0)),
    (parsed_tasks _ _ _ Hp), Hfind.
  unfold bind at 1. rewrite writeTasks_eq. cbv zeta. simpl heap.
  assert (Hdoc : stringify h (with_tasks (delete i (d_tasks data)) data) = d').
  { unfold stringify, d', with_doc_tasks. simpl.
    by rewrite list_fmap_delete, (parsed_tasks _ _ _ Hp),
      (parsed_lastReset _ _ _ Hp), (parsed_history _ _ _ Hp). }
  rewrite Hdoc.
  change (next_write_ok (set_heap h w)) with (next_write_ok w).
  destruct (next_write_ok w); eexists; (split; [reflexivity|]);
    (split; [reflexivity|]); [reflexivity|exact Hf].
Qed.

Lemma delete_task_not_found w d id0 :
  file w = Some (Json d) ->
  find_index (fun task => String.eqb (id task) id0) (tasks d) = None ->
  exists w',
    delete_task id0 w
    = (Return {| status := 404; body := BError "Task not found" |}, w') /\
    writes w' = writes w /\ file w' = file w.
Proof.
  intros Hf Hfind.
  destruct (readTasks_stored w d Hf) as (data & h & Hread & Hp).
  unfold delete_task, bind at 1. rewrite Hread.
  unfold bind at 1. rewrite findIndex_eq. simpl heap.
  rewrite (find_index_fmap (deref h) (fun task => String.eqb (id task) id0)),
    (parsed_tasks _ _ _ Hp), Hfind.
  eexists. split; [reflexivity|]. by split.
Qed.

(** *** Ids and the index the routes find *)

Lemma find_index_unknown (d : Document) id0 :
  id0 ∉ ids d ->
  find_index (fun task => String.eqb (id task) id0) (tasks d) = None.
Proof.
  intros Hnot. apply find_index_None, Forall_forall. intros t Ht.
  apply String.eqb_neq. intros <-. apply Hnot.
  unfold ids. apply list_elem_of_fmap. by exists t.
Qed.

Lemma find_index_known (d : Document) id0 :
  id0 ∈ ids d ->
  exists i t,
    find_index (fun task => String.eqb (id task) id0) (tasks d) = Some i /\
    tasks d !! i = Some t /\ id t = id0.
Proof.
  intros Hin.
  destruct (find_index (fun task => String.eqb (id task) id0) (tasks d))
    as [i|] eqn:Hfind.
  - destruct (find_index_first _ _ _ Hfind) as (t & Ht & Hid & _).
    exists i, t. repeat split; [done|]. by apply String.eqb_eq.
  - exfalso. apply find_index_None in Hfind. rewrite Forall_forall in Hfind.
    unfold ids in Hin. apply list_elem_of_fmap in Hin as (t & -> & Ht).
    specialize (Hfind t Ht). by rewrite String.eqb_refl in Hfind.
Qed.

(** With unique ids, dropping the first task that carries [id0] is dropping
    every task that carries it. *)
Lemma delete_unique (l : list Task) id0 i t :
  NoDup (id <$> l) -> l !! i = Some t -> id t = id0 ->
  delete i l = List.filter (fun task => negb (String.eqb (id task) id0)) l.
Proof.
  revert i. induction l as [|x l IH]; intros i Hnd Hi Hid; [done|].
  rewrite fmap_cons in Hnd. apply NoDup_cons in Hnd as [Hx Hnd].
  destruct i as [|i]; simpl in Hi.
  - injection Hi as ->. simpl. rewrite Hid, String.eqb_refl. simpl.
    symmetry. apply forallb_filter_id, forallb_forall.
    intros y Hy. apply negb_true_iff, String.eqb_neq. intros Hyid.
    apply Hx. rewrite Hid, <- Hyid. apply list_elem_of_fmap.
    exists y. split; [done|]. by apply list_elem_of_In.
  - simpl.
    assert (Hne : String.eqb (id x) id0 = false).
    { apply String.eqb_neq. intros Hxid. apply Hx.
      rewrite Hxid, <- Hid. apply list_elem_of_fmap. exists t.
      split; [done|]. by eapply list_elem_of_lookup_2. }
    rewrite Hne. simpl. f_equal. by apply IH.
Qed.

Lemma apply_update_id req stamp t : id (apply_update req stamp t) = id t.
Proof. by destruct req as [[c|] [s|] [ds|] [p|]]. Qed.

Lemma apply_update_createdAt req stamp t :
  createdAt (apply_update req stamp t) = createdAt t.
Proof. by destruct req as [[c|] [s|] [ds|] [p|]]. Qed.

Lemma fmap_alter_fixed {A B} (f : A -> B) (g : A -> A) i (l : list A) :
  (forall x, f (g x) = f x) -> f <$> alter g i l = f <$> l.
Proof.
  intros H. rewrite (list_fmap_alter f g (fun y => y)).
  - by apply list_alter_id.
  - apply Forall_forall. intros x _. apply H.
Qed.

Lemma put_task_same_ids w d id0 req :
  file w = Some (Json d) ->
  exists r w' d',
    put_task id0 req w = (Return r, w') /\
    file w' = Some (Json d') /\ ids d' = ids d.
Proof.
  intros Hf.
  destruct (find_index (fun task => String.eqb (id task) id0) (tasks d))
    as [i|] eqn:Hfind.
  - destruct (find_index_first _ _ _ Hfind) as (t & Ht & _).
    destruct (put_task_found w d id0 req i t Hf Hfind Ht)
      as (w' & Hrun & _ & Hfile).
    eexists _, w', _. split; [exact Hrun|]. split; [exact Hfile|].
    destruct (next_write_ok w); [|done]. unfold ids. simpl.
    apply fmap_alter_fixed. intros x. apply apply_update_id.
  - destruct (put_task_not_found w d id0 req Hf Hfind)
      as (w' & Hrun & _ & Hfile).
    eexists _, w', d. split; [exact Hrun|]. by rewrite Hfile.
Qed.

(** ** Updating a task *)

(** X1. An update that finds its task and whose save succeeds answers 200 with
    the updated task and stores it in the place of the old one: every other
    task, the order, [lastReset] and the history are untouched, the id and
    [createdAt] are kept, and title, description and priority change only
    when the body carries them (title and description trimmed). *)
Theorem put_task_updates_one_task
    (w : World) (d : Document) (id0 : string) (req : UpdateBody) (i : nat) :
  file w = Some (Json d) ->
  find_index (fun task => String.eqb (id task) id0) (tasks d) = Some i ->
  next_write_ok w = true ->
  exists t t' w' d',
    tasks d !! i = Some t /\ id t = id0 /\
    put_task id0 req w = (Return {| status := 200; body := BTask t' |}, w') /\
    file w' = Some (Json d') /\
    tasks d' !! i = Some t' /\
    (forall j, j <> i -> tasks d' !! j = tasks d !! j) /\
    length (tasks d') = length (tasks d) /\
    lastReset d' = lastReset d /\ history d' = history d /\
    id t' = id t /\ createdAt t' = createdAt t /\
    title t' = match u_title req with
               | Some s => Js.trim s
               | None => title t
               end /\
    description t' = match u_description req with
                     | Some s => Js.trim s
                     | None => description t
                     end /\
    priority t' = match u_priority req with
                  | Some p => p
                  | None => priority t
                  end.
Proof.
  intros Hf Hfind Hok.
  destruct (find_index_first _ _ _ Hfind) as (t & Ht & Hid & _).
  apply String.eqb_eq in Hid.
  destruct (put_task_found w d id0 req i t Hf Hfind Ht)
    as (w' & Hrun & _ & Hfile).
  rewrite Hok in Hrun, Hfile.
  eexists t, _, w', _. split; [exact Ht|]. split; [exact Hid|].
  split; [exact Hrun|]. split; [exact Hfile|]. simpl.
  split; [by rewrite list_lookup_alter_eq, Ht|].
  split; [intros j Hj; by apply list_lookup_alter_ne|].
  split; [apply length_alter|]. split; [done|]. split; [done|].
  by destruct req as [[c|] [s|] [ds|] [p|]].
Qed.

Lemma put_task_updates_one_task_witness :
  file w_next_day = Some (Json doc_jan1) /\
  find_index (fun task => String.eqb (id task) "2") (tasks doc_jan1) = Some 1 /\
  next_write_ok w_next_day = true /\
  exists t t' w' d',
    tasks doc_jan1 !! 1 = Some t /\ id t = "2" /\
    put_task "2" (rename_to " write ") w_next_day
    = (Return {| status := 200; body := BTask t' |}, w') /\
    file w' = Some (Json d') /\
    tasks d' !! 1 = Some t' /\
    (forall j, j <> 1 -> tasks d' !! j = tasks doc_jan1 !! j) /\
    length (tasks d') = length (tasks doc_jan1) /\
    lastReset d' = lastReset doc_jan1 /\ history d' = history doc_jan1 /\
    id t' = id t /\ createdAt t' = createdAt t /\
    title t' = match u_title (rename_to " write ") with
               | Some s => Js.trim s
               | None => title t
               end /\
    description t' = match u_description (rename_to " write ") with
                     | Some s => Js.trim s
                     | None => description t
                     end /\
    priority t' = match u_priority (rename_to " write ") with
                  | Some p => p
                  | None => priority t
                  end.
Proof.
  split; [reflexivity|]. split; [reflexivity|]. split; [reflexivity|].
  exact (put_task_updates_one_task w_next_day doc_jan1 "2"
           (rename_to " write ") 1 eq_refl eq_refl eq_refl).
Defined.

(** X2. The completion fields move together: [completed: true] stamps
    [completedAt] with the time of the request, [completed: false] clears
    it, and a body without [completed] leaves both as they were. *)
Theorem put_task_stamps_completion
    (w : World) (d : Document) (id0 : string) (req : UpdateBody) (i : nat) :
  file w = Some (Json d) ->
  find_index (fun task => String.eqb (id task) id0) (tasks d) = Some i ->
  next_write_ok w = true ->
  exists t t' r w' d',
    tasks d !! i = Some t /\
    put_task id0 req w = (Return r, w') /\
    file w' = Some (Json d') /\ tasks d' !! i = Some t' /\
    match u_completed req with
    | Some true =>
        completed t' = true /\
        completedAt t' = Some (Js.toISOString (clock w (ticks w)))
    | Some false => completed t' = false /\ completedAt t' = None
    | None => completed t' = completed t /\ completedAt t' = completedAt t
    end.
Proof.
  intros Hf Hfind Hok.
  destruct (find_index_first _ _ _ Hfind) as (t & Ht & _).
  destruct (put_task_found w d id0 req i t Hf Hfind Ht)
    as (w' & Hrun & _ & Hfile).
  rewrite Hok in Hrun, Hfile.
  eexists t, _, _, w', _. split; [exact Ht|]. split; [exact Hrun|].
  split; [exact Hfile|]. simpl.
  split; [by rewrite list_lookup_alter_eq, Ht|].
  by destruct req as [[[|]|] [s|] [ds|] [p|]].
Qed.

Lemma put_task_stamps_completion_witness :
  file w_next_day = Some (Json doc_jan1) /\
  find_index (fun task => String.eqb (id task) "2") (tasks doc_jan1) = Some 1 /\
  next_write_ok w_next_day = true /\
  exists t t' r w' d',
    tasks doc_jan1 !! 1 = Some t /\
    put_task "2" (set_completed true) w_next_day = (Return r, w') /\
    file w' = Some (Json d') /\ tasks d' !! 1 = Some t' /\
    match u_completed (set_completed true) with
    | Some true =>
        completed t' = true /\
        completedAt t'
        = Some (Js.toISOString (clock w_next_day (ticks w_next_day)))
    | Some false => completed t' = false /\ completedAt t' = None
    | None => completed t' = completed t /\ completedAt t' = completedAt t
    end.
Proof.
  split; [reflexivity|]. split; [reflexivity|]. split; [reflexivity|].
  exact (put_task_stamps_completion w_next_day doc_jan1 "2"
           (set_completed true) 1 eq_refl eq_refl eq_refl).
Defined.

(** X3. Whatever the body, the id and the save's outcome, an update leaves a
    readable document with the same ids and creation times in the same
    order: it never adds, drops, reorders or re-identifies a task. *)
Theorem put_task_keeps_identity
    (w : World) (d : Document) (id0 : string) (req : UpdateBody) :
  file w = Some (Json d) ->
  exists r w' d',
    put_task id0 req w = (Return r, w') /\
    file w' = Some (Json d') /\
    id <$> tasks d' = id <$> tasks d /\
    createdAt <$> tasks d' = createdAt <$> tasks d.
Proof.
  intros Hf.
  destruct (find_index (fun task => String.eqb (id task) id0) (tasks d))
    as [i|] eqn:Hfind.
  - destruct (find_index_first _ _ _ Hfind) as (t & Ht & _).
    destruct (put_task_found w d id0 req i t Hf Hfind Ht)
      as (w' & Hrun & _ & Hfile).
    eexists _, w', _. split; [exact Hrun|]. split; [exact Hfile|].
    destruct (next_write_ok w); [|done]. simpl.
    split; apply fmap_alter_fixed; intros x;
      [apply apply_update_id|apply apply_update_createdAt].
  - destruct (put_task_not_found w d id0 req Hf Hfind)
      as (w' & Hrun & _ & Hfile).
    eexists _, w', d. split; [exact Hrun|]. by rewrite Hfile.
Qed.

Lemma put_task_keeps_identity_witness :
  file w_same_day = Some (Json doc_jan1) /\
  exists r w' d',
    put_task "1" (rename_to "jog") w_same_day = (Return r, w') /\
    file w' = Some (Json d') /\
    id <$> tasks d' = id <$> tasks doc_jan1 /\
    createdAt <$> tasks d' = createdAt <$> tasks doc_jan1.
Proof.
  split; [reflexivity|].
  exact (put_task_keeps_identity w_same_day doc_jan1 "1" (rename_to "jog")
           eq_refl).
Defined.

(** ** Unknown ids and failed saves *)

(** X4. An update or a deletion of an id no task carries is answered 404 and
    attempts no write: the file is left as it is. *)
Theorem unknown_id_is_rejected
    (w : World) (d : Document) (id0 : string) (req : UpdateBody) :
  file w = Some (Json d) ->
  id0 ∉ ids d ->
  (exists w',
     put_task id0 req w
     = (Return {| status := 404; body := BError "Task not found" |}, w') /\
     writes w' = writes w /\ file w' = file w) /\
  (exists w',
     delete_task id0 w
     = (Return {| status := 404; body := BError "Task not found" |}, w') /\
     writes w' = writes w /\ file w' = file w).
Proof.
  intros Hf Hnot. pose proof (find_index_unknown d id0 Hnot) as Hfind.
  split; [by apply put_task_not_found with d|by apply delete_task_not_found with d].
Qed.

Lemma unknown_id_is_rejected_witness :
  file w_same_day = Some (Json doc_jan1) /\
  ("7" ∉ ids doc_jan1) /\
  (exists w',
     put_task "7" (set_completed true) w_same_day
     = (Return {| status := 404; body := BError "Task not found" |}, w') /\
     writes w' = writes w_same_day /\ file w' = file w_same_day) /\
  (exists w',
     delete_task "7" w_same_day
     = (Return {| status := 404; body := BError "Task not found" |}, w') /\
     writes w' = writes w_same_day /\ file w' = file w_same_day).
Proof.
  assert (Hnot : "7" ∉ ids doc_jan1).
  { intros Hin. vm_compute in Hin.
    apply elem_of_cons in Hin as [Hin|Hin]; [discriminate|].
    apply elem_of_cons in Hin as [Hin|Hin]; [discriminate|].
    by apply not_elem_of_nil in Hin. }
  split; [reflexivity|]. split; [exact Hnot|].
  exact (unknown_id_is_rejected w_same_day doc_jan1 "7" (set_completed true)
           eq_refl Hnot).
Defined.

(** X5. When the save fails, an update or a deletion of an existing task is
    answered 500 after one write attempt and the file keeps the document it
    had. *)
Theorem failed_save_is_reported
    (w : World) (d : Document) (id0 : string) (req : UpdateBody) :
  file w = Some (Json d) ->
  id0 ∈ ids d ->
  next_write_ok w = false ->
  (exists w',
     put_task id0 req w
     = (Return {| status := 500; body := BError "Failed to update task" |},
        w') /\
     length (writes w') = S (length (writes w)) /\
     file w' = Some (Json d)) /\
  (exists w',
     delete_task id0 w
     = (Return {| status := 500; body := BError "Failed to delete task" |},
        w') /\
     length (writes w') = S (length (writes w)) /\
     file w' = Some (Json d)).
Proof.
  intros Hf Hin Hfail.
  destruct (find_index_known d id0 Hin) as (i & t & Hfind & Ht & _).
  split.
  - destruct (put_task_found w d id0 req i t Hf Hfind Ht)
      as (w' & Hrun & Hw & Hfile).
    rewrite Hfail in Hrun, Hfile. exists w'. split; [exact Hrun|].
    split; [|exact Hfile]. rewrite Hw, length_app. simpl. lia.
  - destruct (delete_task_found w d id0 i Hf Hfind)
      as (w' & Hrun & Hw & Hfile).
    rewrite Hfail in Hrun, Hfile. exists w'. split; [exact Hrun|].
    split; [|exact Hfile]. rewrite Hw, length_app. simpl. lia.
Qed.

Lemma failed_save_is_reported_witness :
  file w_disk_full = Some (Json doc_jan1) /\
  ("1" ∈ ids doc_jan1) /\
  next_write_ok w_disk_full = false /\
  (exists w',
     put_task "1" (set_completed false) w_disk_full
     = (Return {| status := 500; body := BError "Failed to update task" |},
        w') /\
     length (writes w') = S (length (writes w_disk_full)) /\
     file w' = Some (Json doc_jan1)) /\
  (exists w',
     delete_task "1" w_disk_full
     = (Return {| status := 500; body := BError "Failed to delete task" |},
        w') /\
     length (writes w') = S (length (writes w_disk_full)) /\
     file w' = Some (Json doc_jan1)).
Proof.
  assert (Hin : "1" ∈ ids doc_jan1) by (apply elem_of_cons; by left).
  split; [reflexivity|]. split; [exact Hin|]. split; [reflexivity|].
  exact (failed_save_is_reported w_disk_full doc_jan1 "1"
           (set_completed false) eq_refl Hin eq_refl).
Defined.

(** ** Deleting a task *)

(** X6. A deletion of an id in use whose save succeeds answers 200 and stores
    the document without the first task that carries the id; the other
    tasks keep their order and content, [lastReset] and the history are
    untouched. When ids are unique the id is gone from the document. *)
Theorem delete_task_removes_the_task
    (w : World) (d : Document) (id0 : string) :
  file w = Some (Json d) ->
  id0 ∈ ids d ->
  next_write_ok w = true ->
  exists i t w' d',
    tasks d !! i = Some t /\ id t = id0 /\
    (forall j t0, j < i -> tasks d !! j = Some t0 -> id t0 <> id0) /\
    delete_task id0 w
    = (Return {| status := 200;
                 body := BMessage "Task deleted successfully" |}, w') /\
    file w' = Some (Json d') /\
    tasks d' = delete i (tasks d) /\
    lastReset d' = lastReset d /\ history d' = history d /\
    (NoDup (ids d) ->
     tasks d'
     = List.filter (fun task => negb (String.eqb (id task) id0)) (tasks d) /\
     id0 ∉ ids d').
Proof.
  intros Hf Hin Hok.
  destruct (find_index_known d id0 Hin) as (i & t & Hfind & Ht & Hid).
  destruct (find_index_first _ _ _ Hfind) as (t1 & Ht1 & _ & Hbefore).
  destruct (delete_task_found w d id0 i Hf Hfind)
    as (w' & Hrun & _ & Hfile).
  rewrite Hok in Hrun, Hfile.
  eexists i, t, w', _. split; [exact Ht|]. split; [exact Hid|].
  split.
  { intros j t0 Hj Ht0. apply String.eqb_neq. by apply (Hbefore j). }
  split; [exact Hrun|]. split; [exact Hfile|]. simpl.
  split; [done|]. split; [done|]. split; [done|].
  intros Hnd. rewrite (delete_unique (tasks d) id0 i t Hnd Ht Hid).
  split; [done|]. unfold ids. simpl.
  intros Hmem. apply list_elem_of_fmap in Hmem as (y & Hy & Hmem).
  apply list_elem_of_In, filter_In in Hmem as [_ Hneg].
  apply negb_true_iff, String.eqb_neq in Hneg. congruence.
Qed.

Lemma delete_task_removes_the_task_witness :
  file w_same_day = Some (Json doc_jan1) /\
  ("1" ∈ ids doc_jan1) /\
  next_write_ok w_same_day = true /\
  exists i t w' d',
    tasks doc_jan1 !! i = Some t /\ id t = "1" /\
    (forall j t0, j < i -> tasks doc_jan1 !! j = Some t0 -> id t0 <> "1") /\
    delete_task "1" w_same_day
    = (Return {| status := 200;
                 body := BMessage "Task deleted successfully" |}, w') /\
    file w' = Some (Json d') /\
    tasks d' = delete i (tasks doc_jan1) /\
    lastReset d' = lastReset doc_jan1 /\ history d' = history doc_jan1 /\
    (NoDup (ids doc_jan1) ->
     tasks d'
     = List.filter (fun task => negb (String.eqb (id task) "1"))
         (tasks doc_jan1) /\
     "1" ∉ ids d').
Proof.
  assert (Hin : "1" ∈ ids doc_jan1) by (apply elem_of_cons; by left).
  split; [reflexivity|]. split; [exact Hin|]. split; [reflexivity|].
  exact (delete_task_removes_the_task w_same_day doc_jan1 "1"
           eq_refl Hin eq_refl).
Defined.

(** ** Listing the tasks *)

Lemma get_tasks_eq w d :
  file w = Some (Json d) ->
  exists b w1 d1 w',
    checkDailyReset w = (Return b, w1) /\
    file w1 = Some (Json d1) /\
    get_tasks w
    = (Return {| status := 200;
                 body := BTasks (tasks d1) (lastReset d1)
                           (Js.isoDate (clock w (S (ticks w)))) |}, w') /\
    file w' = file w1 /\ writes w' = writes w1.
Proof.
  intros Hf.
  destruct (checkDailyReset_stored w d Hf)
    as (b & w1 & d1 & Hcheck & Hf1 & (Hc & _ & Hk) & _).
  destruct (readTasks_stored w1 d1 Hf1) as (data & h & Hread & Hp).
  exists b, w1, d1, (tick (set_heap h w1)).
  split; [exact Hcheck|]. split; [exact Hf1|].
  split; [|split; reflexivity].
  unfold get_tasks, bind at 1. rewrite Hcheck.
  unfold bind at 1. rewrite Hread.
  unfold bind, get_heap, Date_now, respond, ret. simpl.
  rewrite (parsed_tasks _ _ _ Hp), (parsed_lastReset _ _ _ Hp), Hc, Hk.
  by replace (ticks w + 1) with (S (ticks w)) by lia.
Qed.

Lemma get_tasks_same_day w d :
  file w = Some (Json d) ->
  lastReset d = today_of w ->
  exists w',
    get_tasks w
    = (Return {| status := 200;
                 body := BTasks (tasks d) (lastReset d)
                           (Js.isoDate (clock w (S (ticks w)))) |}, w') /\
    file w' = file w /\ writes w' = writes w.
Proof.
  intros Hf Hday.
  destruct (get_tasks_eq w d Hf)
    as (b & w1 & d1 & w' & Hcheck & Hf1 & Hrun & Hfile & Hw).
  destruct (checkDailyReset_fresh w d Hf Hday) as (w2 & Hc2 & Hw2 & Hf2 & _).
  rewrite Hcheck in Hc2. injection Hc2 as _ <-.
  rewrite Hf2, Hf in Hf1. injection Hf1 as <-.
  exists w'. split; [exact Hrun|]. split; congruence.
Qed.

(** X7. GET /api/tasks answers 200 with the tasks and date of the document the
    rollover check leaves in the file: the stored ones when [lastReset] is
    today (no write), the reset ones under today's date when the day has
    changed and the save succeeds, and the old ones under the old date when
    that save fails. *)
Theorem get_tasks_lists_stored_tasks (w : World) (d : Document) :
  file w = Some (Json d) ->
  exists ts lr w',
    get_tasks w
    = (Return {| status := 200;
                 body := BTasks ts lr (Js.isoDate (clock w (S (ticks w)))) |},
       w') /\
    (lastReset d = today_of w ->
     ts = tasks d /\ lr = lastReset d /\
     writes w' = writes w /\ file w' = file w) /\
    (lastReset d <> today_of w -> next_write_ok w = true ->
     ts = reset_task <$> tasks d /\ lr = today_of w /\
     file w' = Some (Json (rolled (today_of w) d))) /\
    (lastReset d <> today_of w -> next_write_ok w = false ->
     ts = tasks d /\ lr = lastReset d /\ file w' = file w).
Proof.
  intros Hf.
  destruct (get_tasks_eq w d Hf)
    as (b & w1 & d1 & w' & Hcheck & Hf1 & Hrun & Hfile & Hw).
  exists (tasks d1), (lastReset d1), w'. split; [exact Hrun|].
  split; [|split].
  - intros Hday.
    destruct (checkDailyReset_fresh w d Hf Hday) as (w2 & Hc2 & Hw2 & Hf2 & _).
    rewrite Hcheck in Hc2. injection Hc2 as _ <-.
    rewrite Hf2, Hf in Hf1. injection Hf1 as <-.
    repeat split; congruence.
  - intros Hday Hok.
    destruct (checkDailyReset_stale w d Hf Hday) as (w2 & Hc2 & _ & Hf2 & _).
    rewrite Hcheck in Hc2. injection Hc2 as _ <-.
    rewrite Hok, Hf1 in Hf2. injection Hf2 as ->.
    repeat split. congruence.
  - intros Hday Hfail.
    destruct (checkDailyReset_stale w d Hf Hday) as (w2 & Hc2 & _ & Hf2 & _).
    rewrite Hcheck in Hc2. injection Hc2 as _ <-.
    rewrite Hfail, Hf1, Hf in Hf2. injection Hf2 as ->.
    repeat split. congruence.
Qed.

Lemma get_tasks_lists_stored_tasks_witness :
  file w_next_day = Some (Json doc_jan1) /\
  exists ts lr w',
    get_tasks w_next_day
    = (Return {| status := 200;
                 body := BTasks ts lr
                           (Js.isoDate (clock w_next_day
                                          (S (ticks w_next_day)))) |},
       w') /\
    (lastReset doc_jan1 = today_of w_next_day ->
     ts = tasks doc_jan1 /\ lr = lastReset doc_jan1 /\
     writes w' = writes w_next_day /\ file w' = file w_next_day) /\
    (lastReset doc_jan1 <> today_of w_next_day ->
     next_write_ok w_next_day = true ->
     ts = reset_task <$> tasks doc_jan1 /\ lr = today_of w_next_day /\
     file w' = Some (Json (rolled (today_of w_next_day) doc_jan1))) /\
    (lastReset doc_jan1 <> today_of w_next_day ->
     next_write_ok w_next_day = false ->
     ts = tasks doc_jan1 /\ lr = lastReset doc_jan1 /\
     file w' = file w_next_day).
Proof.
  split; [reflexivity|].
  exact (get_tasks_lists_stored_tasks w_next_day doc_jan1 eq_refl).
Defined.

(** ** Creating, then listing or deleting *)

Lemma post_tasks_same_day w d req s :
  file w = Some (Json d) ->
  c_title req = Some s ->
  Js.trim s <> "" ->
  lastReset d = today_of w ->
  let t := created req s (clock w (S (ticks w))) (clock w (S (S (ticks w)))) in
  exists w',
    post_tasks req w
    = (Return (if next_write_ok w
               then {| status := 201; body := BTask t |}
               else {| status := 500; body := BError "Failed to save task" |}),
       w') /\
    writes w' = writes w ++ [pushed t d] /\
    file w' = Some (Json (if next_write_ok w then pushed t d else d)) /\
    same_env 3 w w'.
Proof.
  intros Hf Htitle Hs Hday t.
  destruct (checkDailyReset_fresh w d Hf Hday)
    as (w1 & Hcheck & Hw1 & Hf1 & Hc & Ho & Hk).
  rewrite Hf in Hf1.
  destruct (readTasks_stored w1 d Hf1) as (data & h & Hread & Hp).
  assert (Hok : next_write_ok w1 = next_write_ok w)
    by (unfold next_write_ok; by rewrite Ho, Hw1).
  set (w4 := set_heap (h ++ [t]) (tick (tick w1))).
  exists (if next_write_ok w
          then set_file (Some (Json (pushed t d))) (log_write (pushed t d) w4)
          else log_write (pushed t d) w4).
  split; [|split; [|split]].
  - unfold post_tasks. rewrite Htitle, (valid_title s Hs).
    unfold bind at 1. rewrite Hcheck.
    unfold bind at 1. rewrite Hread.
    unfold bind at 1, Date_now. simpl.
    unfold bind at 1. simpl.
    unfold bind at 1, new_object, bind at 1, get_heap, put_heap, ret. simpl.
    rewrite Hc, Hk. replace (ticks w + 1) with (S (ticks w)) by lia.
    fold (created req s (clock w (S (ticks w))) (clock w (S (S (ticks w))))).
    fold t. unfold bind at 1. rewrite writeTasks_eq. cbv zeta.
    simpl heap. rewrite (print_after_push h data d t Hp).
    fold (pushed t d).
    change (next_write_ok (set_heap (h ++ [t]) (tick (tick (set_heap h w1)))))
      with (next_write_ok w1). rewrite Hok.
    destruct (next_write_ok w).
    + unfold bind, load, get_heap, ret, respond. simpl.
      by rewrite deref_snoc_new.
    + reflexivity.
  - destruct (next_write_ok w); simpl; by rewrite Hw1.
  - by destruct (next_write_ok w).
  - unfold same_env.
    destruct (next_write_ok w); simpl; rewrite Hc, Ho, Hk;
      (split; [done|split; [done|lia]]).
Qed.

Lemma find_index_snoc {A} (p : A -> bool) (l : list A) x :
  Forall (fun y => p y = false) l -> p x = true ->
  find_index p (l ++ [x]) = Some (length l).
Proof.
  induction 1 as [|y l Hy _ IH]; intros Hx; simpl.
  - by rewrite Hx.
  - by rewrite Hy, IH.
Qed.

Lemma delete_snoc {A} (l : list A) x : delete (length l) (l ++ [x]) = l.
Proof. induction l as [|y l IH]; simpl; [done|]. by rewrite IH. Qed.

(** X8. A task created on the day of [lastReset] is listed last by the next
    GET /api/tasks, after the tasks that were there, unchanged. *)
Theorem create_then_list
    (w : World) (d : Document) (req : CreateBody) (s : string) :
  file w = Some (Json d) ->
  c_title req = Some s ->
  Js.trim s <> "" ->
  (forall k, Js.isoDate (clock w k) = lastReset d) ->
  next_write_ok w = true ->
  exists t w1 w2,
    post_tasks req w = (Return {| status := 201; body := BTask t |}, w1) /\
    get_tasks w1
    = (Return {| status := 200;
                 body := BTasks (tasks d ++ [t]) (lastReset d)
                           (lastReset d) |}, w2) /\
    file w2 = file w1.
Proof.
  intros Hf Htitle Hs Hclock Hok.
  assert (Hday : lastReset d = today_of w) by (symmetry; apply Hclock).
  destruct (post_tasks_same_day w d req s Hf Htitle Hs Hday)
    as (w1 & Hpost & _ & Hf1 & Hc & _ & _).
  rewrite Hok in Hpost, Hf1.
  assert (Hday1 : lastReset (pushed
                    (created req s (clock w (S (ticks w)))
                       (clock w (S (S (ticks w))))) d) = today_of w1).
  { unfold today_of. rewrite Hc, Hclock. reflexivity. }
  destruct (get_tasks_same_day w1 _ Hf1 Hday1) as (w2 & Hget & Hf2 & _).
  eexists _, w1, w2. split; [exact Hpost|]. split; [|exact Hf2].
  rewrite Hget, Hc, Hclock. reflexivity.
Qed.

Lemma create_then_list_witness :
  file w_same_day = Some (Json doc_jan1) /\
  c_title (new_task "walk") = Some "walk" /\
  Js.trim "walk" <> "" /\
  (forall k, Js.isoDate (clock w_same_day k) = lastReset doc_jan1) /\
  next_write_ok w_same_day = true /\
  exists t w1 w2,
    post_tasks (new_task "walk") w_same_day
    = (Return {| status := 201; body := BTask t |}, w1) /\
    get_tasks w1
    = (Return {| status := 200;
                 body := BTasks (tasks doc_jan1 ++ [t]) (lastReset doc_jan1)
                           (lastReset doc_jan1) |}, w2) /\
    file w2 = file w1.
Proof.
  assert (Hs : Js.trim "walk" <> "") by (vm_compute; discriminate).
  assert (Hclock : forall k,
            Js.isoDate (clock w_same_day k) = lastReset doc_jan1)
    by (intros k; vm_compute; reflexivity).
  split; [reflexivity|]. split; [reflexivity|]. split; [exact Hs|].
  split; [exact Hclock|]. split; [reflexivity|].
  exact (create_then_list w_same_day doc_jan1 (new_task "walk") "walk"
           eq_refl eq_refl Hs Hclock eq_refl).
Defined.

(** X9. Creating a task whose timestamp id is not in use and deleting it by the
    id the creation answered restores the stored document exactly. *)
Theorem create_then_delete
    (w : World) (d : Document) (req : CreateBody) (s : string) :
  file w = Some (Json d) ->
  c_title req = Some s ->
  Js.trim s <> "" ->
  lastReset d = today_of w ->
  Js.toString (clock w (S (ticks w))) ∉ ids d ->
  next_write_ok w = true ->
  write_ok w (S (length (writes w))) = true ->
  exists t w1 w2,
    post_tasks req w = (Return {| status := 201; body := BTask t |}, w1) /\
    delete_task (id t) w1
    = (Return {| status := 200;
                 body := BMessage "Task deleted successfully" |}, w2) /\
    file w2 = Some (Json d).
Proof.
  intros Hf Htitle Hs Hday Hfresh Hok Hok2.
  destruct (post_tasks_same_day w d req s Hf Htitle Hs Hday)
    as (w1 & Hpost & Hw1 & Hf1 & _ & Ho & _).
  rewrite Hok in Hpost, Hf1.
  set (t := created req s (clock w (S (ticks w)))
              (clock w (S (S (ticks w))))) in *.
  assert (Hfind : find_index (fun task => String.eqb (id task) (id t))
                    (tasks (pushed t d)) = Some (length (tasks d))).
  { simpl. apply find_index_snoc; [|apply String.eqb_refl].
    apply Forall_forall. intros y Hy. apply String.eqb_neq. intros Hid.
    apply Hfresh. unfold ids. apply list_elem_of_fmap. by exists y. }
  destruct (delete_task_found w1 _ (id t) _ Hf1 Hfind)
    as (w2 & Hdel & _ & Hf2).
  assert (Hok1 : next_write_ok w1 = true).
  { unfold next_write_ok. rewrite Ho, Hw1, length_app. simpl.
    by replace (length (writes w) + 1) with (S (length (writes w))) by lia. }
  rewrite Hok1 in Hdel, Hf2.
  exists t, w1, w2. split; [exact Hpost|]. split; [exact Hdel|].
  rewrite Hf2. unfold with_doc_tasks. simpl. rewrite delete_snoc.
  by destruct d.
Qed.

Lemma create_then_delete_witness :
  file w_same_day = Some (Json doc_jan1) /\
  c_title (new_task "walk") = Some "walk" /\
  Js.trim "walk" <> "" /\
  lastReset doc_jan1 = today_of w_same_day /\
  (Js.toString (clock w_same_day (S (ticks w_same_day))) ∉ ids doc_jan1) /\
  next_write_ok w_same_day = true /\
  write_ok w_same_day (S (length (writes w_same_day))) = true /\
  exists t w1 w2,
    post_tasks (new_task "walk") w_same_day
    = (Return {| status := 201; body := BTask t |}, w1) /\
    delete_task (id t) w1
    = (Return {| status := 200;
                 body := BMessage "Task deleted successfully" |}, w2) /\
    file w2 = Some (Json doc_jan1).
Proof.
  assert (Hs : Js.trim "walk" <> "") by (vm_compute; discriminate).
  assert (Hday : lastReset doc_jan1 = today_of w_same_day)
    by (vm_compute; reflexivity).
  assert (Hfresh : Js.toString (clock w_same_day (S (ticks w_same_day)))
                   ∉ ids doc_jan1).
  { intros Hin. vm_compute in Hin.
    apply elem_of_cons in Hin as [Hin|Hin]; [discriminate|].
    apply elem_of_cons in Hin as [Hin|Hin]; [discriminate|].
    by apply not_elem_of_nil in Hin. }
  split; [reflexivity|]. split; [reflexivity|]. split; [exact Hs|].
  split; [exact Hday|]. split; [exact Hfresh|]. split; [reflexivity|].
  split; [reflexivity|].
  exact (create_then_delete w_same_day doc_jan1 (new_task "walk") "walk"
           eq_refl eq_refl Hs Hday Hfresh eq_refl eq_refl).
Defined.

(** ** An absent or unparseable data file *)

Lemma checkDailyReset_unreadable_moved w :
  file w = None \/ file w = Some Garbage ->
  Js.isoDate (clock w (S (ticks w))) <> today_of w ->
  let doc := {| tasks := []; lastReset := Js.isoDate (clock w (S (ticks w)));
                history := [] |} in
  exists w',
    checkDailyReset w = (Return true, w') /\
    writes w' = writes w ++ [doc] /\
    file w' = (if next_write_ok w then Some (Json doc) else file w).
Proof.
  intros Hf Hday doc. unfold checkDailyReset, bind at 1.
  rewrite (readTasks_unreadable w Hf).
  unfold bind at 1, Date_now. simpl.
  assert (Hneq : String.eqb (today_of w) (Js.isoDate (clock w (S (ticks w))))
                 = false) by (apply String.eqb_neq; congruence).
  rewrite Hneq. simpl.
  unfold bind at 1, ret at 1. unfold bind at 1. simpl forEach. unfold ret at 1.
  unfold bind at 1. rewrite writeTasks_eq. cbv zeta.
  change (next_write_ok (tick (tick w))) with (next_write_ok w).
  destruct (next_write_ok w); eexists; (split; [reflexivity|]); by split.
Qed.

Lemma file_cases w :
  (file w = None \/ file w = Some Garbage) \/ exists d, file w = Some (Json d).
Proof. destruct (file w) as [[|d]|]; eauto. Qed.

Lemma readTasks_total w :
  exists data w',
    readTasks w = (Return data, w') /\
    file w' = file w /\ writes w' = writes w /\ write_ok w' = write_ok w.
Proof.
  destruct (file_cases w) as [Hf|[d Hf]].
  - eexists _, _. split; [by apply readTasks_unreadable|]. by repeat split.
  - destruct (readTasks_stored w d Hf) as (data & h & Hread & _).
    exists data, (set_heap h w). split; [exact Hread|]. by repeat split.
Qed.

Lemma checkDailyReset_total w :
  exists b w', checkDailyReset w = (Return b, w').
Proof.
  assert (Hbad : file w = None \/ file w = Some Garbage ->
                 exists b w', checkDailyReset w = (Return b, w')).
  { intros Hf.
    destruct (decide (Js.isoDate (clock w (S (ticks w))) = today_of w))
      as [Heq|Hne].
    - eexists _, _. by apply checkDailyReset_unreadable.
    - destruct (checkDailyReset_unreadable_moved w Hf Hne) as (w' & Hrun & _).
      by exists true, w'. }
  destruct (file_cases w) as [Hf|[d Hf]]; [by apply Hbad|].
  destruct (checkDailyReset_stored w d Hf) as (b & w1 & d1 & Hrun & _).
  by exists b, w1.
Qed.

(** X10. With no readable data file and the clock within one day, the reading
    routes answer as for an empty document and nothing is written: the list
    and the history are empty, updates and deletions find no task. *)
Theorem unreadable_file_reads_as_empty
    (w : World) (id0 : string) (req : UpdateBody) :
  file w = None \/ file w = Some Garbage ->
  (forall k, Js.isoDate (clock w k) = today_of w) ->
  (exists w',
     get_tasks w
     = (Return {| status := 200;
                  body := BTasks [] (today_of w) (today_of w) |}, w') /\
     writes w' = writes w /\ file w' = file w) /\
  (exists w',
     get_history w = (Return {| status := 200; body := BHistory [] |}, w') /\
     writes w' = writes w /\ file w' = file w) /\
  (exists w',
     put_task id0 req w
     = (Return {| status := 404; body := BError "Task not found" |}, w') /\
     writes w' = writes w /\ file w' = file w) /\
  (exists w',
     delete_task id0 w
     = (Return {| status := 404; body := BError "Task not found" |}, w') /\
     writes w' = writes w /\ file w' = file w).
Proof.
  intros Hf Hclock.
  assert (Hf2 : file (tick (tick w)) = None \/ file (tick (tick w)) = Some Garbage)
    by exact Hf.
  split; [|split; [|split]].
  - exists (tick (tick (tick (tick w)))). split; [|split; reflexivity].
    unfold get_tasks, bind at 1.
    rewrite (checkDailyReset_unreadable w Hf (Hclock _)).
    unfold bind at 1. rewrite (readTasks_unreadable _ Hf2).
    unfold bind, get_heap, Date_now, respond, ret. simpl.
    unfold today_of. simpl. by rewrite !Hclock.
  - exists (tick w). split; [|split; reflexivity].
    unfold get_history, bind at 1. rewrite (readTasks_unreadable w Hf).
    reflexivity.
  - exists (tick w). split; [|split; reflexivity].
    unfold put_task, bind at 1. rewrite (readTasks_unreadable w Hf).
    reflexivity.
  - exists (tick w). split; [|split; reflexivity].
    unfold delete_task, bind at 1. rewrite (readTasks_unreadable w Hf).
    reflexivity.
Qed.

Lemma unreadable_file_reads_as_empty_witness :
  (file w_no_file = None \/ file w_no_file = Some Garbage) /\
  (forall k, Js.isoDate (clock w_no_file k) = today_of w_no_file) /\
  (exists w',
     get_tasks w_no_file
     = (Return {| status := 200;
                  body := BTasks [] (today_of w_no_file)
                            (today_of w_no_file) |}, w') /\
     writes w' = writes w_no_file /\ file w' = file w_no_file) /\
  (exists w',
     get_history w_no_file
     = (Return {| status := 200; body := BHistory [] |}, w') /\
     writes w' = writes w_no_file /\ file w' = file w_no_file) /\
  (exists w',
     put_task "1" (set_completed true) w_no_file
     = (Return {| status := 404; body := BError "Task not found" |}, w') /\
     writes w' = writes w_no_file /\ file w' = file w_no_file) /\
  (exists w',
     delete_task "1" w_no_file
     = (Return {| status := 404; body := BError "Task not found" |}, w') /\
     writes w' = writes w_no_file /\ file w' = file w_no_file).
Proof.
  assert (Hf : file w_no_file = None \/ file w_no_file = Some Garbage)
    by (left; reflexivity).
  assert (Hclock : forall k,
            Js.isoDate (clock w_no_file k) = today_of w_no_file)
    by (intros k; reflexivity).
  split; [exact Hf|]. split; [exact Hclock|].
  exact (unreadable_file_reads_as_empty w_no_file "1" (set_completed true)
           Hf Hclock).
Defined.

(** X11. A creation on an absent or unparseable data file, with the clock within
    one day and the save succeeding, replaces the file by a document that
    holds the new task alone, dated today, with an empty history: what an
    unparseable file held is lost. *)
Theorem create_on_unreadable_file
    (w : World) (req : CreateBody) (s : string) :
  file w = None \/ file w = Some Garbage ->
  (forall k, Js.isoDate (clock w k) = today_of w) ->
  c_title req = Some s ->
  Js.trim s <> "" ->
  next_write_ok w = true ->
  exists t w',
    post_tasks req w = (Return {| status := 201; body := BTask t |}, w') /\
    title t = Js.trim s /\ completed t = false /\
    writes w' = writes w
                ++ [{| tasks := [t]; lastReset := today_of w; history := [] |}]
    /\
    file w'
    = Some (Json {| tasks := [t]; lastReset := today_of w; history := [] |}).
Proof.
  intros Hf Hclock Htitle Hs Hok.
  assert (Hf2 : file (tick (tick w)) = None \/ file (tick (tick w)) = Some Garbage)
    by exact Hf.
  eexists _, _. split.
  - unfold post_tasks. rewrite Htitle, (valid_title s Hs).
    unfold bind at 1.
    rewrite (checkDailyReset_unreadable w Hf (Hclock _)).
    unfold bind at 1. rewrite (readTasks_unreadable _ Hf2).
    unfold bind at 1, Date_now. simpl.
    unfold bind at 1. simpl.
    unfold bind at 1, new_object, bind at 1, get_heap, put_heap, ret. simpl.
    unfold bind at 1. rewrite writeTasks_eq. cbv zeta.
    match goal with
    | |- context [next_write_ok ?x] =>
        change (next_write_ok x) with (next_write_ok w)
    end.
    rewrite Hok. unfold bind, load, get_heap, ret, respond. simpl.
    rewrite deref_snoc_new. reflexivity.
  - assert (Hday : today_of (tick (tick w)) = today_of w)
      by (unfold today_of at 1; simpl; apply Hclock).
    simpl. unfold stringify. simpl. rewrite deref_snoc_new, Hday.
    repeat split.
Qed.

Lemma create_on_unreadable_file_witness :
  (file (world_at (Some Garbage) jan2 true) = None \/
   file (world_at (Some Garbage) jan2 true) = Some Garbage) /\
  (forall k, Js.isoDate (clock (world_at (Some Garbage) jan2 true) k)
             = today_of (world_at (Some Garbage) jan2 true)) /\
  c_title (new_task "walk") = Some "walk" /\
  Js.trim "walk" <> "" /\
  next_write_ok (world_at (Some Garbage) jan2 true) = true /\
  exists t w',
    post_tasks (new_task "walk") (world_at (Some Garbage) jan2 true)
    = (Return {| status := 201; body := BTask t |}, w') /\
    title t = Js.trim "walk" /\ completed t = false /\
    writes w' = writes (world_at (Some Garbage) jan2 true)
                ++ [{| tasks := [t];
                       lastReset := today_of (world_at (Some Garbage) jan2 true);
                       history := [] |}]
    /\
    file w'
    = Some (Json {| tasks := [t];
                    lastReset := today_of (world_at (Some Garbage) jan2 true);
                    history := [] |}).
Proof.
  assert (Hf : file (world_at (Some Garbage) jan2 true) = None \/
               file (world_at (Some Garbage) jan2 true) = Some Garbage)
    by (right; reflexivity).
  assert (Hclock : forall k,
            Js.isoDate (clock (world_at (Some Garbage) jan2 true) k)
            = today_of (world_at (Some Garbage) jan2 true))
    by (intros k; reflexivity).
  assert (Hs : Js.trim "walk" <> "") by (vm_compute; discriminate).
  split; [exact Hf|]. split; [exact Hclock|]. split; [reflexivity|].
  split; [exact Hs|]. split; [reflexivity|].
  exact (create_on_unreadable_file (world_at (Some Garbage) jan2 true)
           (new_task "walk") "walk" Hf Hclock eq_refl Hs eq_refl).
Defined.

(** ** No exception escapes a route *)

Lemma post_tasks_total req w : exists r w', post_tasks req w = (Return r, w').
Proof.
  unfold post_tasks. destruct (c_title req) as [s|]; [|by eexists _, _].
  destruct (negb (Js.truthy s) || String.eqb (Js.trim s) "");
    [by eexists _, _|].
  destruct (checkDailyReset_total w) as (b & w1 & Hcheck).
  destruct (readTasks_total w1) as (data & w2 & Hread & _).
  unfold bind at 1. rewrite Hcheck. unfold bind at 1. rewrite Hread.
  unfold bind at 1, Date_now. simpl.
  unfold bind at 1. simpl.
  unfold bind at 1, new_object, bind at 1, get_heap, put_heap, ret. simpl.
  unfold bind at 1. rewrite writeTasks_eq. cbv zeta.
  match goal with
  | |- context [if next_write_ok ?x then _ else _] => destruct (next_write_ok x)
  end; by eexists _, _.
Qed.

Lemma put_task_total id0 req w :
  exists r w', put_task id0 req w = (Return r, w').
Proof.
  destruct (readTasks_total w) as (data & w1 & Hread & _).
  unfold put_task, bind at 1. rewrite Hread.
  unfold bind at 1. rewrite findIndex_eq.
  destruct (find_index _ (d_tasks data)) as [i|]; [|by eexists _, _].
  set (r := d_tasks data !!! i).
  set (rest := fun _ : unit =>
                 ok <- writeTasks data;;
                 (if ok : bool then t0 <- load r;; respond 200 (BTask t0)
                  else respond 500 (BError "Failed to update task"))).
  assert (Hshape : forall m1 m2 m3 m4 : M unit,
            (m1;;; m2;;; m3;;; m4;;; rest tt) w1
            = bind (m1;;; m2;;; m3;;; m4) rest w1).
  { intros m1 m2 m3 m4. unfold bind.
    destruct (m1 w1) as [[[]|e1] w2]; [|reflexivity].
    destruct (m2 w2) as [[[]|e2] w3]; [|reflexivity].
    destruct (m3 w3) as [[[]|e3] w4]; [|reflexivity].
    by destruct (m4 w4) as [[[]|e4] w5]. }
  unfold rest in Hshape. rewrite Hshape. clear Hshape rest.
  unfold bind at 1. rewrite put_block_eq.
  unfold bind at 1. rewrite writeTasks_eq. cbv zeta.
  match goal with
  | |- context [if next_write_ok ?x then _ else _] => destruct (next_write_ok x)
  end; by eexists _, _.
Qed.

Lemma delete_task_total id0 w :
  exists r w', delete_task id0 w = (Return r, w').
Proof.
  destruct (readTasks_total w) as (data & w1 & Hread & _).
  unfold delete_task, bind at 1. rewrite Hread.
  unfold bind at 1. rewrite findIndex_eq.
  destruct (find_index _ (d_tasks data)) as [i|]; [|by eexists _, _].
  unfold bind at 1. rewrite writeTasks_eq. cbv zeta.
  match goal with
  | |- context [if next_write_ok ?x then _ else _] => destruct (next_write_ok x)
  end; by eexists _, _.
Qed.

Lemma get_tasks_total w : exists r w', get_tasks w = (Return r, w').
Proof.
  destruct (checkDailyReset_total w) as (b & w1 & Hcheck).
  destruct (readTasks_total w1) as (data & w2 & Hread & _).
  unfold get_tasks, bind at 1. rewrite Hcheck.
  unfold bind at 1. rewrite Hread. by eexists _, _.
Qed.

Lemma get_history_total w : exists r w', get_history w = (Return r, w').
Proof.
  destruct (readTasks_total w) as (data & w1 & Hread & _).
  unfold get_history, bind at 1. rewrite Hread. by eexists _, _.
Qed.

(** X12. When the data file is absent, holds text that does not parse, or
    holds a document, no route lets an exception escape, whether writes
    succeed or fail: each request ends with a response, and so does the
    rollover check. *)
Theorem handle_never_throws (r : Request) (w : World) :
  file w = None \/ file w = Some Garbage \/ (exists d, file w = Some (Json d)) ->
  (exists resp w', handle r w = (Return resp, w')) /\
  (exists b w', checkDailyReset w = (Return b, w')).
Proof.
  intros _. split; [|apply checkDailyReset_total].
  destruct r; simpl;
    [apply get_tasks_total|apply post_tasks_total|apply put_task_total
    |apply delete_task_total|apply get_history_total].
Qed.

Lemma handle_never_throws_witness :
  (file w_disk_full = None \/ file w_disk_full = Some Garbage \/
   exists d, file w_disk_full = Some (Json d)) /\
  (exists resp w',
     handle (PostTask (new_task "walk")) w_disk_full = (Return resp, w')) /\
  (exists b w', checkDailyReset w_disk_full = (Return b, w')).
Proof.
  assert (Hf : file w_disk_full = None \/ file w_disk_full = Some Garbage \/
               exists d, file w_disk_full = Some (Json d))
    by (right; right; by exists doc_jan1).
  split; [exact Hf|].
  exact (handle_never_throws (PostTask (new_task "walk")) w_disk_full Hf).
Defined.

(** ** Sequences of requests: what the stored document keeps *)

Lemma archive_counted d : Forall entry_counted (archive d).
Proof.
  unfold archive. cbv zeta.
  destruct ((0 <? length (tasks d))%nat
            && (0 <? length (List.filter completed (tasks d)))%nat)
    eqn:Hc; [|constructor].
  apply andb_true_iff in Hc as [_ Hc]. apply Nat.ltb_lt in Hc.
  constructor; [|constructor]. unfold entry_counted. simpl.
  rewrite length_fmap. repeat split; [done|]. apply filter_length_le.
Qed.

Lemma handle_step r w d :
  file w = Some (Json d) ->
  exists resp w' d',
    handle r w = (Return resp, w') /\
    file w' = Some (Json d') /\
    (history d' = history d \/ exists d0, history d' = history d ++ archive d0)
    /\
    (is_creation r = false -> ids d' `sublist_of` ids d).
Proof.
  intros Hf. destruct r as [|req|id0 req|id0|]; simpl.
  - destruct (get_tasks_stored w d Hf) as (r & w' & d' & Hrun & Hf' & Hd').
    exists r, w', d'. split; [done|]. split; [done|].
    destruct Hd' as [->| ->].
    + split; [by left|done].
    + split; [right; by exists d|]. intros _. by rewrite ids_rolled.
  - destruct (c_title req) as [s|] eqn:Htitle.
    + destruct (decide (Js.trim s = "")) as [Hs|Hs].
      * eexists _, w, d. split; [|split; [done|split; [by left|done]]].
        apply post_tasks_rejects_blank. by rewrite Htitle.
      * destruct (post_tasks_stored w d req s Hf Htitle Hs)
          as (b & w1 & d1 & w' & _ & _ & _ & Hd1 & _ & _ & Hrun & Hfile).
        eexists _, w', _. split; [exact Hrun|]. split; [exact Hfile|].
        split; [|done].
        assert (Hh : history d1 = history d \/
                     exists d0, history d1 = history d ++ archive d0)
          by (destruct Hd1 as [->| ->]; [by left|right; by exists d]).
        by destruct (next_write_ok w1).
    + eexists _, w, d. split; [|split; [done|split; [by left|done]]].
      apply post_tasks_rejects_blank. by rewrite Htitle.
  - destruct (put_task_same_ids w d id0 req Hf)
      as (r & w' & d' & Hrun & Hf' & Hids).
    destruct (put_task_stored w d id0 req Hf)
      as (r2 & w2 & d2 & Hrun2 & Hf2 & _ & Hh).
    rewrite Hrun in Hrun2. injection Hrun2 as <- <-.
    rewrite Hf' in Hf2. injection Hf2 as <-.
    exists r, w', d'. split; [done|]. split; [done|]. split; [by left|].
    intros _. by rewrite Hids.
  - destruct (delete_task_stored w d id0 Hf)
      as (r & w' & d' & Hrun & Hf' & _ & Hh & Hd').
    exists r, w', d'. split; [done|]. split; [done|]. split; [by left|].
    intros _. destruct Hd' as [->|(i & t & _ & _ & Ht)]; [done|].
    unfold ids. rewrite Ht, list_fmap_delete. apply sublist_delete.
  - destruct (get_history_stored w d Hf) as (r & w' & Hrun & Hf').
    exists r, w', d. split; [done|]. split; [done|]. split; [by left|done].
Qed.

Lemma serve_step rs w d :
  file w = Some (Json d) ->
  exists d' extra,
    file (serve rs w) = Some (Json d') /\
    history d' = history d ++ extra /\ Forall entry_counted extra /\
    (Forall (fun r => is_creation r = false) rs -> ids d' `sublist_of` ids d).
Proof.
  revert w d. induction rs as [|r rs IH]; intros w d Hf; simpl.
  - exists d, []. rewrite app_nil_r. repeat split; auto.
  - destruct (handle_step r w d Hf) as (resp & w' & d1 & Hrun & Hf1 & Hh & Hi).
    rewrite Hrun. simpl.
    destruct (IH w' d1 Hf1) as (d' & extra & Hf' & Hh' & Hc & Hi').
    destruct Hh as [Hh|(d0 & Hh)].
    + exists d', extra. split; [done|]. split; [by rewrite Hh', Hh|].
      split; [done|].
      intros Hall. inversion Hall as [|? ? Hr Hrs]; subst.
      trans (ids d1); auto.
    + exists d', (archive d0 ++ extra). split; [done|].
      split; [by rewrite Hh', Hh, app_assoc|].
      split; [apply Forall_app; split; [apply archive_counted|done]|].
      intros Hall. inversion Hall as [|? ? Hr Hrs]; subst.
      trans (ids d1); auto.
Qed.

(** X13. Along any sequence of requests on a readable file, the file stays
    readable and the history only grows at its end: no entry is dropped or
    changed once it is stored. *)
Theorem history_is_append_only (rs : list Request) (w : World) (d : Document) :
  file w = Some (Json d) ->
  exists d',
    file (serve rs w) = Some (Json d') /\
    length (history d) <= length (history d') /\
    forall k e, history d !! k = Some e -> history d' !! k = Some e.
Proof.
  intros Hf. destruct (serve_step rs w d Hf) as (d' & extra & Hf' & Hh & _).
  exists d'. split; [exact Hf'|]. rewrite Hh. split.
  - rewrite length_app. lia.
  - intros k e Hk. by apply lookup_app_l_Some.
Qed.

Lemma history_is_append_only_witness :
  file w_next_day = Some (Json doc_jan1) /\
  exists d',
    file (serve requests_with_creation w_next_day) = Some (Json d') /\
    length (history doc_jan1) <= length (history d') /\
    forall k e, history doc_jan1 !! k = Some e -> history d' !! k = Some e.
Proof.
  split; [reflexivity|].
  exact (history_is_append_only requests_with_creation w_next_day doc_jan1
           eq_refl).
Defined.

(** X14. If every stored history entry lists as many tasks as it counts, at
    least one and at most its [totalTasks], then so does every entry after
    any sequence of requests. *)
Theorem history_entries_stay_counted
    (rs : list Request) (w : World) (d : Document) :
  file w = Some (Json d) ->
  Forall entry_counted (history d) ->
  exists d',
    file (serve rs w) = Some (Json d') /\ Forall entry_counted (history d').
Proof.
  intros Hf Hc.
  destruct (serve_step rs w d Hf) as (d' & extra & Hf' & Hh & Hextra & _).
  exists d'. split; [exact Hf'|]. rewrite Hh. by apply Forall_app.
Qed.

Lemma history_entries_stay_counted_witness :
  file w_next_day = Some (Json doc_jan1) /\
  Forall entry_counted (history doc_jan1) /\
  exists d',
    file (serve requests_with_creation w_next_day) = Some (Json d') /\
    Forall entry_counted (history d').
Proof.
  assert (Hc : Forall entry_counted (history doc_jan1)) by constructor.
  split; [reflexivity|]. split; [exact Hc|].
  exact (history_entries_stay_counted requests_with_creation w_next_day
           doc_jan1 eq_refl Hc).
Defined.

(** X15. Without a creation, no sequence of requests brings in an id: the ids
    stored afterwards are a sublist of those stored before, so unique ids
    stay unique. *)
Theorem ids_only_shrink_without_creation
    (rs : list Request) (w : World) (d : Document) :
  file w = Some (Json d) ->
  Forall (fun r => is_creation r = false) rs ->
  exists d',
    file (serve rs w) = Some (Json d') /\
    ids d' `sublist_of` ids d /\
    (NoDup (ids d) -> NoDup (ids d')).
Proof.
  intros Hf Hall.
  destruct (serve_step rs w d Hf) as (d' & extra & Hf' & _ & _ & Hsub).
  exists d'. split; [exact Hf'|]. split; [by apply Hsub|].
  intros Hnd. eapply sublist_NoDup; [exact Hnd|by apply Hsub].
Qed.

Lemma ids_only_shrink_without_creation_witness :
  file w_next_day = Some (Json doc_jan1) /\
  Forall (fun r => is_creation r = false) requests_no_creation /\
  exists d',
    file (serve requests_no_creation w_next_day) = Some (Json d') /\
    ids d' `sublist_of` ids doc_jan1 /\
    (NoDup (ids doc_jan1) -> NoDup (ids d')).
Proof.
  assert (Hall : Forall (fun r => is_creation r = false) requests_no_creation)
    by (repeat constructor).
  split; [reflexivity|]. split; [exact Hall|].
  exact (ids_only_shrink_without_creation requests_no_creation w_next_day
           doc_jan1 eq_refl Hall).
Defined.

(** The two sequences on the day after: the rollover of the first GET (or
    of the creation) archives task "1", the deletion drops one id. *)
Example serve_requests_no_creation :
  exists d',
    file (serve requests_no_creation w_next_day) = Some (Json d') /\
    ids d' = ["2"] /\ length (history d') = 1 /\
    completed <$> tasks d' = [true] /\ lastReset d' = "2024-01-02".
Proof. eexists. vm_compute. repeat split. Qed.

(** ** Statistics *)

Lemma get_stats_stored w d :
  file w = Some (Json d) ->
  exists w',
    get_stats w
    = (Return
         {| s_today := lastReset d;
            s_totalTasks := length (tasks d);
            s_completedTasks := length (List.filter completed (tasks d));
            s_pendingTasks :=
              (Z.of_nat (length (tasks d))
               - Z.of_nat (length (List.filter completed (tasks d))))%Z;
            s_completionRate :=
              completionRate (length (List.filter completed (tasks d)))
                (length (tasks d)) |}, w') /\
    file w' = file w /\ writes w' = writes w.
Proof.
  intros Hf. destruct (readTasks_stored w d Hf) as (data & h & Hread & Hp).
  exists (set_heap h w). split; [|by split].
  unfold get_stats, bind at 1. rewrite Hread.
  unfold bind, array_filter, get_heap, ret. simpl.
  assert (Hl : length (d_tasks data) = length (tasks d))
    by (by rewrite <- (parsed_tasks _ _ _ Hp), length_fmap).
  assert (Hc : length (List.filter (fun r => completed (deref h r))
                         (d_tasks data))
               = length (List.filter completed (tasks d))).
  { rewrite <- (parsed_tasks _ _ _ Hp), <- deref_filter.
    by rewrite length_fmap. }
  by rewrite Hl, Hc, (parsed_lastReset _ _ _ Hp).
Qed.

(** X16. GET /api/stats counts the stored tasks as they are, under the stored
    date: it runs no rollover and writes nothing, whatever the clock says.
    The pending count is never negative, pending and completed add up to the
    total, and without tasks the rate is 0. *)
Theorem get_stats_counts_stored_tasks (w : World) (d : Document) :
  file w = Some (Json d) ->
  exists st w',
    get_stats w = (Return st, w') /\
    file w' = file w /\ writes w' = writes w /\
    s_today st = lastReset d /\
    s_totalTasks st = length (tasks d) /\
    s_completedTasks st = length (List.filter completed (tasks d)) /\
    (0 <= s_pendingTasks st)%Z /\
    (s_pendingTasks st + Z.of_nat (s_completedTasks st)
     = Z.of_nat (s_totalTasks st))%Z /\
    (tasks d = [] -> s_completionRate st = Some 0%Z).
Proof.
  intros Hf. destruct (get_stats_stored w d Hf) as (w' & Hrun & Hfile & Hw).
  eexists _, w'. split; [exact Hrun|]. simpl.
  split; [done|]. split; [done|]. split; [done|]. split; [done|].
  split; [done|].
  pose proof (filter_length_le completed (tasks d)).
  split; [lia|]. split; [lia|]. by intros ->.
Qed.

Lemma get_stats_counts_stored_tasks_witness :
  file w_next_day = Some (Json doc_jan1) /\
  exists st w',
    get_stats w_next_day = (Return st, w') /\
    file w' = file w_next_day /\ writes w' = writes w_next_day /\
    s_today st = lastReset doc_jan1 /\
    s_totalTasks st = length (tasks doc_jan1) /\
    s_completedTasks st = length (List.filter completed (tasks doc_jan1)) /\
    (0 <= s_pendingTasks st)%Z /\
    (s_pendingTasks st + Z.of_nat (s_completedTasks st)
     = Z.of_nat (s_totalTasks st))%Z /\
    (tasks doc_jan1 = [] -> s_completionRate st = Some 0%Z).
Proof.
  split; [reflexivity|].
  exact (get_stats_counts_stored_tasks w_next_day doc_jan1 eq_refl).
Defined.

Lemma rate_table :
  forallb (fun t => forallb (fun c => rate_is_exact c t) (seq 0 (S t)))
    (seq 0 40) = true.
Proof. vm_compute. reflexivity. Qed.

Lemma completionRate_exact c t :
  c <= t -> t < 40 -> completionRate c t = Some (exact_rate c t).
Proof.
  intros Hc Ht. pose proof rate_table as Htab.
  rewrite forallb_forall in Htab.
  assert (Hrow : forallb (fun c => rate_is_exact c t) (seq 0 (S t)) = true)
    by (apply Htab, in_seq; lia).
  rewrite forallb_forall in Hrow.
  assert (Hcell : rate_is_exact c t = true) by (apply Hrow, in_seq; lia).
  unfold rate_is_exact in Hcell.
  destruct (completionRate c t) as [r|]; [|discriminate].
  apply Z.eqb_eq in Hcell. by rewrite Hcell.
Qed.

(** X17. With fewer than 40 tasks the rate GET /api/stats answers is the
    percentage of completed tasks rounded to the nearest integer, halves
    upwards: the rounding errors of the double division and multiplication
    do not show. *)
Theorem get_stats_rate_is_exact (w : World) (d : Document) :
  file w = Some (Json d) ->
  length (tasks d) < 40 ->
  exists st w',
    get_stats w = (Return st, w') /\
    s_completionRate st
    = Some (exact_rate (length (List.filter completed (tasks d)))
              (length (tasks d))).
Proof.
  intros Hf Hlen. destruct (get_stats_stored w d Hf) as (w' & Hrun & _).
  eexists _, w'. split; [exact Hrun|]. simpl.
  apply completionRate_exact; [apply filter_length_le|exact Hlen].
Qed.

Lemma get_stats_rate_is_exact_witness :
  file w_same_day = Some (Json doc_jan1) /\
  length (tasks doc_jan1) < 40 /\
  exists st w',
    get_stats w_same_day = (Return st, w') /\
    s_completionRate st
    = Some (exact_rate (length (List.filter completed (tasks doc_jan1)))
              (length (tasks doc_jan1))).
Proof.
  assert (Hlen : length (tasks doc_jan1) < 40) by (simpl; lia).
  split; [reflexivity|]. split; [exact Hlen|].
  exact (get_stats_rate_is_exact w_same_day doc_jan1 eq_refl Hlen).
Defined.

(** The bound is the best one: with 23 tasks of 40 completed the double
    product is just below 57.5 and the rate is 57, not 58; 3 of 4 is 75. *)
Example completionRate_23_of_40 :
  completionRate 23 40 = Some 57%Z /\ exact_rate 23 40 = 58%Z /\
  completionRate 3 4 = Some 75%Z /\ completionRate 0 0 = Some 0%Z.
Proof. vm_compute. repeat split. Qed.

(** ** The client and the server *)

Lemma replace_unique (l : list Task) id0 i t t' :
  NoDup (id <$> l) -> l !! i = Some t -> id t = id0 ->
  map (fun task => if String.eqb (id task) id0 then t' else task) l
  = alter (fun _ => t') i l.
Proof.
  revert i. induction l as [|x l IH]; intros i Hnd Hi Hid; [done|].
  rewrite fmap_cons in Hnd. apply NoDup_cons in Hnd as [Hx Hnd].
  destruct i as [|i]; simpl in Hi.
  - injection Hi as ->. simpl. rewrite Hid, String.eqb_refl. f_equal.
    rewrite <- (map_id l) at 2. apply map_ext_in. intros y Hy.
    assert (Hne : String.eqb (id y) id0 = false); [|by rewrite Hne].
    apply String.eqb_neq. intros Hyid. apply Hx.
    rewrite Hid, <- Hyid. apply list_elem_of_fmap. exists y.
    split; [done|]. by apply list_elem_of_In.
  - simpl.
    assert (Hne : String.eqb (id x) id0 = false).
    { apply String.eqb_neq. intros Hxid. apply Hx.
      rewrite Hxid, <- Hid. apply list_elem_of_fmap. exists t.
      split; [done|]. by eapply list_elem_of_lookup_2. }
    rewrite Hne. f_equal. by apply IH.
Qed.

(** X18. When the list the client shows is the stored one and ids are unique,
    toggling a task leaves the two equal, whether the task exists and
    whether the save succeeds. *)
Theorem toggleTask_keeps_list_in_sync
    (w : World) (d : Document) (st : App.State) (id0 : string) (c : bool) :
  file w = Some (Json d) ->
  App.tasks st = tasks d ->
  NoDup (ids d) ->
  exists st' w' d',
    App.toggleTask id0 c st w = (Return st', w') /\
    file w' = Some (Json d') /\
    App.tasks st' = tasks d'.
Proof.
  intros Hf Hsync Hnd. unfold App.toggleTask.
  destruct (find_index (fun task => String.eqb (id task) id0) (tasks d))
    as [i|] eqn:Hfind.
  - destruct (find_index_first _ _ _ Hfind) as (t & Ht & Hid & _).
    apply String.eqb_eq in Hid.
    destruct (put_task_found w d id0 (set_completed (negb c)) i t Hf Hfind Ht)
      as (w' & Hrun & _ & Hfile).
    unfold set_completed in Hrun. unfold bind. rewrite Hrun.
    destruct (next_write_ok w); eexists _, w', _;
      (split; [reflexivity|]); (split; [exact Hfile|]); simpl; [|done].
    rewrite Hsync, (replace_unique _ id0 i t _ Hnd Ht Hid).
    apply list_alter_ext; [|done]. intros x Hx. simpl.
    rewrite Ht in Hx. by injection Hx as <-.
  - destruct (put_task_not_found w d id0 (set_completed (negb c)) Hf Hfind)
      as (w' & Hrun & _ & Hfile).
    unfold set_completed in Hrun. unfold bind. rewrite Hrun.
    eexists _, w', d. split; [reflexivity|]. split; [by rewrite Hfile|done].
Qed.

Lemma toggleTask_keeps_list_in_sync_witness :
  file w_next_day = Some (Json doc_jan1) /\
  App.tasks (app_state (tasks doc_jan1) "") = tasks doc_jan1 /\
  NoDup (ids doc_jan1) /\
  exists st' w' d',
    App.toggleTask "2" false (app_state (tasks doc_jan1) "") w_next_day
    = (Return st', w') /\
    file w' = Some (Json d') /\
    App.tasks st' = tasks d'.
Proof.
  assert (Hnd : NoDup (ids doc_jan1)).
  { apply NoDup_cons. split.
    - intros Hin. apply elem_of_cons in Hin as [Hin|Hin]; [discriminate|].
      by apply not_elem_of_nil in Hin.
    - apply NoDup_cons. split; [apply not_elem_of_nil|apply NoDup_nil_2]. }
  split; [reflexivity|]. split; [reflexivity|]. split; [exact Hnd|].
  exact (toggleTask_keeps_list_in_sync w_next_day doc_jan1
           (app_state (tasks doc_jan1) "") "2" false eq_refl eq_refl Hnd).
Defined.

(** X19. The same for a deletion: with unique ids, dropping every shown task
    that carries the id is what the server did to the stored list. *)
Theorem deleteTask_keeps_list_in_sync
    (w : World) (d : Document) (st : App.State) (id0 : string) :
  file w = Some (Json d) ->
  App.tasks st = tasks d ->
  NoDup (ids d) ->
  exists st' w' d',
    App.deleteTask id0 st w = (Return st', w') /\
    file w' = Some (Json d') /\
    App.tasks st' = tasks d'.
Proof.
  intros Hf Hsync Hnd. unfold App.deleteTask.
  destruct (find_index (fun task => String.eqb (id task) id0) (tasks d))
    as [i|] eqn:Hfind.
  - destruct (find_index_first _ _ _ Hfind) as (t & Ht & Hid & _).
    apply String.eqb_eq in Hid.
    destruct (delete_task_found w d id0 i Hf Hfind)
      as (w' & Hrun & _ & Hfile).
    unfold bind. rewrite Hrun.
    destruct (next_write_ok w); eexists _, w', _;
      (split; [reflexivity|]); (split; [exact Hfile|]); simpl; [|done].
    by rewrite Hsync, (delete_unique _ id0 i t Hnd Ht Hid).
  - destruct (delete_task_not_found w d id0 Hf Hfind)
      as (w' & Hrun & _ & Hfile).
    unfold bind. rewrite Hrun.
    eexists _, w', d. split; [reflexivity|]. split; [by rewrite Hfile|done].
Qed.

Lemma deleteTask_keeps_list_in_sync_witness :
  file w_next_day = Some (Json doc_jan1) /\
  App.tasks (app_state (tasks doc_jan1) "") = tasks doc_jan1 /\
  NoDup (ids doc_jan1) /\
  exists st' w' d',
    App.deleteTask "1" (app_state (tasks doc_jan1) "") w_next_day
    = (Return st', w') /\
    file w' = Some (Json d') /\
    App.tasks st' = tasks d'.
Proof.
  assert (Hnd : NoDup (ids doc_jan1)).
  { apply NoDup_cons. split.
    - intros Hin. apply elem_of_cons in Hin as [Hin|Hin]; [discriminate|].
      by apply not_elem_of_nil in Hin.
    - apply NoDup_cons. split; [apply not_elem_of_nil|apply NoDup_nil_2]. }
  split; [reflexivity|]. split; [reflexivity|]. split; [exact Hnd|].
  exact (deleteTask_keeps_list_in_sync w_next_day doc_jan1
           (app_state (tasks doc_jan1) "") "1" eq_refl eq_refl Hnd).
Defined.

Lemma typed_title_valid input :
  negb (Js.truthy (Js.trim input)) = false -> Js.trim (Js.trim input) <> "".
Proof.
  intros Hin. rewrite trim_idem. intros Hempty. by rewrite Hempty in Hin.
Qed.

(** X20. Adding a task on the day of [lastReset] keeps the shown list equal to
    the stored one too, for any input and either outcome of the save. *)
Theorem addTask_keeps_list_in_sync
    (w : World) (d : Document) (st : App.State) :
  file w = Some (Json d) ->
  App.tasks st = tasks d ->
  lastReset d = today_of w ->
  exists st' w' d',
    App.addTask st w = (Return st', w') /\
    file w' = Some (Json d') /\
    App.tasks st' = tasks d'.
Proof.
  intros Hf Hsync Hday. unfold App.addTask.
  destruct (negb (Js.truthy (Js.trim (App.newTask st)))) eqn:Hin.
  - by exists st, w, d.
  - pose proof (typed_title_valid _ Hin) as Hs.
    destruct (post_tasks_same_day w d
                {| c_title := Some (Js.trim (App.newTask st));
                   c_description := Some (Js.trim (App.newDescription st));
                   c_priority := Some (App.priority st) |}
                (Js.trim (App.newTask st)) Hf eq_refl Hs Hday)
      as (w' & Hrun & _ & Hfile & _).
    unfold bind. rewrite Hrun.
    destruct (next_write_ok w); eexists _, w', _;
      (split; [reflexivity|]); (split; [exact Hfile|]); simpl; [|done].
    by rewrite Hsync.
Qed.

Lemma addTask_keeps_list_in_sync_witness :
  file w_same_day = Some (Json doc_jan1) /\
  App.tasks (app_state (tasks doc_jan1) " walk ") = tasks doc_jan1 /\
  lastReset doc_jan1 = today_of w_same_day /\
  exists st' w' d',
    App.addTask (app_state (tasks doc_jan1) " walk ") w_same_day
    = (Return st', w') /\
    file w' = Some (Json d') /\
    App.tasks st' = tasks d'.
Proof.
  assert (Hday : lastReset doc_jan1 = today_of w_same_day)
    by (vm_compute; reflexivity).
  split; [reflexivity|]. split; [reflexivity|]. split; [exact Hday|].
  exact (addTask_keeps_list_in_sync w_same_day doc_jan1
           (app_state (tasks doc_jan1) " walk ") eq_refl eq_refl Hday).
Defined.

Lemma post_tasks_valid_response req s w :
  c_title req = Some s ->
  Js.trim s <> "" ->
  exists r w',
    post_tasks req w = (Return r, w') /\
    ((exists t, r = {| status := 201; body := BTask t |} /\
                title t = Js.trim s)
     \/ r = {| status := 500; body := BError "Failed to save task" |}).
Proof.
  intros Htitle Hs. unfold post_tasks. rewrite Htitle, (valid_title s Hs).
  destruct (checkDailyReset_total w) as (b & w1 & Hcheck).
  destruct (readTasks_total w1) as (data & w2 & Hread & _).
  unfold bind at 1. rewrite Hcheck. unfold bind at 1. rewrite Hread.
  unfold bind at 1, Date_now. simpl.
  unfold bind at 1. simpl.
  unfold bind at 1, new_object, bind at 1, get_heap, put_heap, ret. simpl.
  unfold bind at 1. rewrite writeTasks_eq. cbv zeta.
  match goal with
  | |- context [if next_write_ok ?x then _ else _] => destruct (next_write_ok x)
  end; eexists _, _; (split; [reflexivity|]); [left|right; reflexivity].
  eexists. split; [reflexivity|].
  unfold load, bind, get_heap, ret. simpl. by rewrite deref_snoc_new.
Qed.

(** X21. The client's own test of the input agrees with the server's. On a
    data file that is absent, unparseable or a document: for a blank input
    [addTask] sends nothing and changes nothing; for any other input its run
    is the run of the creation request with the trimmed title, and the
    answer is 201 with the task, which is appended and the form cleared, or
    500, which is shown as an error; it is never 400. *)
Theorem addTask_is_never_refused (st : App.State) (w : World) :
  file w = None \/ file w = Some Garbage \/ (exists d, file w = Some (Json d)) ->
  (Js.trim (App.newTask st) = "" -> App.addTask st w = (Return st, w)) /\
  (Js.trim (App.newTask st) <> "" ->
   exists r st' w',
     post_tasks
       {| c_title := Some (Js.trim (App.newTask st));
          c_description := Some (Js.trim (App.newDescription st));
          c_priority := Some (App.priority st) |} w
     = (Return r, w') /\
     App.addTask st w = (Return st', w') /\
     ((exists t,
         r = {| status := 201; body := BTask t |} /\
         title t = Js.trim (App.newTask st) /\
         App.tasks st' = App.tasks st ++ [t] /\
         App.newTask st' = "" /\ App.error st' = None)
      \/ r = {| status := 500; body := BError "Failed to save task" |} /\
         st' = App.set_error "Failed to add task. Please try again." st)).
Proof.
  intros _. split.
  - intros Hblank. unfold App.addTask. by rewrite Hblank.
  - intros Hs.
    destruct (post_tasks_valid_response
                {| c_title := Some (Js.trim (App.newTask st));
                   c_description := Some (Js.trim (App.newDescription st));
                   c_priority := Some (App.priority st) |}
                (Js.trim (App.newTask st)) w eq_refl)
      as (r & w' & Hrun & Hr); [by rewrite trim_idem|].
    assert (Hin : negb (Js.truthy (Js.trim (App.newTask st))) = false).
    { unfold Js.truthy.
      destruct (String.eqb_spec (Js.trim (App.newTask st)) ""); [done|].
      rewrite trim_idem in Hr. by destruct (Js.trim (App.newTask st)). }
    unfold App.addTask. rewrite Hin. unfold bind. rewrite Hrun.
    destruct Hr as [(t & -> & Ht)| ->]; simpl.
    + eexists _, _, w'. split; [reflexivity|]. split; [reflexivity|].
      left. exists t. rewrite trim_idem in Ht. by repeat split.
    + eexists _, _, w'. split; [reflexivity|]. split; [reflexivity|].
      by right.
Qed.

Lemma addTask_is_never_refused_witness :
  (file w_no_file = None \/ file w_no_file = Some Garbage \/
   exists d, file w_no_file = Some (Json d)) /\
  Js.trim (App.newTask (app_state [] "   ")) = "" /\
  App.addTask (app_state [] "   ") w_no_file
  = (Return (app_state [] "   "), w_no_file) /\
  Js.trim (App.newTask (app_state [] " walk ")) <> "" /\
  exists r st' w',
    post_tasks
      {| c_title := Some (Js.trim (App.newTask (app_state [] " walk ")));
         c_description :=
           Some (Js.trim (App.newDescription (app_state [] " walk ")));
         c_priority := Some (App.priority (app_state [] " walk ")) |}
      w_no_file
    = (Return r, w') /\
    App.addTask (app_state [] " walk ") w_no_file = (Return st', w') /\
    ((exists t,
        r = {| status := 201; body := BTask t |} /\
        title t = Js.trim (App.newTask (app_state [] " walk ")) /\
        App.tasks st' = App.tasks (app_state [] " walk ") ++ [t] /\
        App.newTask st' = "" /\ App.error st' = None)
     \/ r = {| status := 500; body := BError "Failed to save task" |} /\
        st' = App.set_error "Failed to add task. Please try again."
                (app_state [] " walk ")).
Proof.
  assert (Hf : file w_no_file = None \/ file w_no_file = Some Garbage \/
               exists d, file w_no_file = Some (Json d))
    by (left; reflexivity).
  assert (Hs : Js.trim (App.newTask (app_state [] " walk ")) <> "")
    by (vm_compute; discriminate).
  split; [exact Hf|]. split; [reflexivity|].
  split; [exact (proj1 (addTask_is_never_refused (app_state [] "   ")
                          w_no_file Hf) eq_refl)|].
  split; [exact Hs|].
  exact (proj2 (addTask_is_never_refused (app_state [] " walk ") w_no_file Hf)
           Hs).
Defined.

(** ** The clock along a request *)

Lemma advancing_ret {A} (a : A) : advancing (ret a).
Proof. intros w o w' [= <- <-]. by split. Qed.

Lemma advancing_throw {A} e : advancing (@throw A e).
Proof. intros w o w' [= <- <-]. by split. Qed.

Lemma advancing_bind {A B} (m : M A) (k : A -> M B) :
  advancing m -> (forall a, advancing (k a)) -> advancing (bind m k).
Proof.
  intros Hm Hk w o w'. unfold bind.
  destruct (m w) as [[a|e] w1] eqn:Hrun.
  - intros Hrun2. destruct (Hm _ _ _ Hrun) as [Hc Ht].
    destruct (Hk a _ _ _ Hrun2) as [Hc2 Ht2]. split; [congruence|lia].
  - intros [= <- <-]. by apply (Hm _ _ _ Hrun).
Qed.

Lemma advancing_try_catch {A} (m : M A) (h : Exn -> M A) :
  advancing m -> (forall e, advancing (h e)) -> advancing (try_catch m h).
Proof.
  intros Hm Hh w o w'. unfold try_catch.
  destruct (m w) as [[a|e] w1] eqn:Hrun.
  - intros [= <- <-]. by apply (Hm _ _ _ Hrun).
  - intros Hrun2. destruct (Hm _ _ _ Hrun) as [Hc Ht].
    destruct (Hh e _ _ _ Hrun2) as [Hc2 Ht2]. split; [congruence|lia].
Qed.

Lemma advancing_step {A} (f : World -> Outcome A * World) :
  (forall w, clock (snd (f w)) = clock w /\ ticks w <= ticks (snd (f w))) ->
  advancing f.
Proof. intros H w o w' Hrun. specialize (H w). by rewrite Hrun in H. Qed.

Lemma advancing_forEach rs (body : nat -> M unit) :
  (forall r, advancing (body r)) -> advancing (forEach rs body).
Proof.
  intros Hb. induction rs as [|r rs IH]; simpl.
  - apply advancing_ret.
  - apply advancing_bind; [apply Hb|intros _; exact IH].
Qed.

Lemma advancing_alloc_entries es : advancing (alloc_entries es).
Proof.
  intros w o w'. rewrite alloc_entries_eq. intros [= <- <-]. by split.
Qed.

Ltac advancing_prim :=
  apply advancing_step; intros ?;
  cbv [fs_readFileSync fs_writeFileSync Date_now get_heap put_heap alloc];
  simpl;
  repeat match goal with
         | |- context [match ?x with _ => _ end] => destruct x
         | |- context [if ?x then _ else _] => destruct x
         end; simpl; split; (reflexivity || lia).

Ltac advancing_tac :=
  repeat first
    [ apply advancing_ret
    | apply advancing_throw
    | apply advancing_alloc_entries
    | apply advancing_bind; [|intros ?]
    | apply advancing_try_catch; [|intros ?]
    | apply advancing_forEach; intros ?
    | match goal with
      | |- advancing (match ?x with _ => _ end) => destruct x
      | |- advancing (if ?x then _ else _) => destruct x
      end
    | progress unfold respond, update, load, new_object, array_filter,
        findIndex, JSON_stringify, JSON_parse
    | advancing_prim ].

Lemma advancing_readTasks : advancing readTasks.
Proof. unfold readTasks. advancing_tac. Qed.

Lemma advancing_writeTasks data : advancing (writeTasks data).
Proof. unfold writeTasks. advancing_tac. Qed.

Lemma advancing_checkDailyReset : advancing checkDailyReset.
Proof.
  unfold checkDailyReset.
  apply advancing_bind; [apply advancing_readTasks|intros data].
  apply advancing_bind; [advancing_prim|intros now].
  destruct (negb _); [|apply advancing_ret].
  apply advancing_bind; [advancing_tac|intros data1].
  apply advancing_bind; [advancing_tac|intros _].
  apply advancing_bind; [apply advancing_writeTasks|intros _].
  apply advancing_ret.
Qed.

Lemma advancing_handle r : advancing (handle r).
Proof.
  destruct r as [|req|id0 req|id0|]; simpl.
  - unfold get_tasks.
    apply advancing_bind; [apply advancing_checkDailyReset|intros _].
    apply advancing_bind; [apply advancing_readTasks|intros data].
    advancing_tac.
  - unfold post_tasks. destruct (c_title req) as [s|]; [|advancing_tac].
    destruct (negb _ || _); [advancing_tac|].
    apply advancing_bind; [apply advancing_checkDailyReset|intros _].
    apply advancing_bind; [apply advancing_readTasks|intros data].
    apply advancing_bind; [advancing_prim|intros now].
    apply advancing_bind; [advancing_prim|intros at_].
    apply advancing_bind; [advancing_tac|intros r].
    apply advancing_bind; [apply advancing_writeTasks|intros ok].
    advancing_tac.
  - unfold put_task.
    apply advancing_bind; [apply advancing_readTasks|intros data].
    apply advancing_bind; [advancing_tac|intros [i|]]; [|advancing_tac].
    repeat (apply advancing_bind;
            [try apply advancing_writeTasks; advancing_tac|intros ?]).
    advancing_tac.
  - unfold delete_task.
    apply advancing_bind; [apply advancing_readTasks|intros data].
    apply advancing_bind; [advancing_tac|intros [i|]]; [|advancing_tac].
    apply advancing_bind; [apply advancing_writeTasks|intros ok].
    advancing_tac.
  - unfold get_history.
    apply advancing_bind; [apply advancing_readTasks|intros data].
    advancing_tac.
Qed.

Lemma post_tasks_ticks w d req s :
  file w = Some (Json d) ->
  c_title req = Some s ->
  Js.trim s <> "" ->
  exists r w', post_tasks req w = (Return r, w') /\ ticks w' = ticks w + 3.
Proof.
  intros Hf Htitle Hs.
  destruct (checkDailyReset_stored w d Hf)
    as (b & w1 & d1 & Hcheck & Hf1 & (_ & _ & Hk) & _).
  destruct (readTasks_stored w1 d1 Hf1) as (data & h & Hread & Hp).
  unfold post_tasks. rewrite Htitle, (valid_title s Hs).
  unfold bind at 1. rewrite Hcheck.
  unfold bind at 1. rewrite Hread.
  unfold bind at 1, Date_now. simpl.
  unfold bind at 1. simpl.
  unfold bind at 1, new_object, bind at 1, get_heap, put_heap, ret. simpl.
  unfold bind at 1. rewrite writeTasks_eq. cbv zeta.
  match goal with
  | |- context [if next_write_ok ?x then _ else _] => destruct (next_write_ok x)
  end; eexists _, _; (split; [reflexivity|]); simpl; lia.
Qed.

(** ** Ids under a clock that moves *)

Lemma handle_ids r w d :
  file w = Some (Json d) ->
  exists resp w' d',
    handle r w = (Return resp, w') /\
    file w' = Some (Json d') /\
    (ids d' `sublist_of` ids d \/
     ids d' = ids d ++ [Js.toString (clock w (S (ticks w)))] /\
     S (ticks w) < ticks w').
Proof.
  intros Hf. destruct (is_creation r) eqn:Hr.
  - destruct r as [|req|? ?|?|]; try discriminate. simpl.
    destruct (c_title req) as [s|] eqn:Htitle.
    + destruct (decide (Js.trim s = "")) as [Hs|Hs].
      * eexists _, w, d. split; [|split; [done|by left]].
        apply post_tasks_rejects_blank. by rewrite Htitle.
      * destruct (post_tasks_stored w d req s Hf Htitle Hs)
          as (b & w1 & d1 & w' & _ & _ & _ & Hd1 & _ & _ & Hrun & Hfile).
        destruct (post_tasks_ticks w d req s Hf Htitle Hs)
          as (r2 & w2 & Hrun2 & Hticks).
        rewrite Hrun in Hrun2. injection Hrun2 as _ <-.
        assert (Hids : ids d1 = ids d)
          by (destruct Hd1 as [->| ->]; [done|apply ids_rolled]).
        eexists _, w', _. split; [exact Hrun|]. split; [exact Hfile|].
        destruct (next_write_ok w1).
        -- right. split; [|lia]. unfold ids in *. simpl.
           by rewrite fmap_app, Hids.
        -- left. by rewrite Hids.
    + eexists _, w, d. split; [|split; [done|by left]].
      apply post_tasks_rejects_blank. by rewrite Htitle.
  - destruct (handle_step r w d Hf) as (resp & w' & d' & Hrun & Hf' & _ & Hsub).
    exists resp, w', d'. split; [done|]. split; [done|]. left. by apply Hsub.
Qed.

Lemma clock_monotone (clk : nat -> Z) :
  (forall k, (clk k < clk (S k))%Z) ->
  forall j k, j <= k -> (clk j <= clk k)%Z.
Proof.
  intros Hinc j k Hjk. induction Hjk as [|k _ IH]; [lia|].
  specialize (Hinc k). lia.
Qed.

Lemma serve_ids rs w d :
  file w = Some (Json d) ->
  (forall k, (clock w k < clock w (S k))%Z) ->
  NoDup (ids d) ->
  ids_from_the_past w d ->
  exists d',
    file (serve rs w) = Some (Json d') /\
    NoDup (ids d') /\ ids_from_the_past (serve rs w) d'.
Proof.
  revert w d. induction rs as [|r rs IH]; intros w d Hf Hinc Hnd Hpast; simpl.
  - by exists d.
  - destruct (handle_ids r w d Hf) as (resp & w' & d1 & Hrun & Hf1 & Hids).
    destruct (advancing_handle r _ _ _ Hrun) as [Hc Ht].
    rewrite Hrun. simpl.
    assert (Hinc' : forall k, (clock w' k < clock w' (S k))%Z)
      by (intros k; rewrite Hc; apply Hinc).
    assert (Hold : forall i, i ∈ ids d ->
              exists ms, i = Js.toString ms /\ (ms < clock w' (ticks w'))%Z).
    { intros i Hi. unfold ids_from_the_past in Hpast.
      rewrite Forall_forall in Hpast. destruct (Hpast i Hi) as (ms & -> & Hms).
      exists ms. split; [done|]. rewrite Hc.
      pose proof (clock_monotone _ Hinc _ _ Ht). lia. }
    apply (IH w' d1 Hf1 Hinc').
    + destruct Hids as [Hsub|[-> Hlt]];
        [by eapply sublist_NoDup|].
      apply NoDup_app. split; [done|]. split; [|apply NoDup_singleton].
      intros i Hi ->%list_elem_of_singleton.
      unfold ids_from_the_past in Hpast. rewrite Forall_forall in Hpast.
      destruct (Hpast _ Hi) as (ms & Heq & Hms).
      apply toString_inj in Heq. specialize (Hinc (ticks w)). lia.
    + unfold ids_from_the_past. apply Forall_forall. intros i Hi.
      destruct Hids as [Hsub|[Heq Hlt]].
      * apply Hold. eapply elem_of_sublist; [exact Hi|exact Hsub].
      * rewrite Heq in Hi. apply elem_of_app in Hi as [Hi|Hi]; [by apply Hold|].
        apply list_elem_of_singleton in Hi as ->.
        eexists. split; [reflexivity|]. rewrite Hc.
        pose proof (clock_monotone _ Hinc (S (S (ticks w))) (ticks w')
                      ltac:(lia)).
        specialize (Hinc (S (ticks w))). lia.
Qed.

(** X22. If no two readings of the clock coincide (it moves forward at every
    reading) and the ids in use are unique timestamps of the past, then ids
    are unique after any sequence of requests, creations included. *)
Theorem ids_stay_unique_with_moving_clock
    (rs : list Request) (w : World) (d : Document) :
  file w = Some (Json d) ->
  (forall k, (clock w k < clock w (S k))%Z) ->
  NoDup (ids d) ->
  ids_from_the_past w d ->
  exists d', file (serve rs w) = Some (Json d') /\ NoDup (ids d').
Proof.
  intros Hf Hinc Hnd Hpast.
  destruct (serve_ids rs w d Hf Hinc Hnd Hpast) as (d' & Hf' & Hnd' & _).
  by exists d'.
Qed.

Lemma ids_stay_unique_with_moving_clock_witness :
  file w_ticking = Some (Json doc_jan1) /\
  (forall k, (clock w_ticking k < clock w_ticking (S k))%Z) /\
  NoDup (ids doc_jan1) /\
  ids_from_the_past w_ticking doc_jan1 /\
  exists d',
    file (serve requests_two_creations w_ticking) = Some (Json d') /\
    NoDup (ids d').
Proof.
  assert (Hinc : forall k, (clock w_ticking k < clock w_ticking (S k))%Z)
    by (intros k; simpl; lia).
  assert (Hnd : NoDup (ids doc_jan1)).
  { apply NoDup_cons. split.
    - intros Hin. apply elem_of_cons in Hin as [Hin|Hin]; [discriminate|].
      by apply not_elem_of_nil in Hin.
    - apply NoDup_cons. split; [apply not_elem_of_nil|apply NoDup_nil_2]. }
  assert (Hpast : ids_from_the_past w_ticking doc_jan1).
  { repeat constructor.
    - exists 1%Z. split; [reflexivity|]. vm_compute. reflexivity.
    - exists 2%Z. split; [reflexivity|]. vm_compute. reflexivity. }
  split; [reflexivity|]. split; [exact Hinc|]. split; [exact Hnd|].
  split; [exact Hpast|].
  exact (ids_stay_unique_with_moving_clock requests_two_creations w_ticking
           doc_jan1 eq_refl Hinc Hnd Hpast).
Defined.

Example serve_requests_two_creations :
  exists d',
    file (serve requests_two_creations w_ticking) = Some (Json d') /\
    ids d' = ["2"; "1704110400001"; "1704110400004"].
Proof. eexists. vm_compute. split; reflexivity. Qed.

(** ** The history query *)

(** X23. GET /api/history answers 200 with the stored history as it is; it makes
    no rollover check, whatever the date, and writes nothing. *)
Theorem get_history_returns_stored_history (w : World) (d : Document) :
  file w = Some (Json d) ->
  exists w',
    get_history w
    = (Return {| status := 200; body := BHistory (history d) |}, w') /\
    file w' = file w /\ writes w' = writes w.
Proof.
  intros Hf. destruct (readTasks_stored w d Hf) as (data & h & Hread & Hp).
  exists (set_heap h w). split; [|by split].
  unfold get_history, bind at 1. rewrite Hread.
  unfold bind, get_heap, respond, ret. simpl.
  by rewrite (parsed_history _ _ _ Hp).
Qed.

Lemma get_history_returns_stored_history_witness :
  file w_next_day = Some (Json doc_jan1) /\
  exists w',
    get_history w_next_day
    = (Return {| status := 200; body := BHistory (history doc_jan1) |}, w') /\
    file w' = file w_next_day /\ writes w' = writes w_next_day.
Proof.
  split; [reflexivity|].
  exact (get_history_returns_stored_history w_next_day doc_jan1 eq_refl).
Defined.

(** ** Loading the list *)

(** X24. [fetchTasks] on a readable data file leaves the client with the
    stored list and the stored date, not loading and without an error:
    whatever the rollover check did and whether its save succeeded, what is
    shown is what the file holds. *)
Theorem fetchTasks_brings_list_in_sync
    (w : World) (d : Document) (st : App.State) :
  file w = Some (Json d) ->
  exists st' w' d',
    App.fetchTasks st w = (Return st', w') /\
    file w' = Some (Json d') /\
    App.tasks st' = tasks d' /\ App.lastReset st' = lastReset d' /\
    App.loading st' = false /\ App.error st' = None.
Proof.
  intros Hf.
  destruct (get_tasks_eq w d Hf)
    as (b & w1 & d1 & w' & _ & Hf1 & Hrun & Hfile & _).
  unfold App.fetchTasks, bind. rewrite Hrun. simpl.
  eexists _, w', d1. split; [reflexivity|]. split; [congruence|].
  by repeat split.
Qed.

Lemma fetchTasks_brings_list_in_sync_witness :
  file w_next_day = Some (Json doc_jan1) /\
  exists st' w' d',
    App.fetchTasks (app_state [] "") w_next_day = (Return st', w') /\
    file w' = Some (Json d') /\
    App.tasks st' = tasks d' /\ App.lastReset st' = lastReset d' /\
    App.loading st' = false /\ App.error st' = None.
Proof.
  split; [reflexivity|].
  exact (fetchTasks_brings_list_in_sync w_next_day doc_jan1 (app_state [] "")
           eq_refl).
Defined.

(** ** Start-up *)

(** X25. Started without a data file and with the clock within one day, the
    server writes the empty document dated today and its first rollover
    check finds nothing to do; but the write of the file is not guarded, so
    when it fails the start-up ends with the exception and no file. *)
Theorem startup_creates_missing_file (w : World) :
  file w = None ->
  (forall k, Js.isoDate (clock w k) = today_of w) ->
  (next_write_ok w = true ->
   exists w',
     startup w = (Return false, w') /\
     file w'
     = Some (Json {| tasks := []; lastReset := today_of w; history := [] |})
     /\
     writes w'
     = writes w ++ [{| tasks := []; lastReset := today_of w; history := [] |}])
  /\
  (next_write_ok w = false ->
   exists w', startup w = (Throw EIO, w') /\ file w' = None).
Proof.
  intros Hf Hclock. split.
  - intros Hok.
    set (fresh := {| tasks := []; lastReset := today_of w; history := [] |}).
    set (w1 := set_file (Some (Json fresh)) (log_write fresh (tick w))).
    assert (Hinit : init_data_file w = (Return tt, w1)).
    { unfold init_data_file. rewrite Hf.
      unfold bind, Date_now, fs_writeFileSync. simpl.
      unfold next_write_ok in Hok. by rewrite Hok. }
    assert (Hday : lastReset fresh = today_of w1).
    { unfold today_of at 1. simpl. by rewrite Hclock. }
    destruct (checkDailyReset_fresh w1 fresh eq_refl Hday)
      as (w' & Hrun & Hw & Hfile & _).
    exists w'. split; [|split].
    + unfold startup, bind. by rewrite Hinit.
    + by rewrite Hfile.
    + by rewrite Hw.
  - intros Hfail. eexists. split.
    + unfold startup, bind, init_data_file. rewrite Hf.
      unfold bind, Date_now, fs_writeFileSync. simpl.
      unfold next_write_ok in Hfail. rewrite Hfail. reflexivity.
    + exact Hf.
Qed.

Lemma startup_creates_missing_file_witness :
  file w_no_file = None /\
  (forall k, Js.isoDate (clock w_no_file k) = today_of w_no_file) /\
  next_write_ok w_no_file = true /\
  (exists w',
     startup w_no_file = (Return false, w') /\
     file w'
     = Some (Json {| tasks := []; lastReset := today_of w_no_file;
                     history := [] |}) /\
     writes w'
     = writes w_no_file
       ++ [{| tasks := []; lastReset := today_of w_no_file; history := [] |}])
  /\
  next_write_ok (world_at None jan2 false) = false /\
  (exists w',
     startup (world_at None jan2 false) = (Throw EIO, w') /\ file w' = None).
Proof.
  assert (Hclock : forall k,
            Js.isoDate (clock w_no_file k) = today_of w_no_file)
    by (intros k; reflexivity).
  assert (Hclock2 : forall k,
            Js.isoDate (clock (world_at None jan2 false) k)
            = today_of (world_at None jan2 false))
    by (intros k; reflexivity).
  split; [reflexivity|]. split; [exact Hclock|]. split; [reflexivity|].
  split; [exact (proj1 (startup_creates_missing_file w_no_file eq_refl Hclock)
                   eq_refl)|].
  split; [reflexivity|].
  exact (proj2 (startup_creates_missing_file (world_at None jan2 false)
                  eq_refl Hclock2) eq_refl).
Defined.

(** With a data file in place, whatever it holds, the start-up writes
    nothing of its own: it is the rollover check. *)
Example startup_keeps_existing_file :
  startup w_next_day = checkDailyReset w_next_day /\
  fst (startup (world_at (Some Garbage) jan2 true)) = Return false /\
  file (snd (startup (world_at (Some Garbage) jan2 true))) = Some Garbage.
Proof. vm_compute. repeat split. Qed.
